(** * Dashboard workspace ingestion: a shallow embedding

    Embedding of [src/plugins/utils/dashboard-workspaces-ingested.js]
    (AnVIL portal, workspace dashboard ingestion service).

    The JavaScript runtime pieces the service relies on are modelled in the
    modules [Js] (strings and numbers) and [JsValue] (values, plain objects,
    [Map]); the functions of the service follow, one definition per source
    function and under the source's names.

    Conventions of the model:
    - a JavaScript string is its text in UTF-8, a [string] of bytes; upper
      casing is the full mapping of Unicode and the white space [Number]
      strips is that of the language, both read off the UTF-8 sequences;
    - a JavaScript number is an IEEE 754 binary64 value, [spec_float] with
      precision 53 and maximal exponent 1024, and [Number(text)] reads the
      numeric literals of the language with correct rounding;
    - a call that raises is a [Throw]; an [async] function is the function it
      computes together with the possibility of rejecting, again [Throw], and
      [Promise.all] reports the rejection that settles first;
    - a plain object is a finite map from property names to values, read
      through [Object.prototype] where the source indexes it with text from
      a file;
    - the file system is a partial map from file names to contents, and the
      console the list of the lines written;
    - the two collaborators, the accession resolver and the sort service, are
      parameters of the service. *)

From Stdlib Require Import ZArith String Ascii List Bool Lia Permutation.
From Stdlib Require Import SpecFloat.
From stdpp Require Import gmap strings.
Import ListNotations.

Local Open Scope string_scope.
Local Open Scope list_scope.

(** ** Exceptions *)

(** [TypeError] is raised by the runtime; [Rejection] stands for what a
    collaborator of the service rejects with. *)
Inductive error :=
| TypeError
| Rejection.

Inductive result (A : Type) :=
| Ok (a : A)
| Throw (e : error).

Arguments Ok {A} a.
Arguments Throw {A} e.

Definition rbind {A B} (r : result A) (k : A -> result B) : result B :=
  match r with
  | Ok a => k a
  | Throw e => Throw e
  end.

Notation "'let*' x ':=' r 'in' k" := (rbind r (fun x => k))
  (at level 10, x name, r at level 100, k at level 200).

Notation "'let*' ' p ':=' r 'in' k" := (rbind r (fun x => let 'p := x in k))
  (at level 10, p pattern, r at level 100, k at level 200).

Module Js.

(** ** Strings *)

(** [s.startsWith(p)]. *)
Fixpoint startsWith (p s : string) : bool :=
  match p, s with
  | EmptyString, _ => true
  | String a p', String b s' => Ascii.eqb a b && startsWith p' s'
  | String _ _, EmptyString => false
  end.

(** [s.split(sep)] for a non-empty separator [sep]: [cur] is the piece being
    read and [skip] the number of characters of a matched separator still to
    be passed over. The pieces are maximal, the scan is left to right, and
    the empty string splits into one empty piece. *)
Fixpoint splitFrom (sep : string) (skip : nat) (cur s : string) : list string :=
  match s with
  | EmptyString => [cur]
  | String c s' =>
      match skip with
      | S k => splitFrom sep k cur s'
      | O =>
          if startsWith sep s
          then cur :: splitFrom sep (String.length sep - 1) EmptyString s'
          else splitFrom sep 0 (cur ++ String c EmptyString) s'
      end
  end.

Definition split (s sep : string) : list string := splitFrom sep 0 EmptyString s.

(** [l.join(sep)]. *)
Fixpoint join (sep : string) (l : list string) : string :=
  match l with
  | [] => EmptyString
  | [x] => x
  | x :: rest => x ++ sep ++ join sep rest
  end.

(** [s.replace(/c/g, "")] for a single character [c]. *)
Fixpoint removeAll (c : ascii) (s : string) : string :=
  match s with
  | EmptyString => EmptyString
  | String a s' => if Ascii.eqb a c then removeAll c s' else String a (removeAll c s')
  end.

Definition isLower (c : ascii) : bool :=
  let n := nat_of_ascii c in (97 <=? n)%nat && (n <=? 122)%nat.

(** The upper-case mapping of an ASCII character; other bytes are kept. *)
Definition upperChar (c : ascii) : ascii :=
  if isLower c then ascii_of_nat (nat_of_ascii c - 32) else c.

(** The upper-case mapping of the characters outside ASCII, each character
    and its image in UTF-8: the full mapping of Unicode 14 (the simple
    mappings, and the unconditional special ones that give more than one
    character). A character that is not listed is its own image. *)
Definition upperCaseTable : list (string * string) :=
  [
    ("µ", "Μ"); ("ß", "SS"); ("à", "À"); ("á", "Á"); ("â", "Â"); ("ã", "Ã");
    ("ä", "Ä"); ("å", "Å"); ("æ", "Æ"); ("ç", "Ç"); ("è", "È"); ("é", "É");
    ("ê", "Ê"); ("ë", "Ë"); ("ì", "Ì"); ("í", "Í"); ("î", "Î"); ("ï", "Ï");
    ("ð", "Ð"); ("ñ", "Ñ"); ("ò", "Ò"); ("ó", "Ó"); ("ô", "Ô"); ("õ", "Õ");
    ("ö", "Ö"); ("ø", "Ø"); ("ù", "Ù"); ("ú", "Ú"); ("û", "Û"); ("ü", "Ü");
    ("ý", "Ý"); ("þ", "Þ"); ("ÿ", "Ÿ"); ("ā", "Ā"); ("ă", "Ă"); ("ą", "Ą");
    ("ć", "Ć"); ("ĉ", "Ĉ"); ("ċ", "Ċ"); ("č", "Č"); ("ď", "Ď"); ("đ", "Đ");
    ("ē", "Ē"); ("ĕ", "Ĕ"); ("ė", "Ė"); ("ę", "Ę"); ("ě", "Ě"); ("ĝ", "Ĝ");
    ("ğ", "Ğ"); ("ġ", "Ġ"); ("ģ", "Ģ"); ("ĥ", "Ĥ"); ("ħ", "Ħ"); ("ĩ", "Ĩ");
    ("ī", "Ī"); ("ĭ", "Ĭ"); ("į", "Į"); ("ı", "I"); ("ĳ", "Ĳ"); ("ĵ", "Ĵ");
    ("ķ", "Ķ"); ("ĺ", "Ĺ"); ("ļ", "Ļ"); ("ľ", "Ľ"); ("ŀ", "Ŀ"); ("ł", "Ł");
    ("ń", "Ń"); ("ņ", "Ņ"); ("ň", "Ň"); ("ŉ", "ʼN"); ("ŋ", "Ŋ"); ("ō", "Ō");
    ("ŏ", "Ŏ"); ("ő", "Ő"); ("œ", "Œ"); ("ŕ", "Ŕ"); ("ŗ", "Ŗ"); ("ř", "Ř");
    ("ś", "Ś"); ("ŝ", "Ŝ"); ("ş", "Ş"); ("š", "Š"); ("ţ", "Ţ"); ("ť", "Ť");
    ("ŧ", "Ŧ"); ("ũ", "Ũ"); ("ū", "Ū"); ("ŭ", "Ŭ"); ("ů", "Ů"); ("ű", "Ű");
    ("ų", "Ų"); ("ŵ", "Ŵ"); ("ŷ", "Ŷ"); ("ź", "Ź"); ("ż", "Ż"); ("ž", "Ž");
    ("ſ", "S"); ("ƀ", "Ƀ"); ("ƃ", "Ƃ"); ("ƅ", "Ƅ"); ("ƈ", "Ƈ"); ("ƌ", "Ƌ");
    ("ƒ", "Ƒ"); ("ƕ", "Ƕ"); ("ƙ", "Ƙ"); ("ƚ", "Ƚ"); ("ƞ", "Ƞ"); ("ơ", "Ơ");
    ("ƣ", "Ƣ"); ("ƥ", "Ƥ"); ("ƨ", "Ƨ"); ("ƭ", "Ƭ"); ("ư", "Ư"); ("ƴ", "Ƴ");
    ("ƶ", "Ƶ"); ("ƹ", "Ƹ"); ("ƽ", "Ƽ"); ("ƿ", "Ƿ"); ("ǅ", "Ǆ"); ("ǆ", "Ǆ");
    ("ǈ", "Ǉ"); ("ǉ", "Ǉ"); ("ǋ", "Ǌ"); ("ǌ", "Ǌ"); ("ǎ", "Ǎ"); ("ǐ", "Ǐ");
    ("ǒ", "Ǒ"); ("ǔ", "Ǔ"); ("ǖ", "Ǖ"); ("ǘ", "Ǘ"); ("ǚ", "Ǚ"); ("ǜ", "Ǜ");
    ("ǝ", "Ǝ"); ("ǟ", "Ǟ"); ("ǡ", "Ǡ"); ("ǣ", "Ǣ"); ("ǥ", "Ǥ"); ("ǧ", "Ǧ");
    ("ǩ", "Ǩ"); ("ǫ", "Ǫ"); ("ǭ", "Ǭ"); ("ǯ", "Ǯ"); ("ǰ", "J̌"); ("ǲ", "Ǳ");
    ("ǳ", "Ǳ"); ("ǵ", "Ǵ"); ("ǹ", "Ǹ"); ("ǻ", "Ǻ"); ("ǽ", "Ǽ"); ("ǿ", "Ǿ");
    ("ȁ", "Ȁ"); ("ȃ", "Ȃ"); ("ȅ", "Ȅ"); ("ȇ", "Ȇ"); ("ȉ", "Ȉ"); ("ȋ", "Ȋ");
    ("ȍ", "Ȍ"); ("ȏ", "Ȏ"); ("ȑ", "Ȑ"); ("ȓ", "Ȓ"); ("ȕ", "Ȕ"); ("ȗ", "Ȗ");
    ("ș", "Ș"); ("ț", "Ț"); ("ȝ", "Ȝ"); ("ȟ", "Ȟ"); ("ȣ", "Ȣ"); ("ȥ", "Ȥ");
    ("ȧ", "Ȧ"); ("ȩ", "Ȩ"); ("ȫ", "Ȫ"); ("ȭ", "Ȭ"); ("ȯ", "Ȯ"); ("ȱ", "Ȱ");
    ("ȳ", "Ȳ"); ("ȼ", "Ȼ"); ("ȿ", "Ȿ"); ("ɀ", "Ɀ"); ("ɂ", "Ɂ"); ("ɇ", "Ɇ");
    ("ɉ", "Ɉ"); ("ɋ", "Ɋ"); ("ɍ", "Ɍ"); ("ɏ", "Ɏ"); ("ɐ", "Ɐ"); ("ɑ", "Ɑ");
    ("ɒ", "Ɒ"); ("ɓ", "Ɓ"); ("ɔ", "Ɔ"); ("ɖ", "Ɖ"); ("ɗ", "Ɗ"); ("ə", "Ə");
    ("ɛ", "Ɛ"); ("ɜ", "Ɜ"); ("ɠ", "Ɠ"); ("ɡ", "Ɡ"); ("ɣ", "Ɣ"); ("ɥ", "Ɥ");
    ("ɦ", "Ɦ"); ("ɨ", "Ɨ"); ("ɩ", "Ɩ"); ("ɪ", "Ɪ"); ("ɫ", "Ɫ"); ("ɬ", "Ɬ");
    ("ɯ", "Ɯ"); ("ɱ", "Ɱ"); ("ɲ", "Ɲ"); ("ɵ", "Ɵ"); ("ɽ", "Ɽ"); ("ʀ", "Ʀ");
    ("ʂ", "Ʂ"); ("ʃ", "Ʃ"); ("ʇ", "Ʇ"); ("ʈ", "Ʈ"); ("ʉ", "Ʉ"); ("ʊ", "Ʊ");
    ("ʋ", "Ʋ"); ("ʌ", "Ʌ"); ("ʒ", "Ʒ"); ("ʝ", "Ʝ"); ("ʞ", "Ʞ"); ("ͅ", "Ι");
    ("ͱ", "Ͱ"); ("ͳ", "Ͳ"); ("ͷ", "Ͷ"); ("ͻ", "Ͻ"); ("ͼ", "Ͼ"); ("ͽ", "Ͽ");
    ("ΐ", "Ϊ́"); ("ά", "Ά"); ("έ", "Έ"); ("ή", "Ή"); ("ί", "Ί"); ("ΰ", "Ϋ́");
    ("α", "Α"); ("β", "Β"); ("γ", "Γ"); ("δ", "Δ"); ("ε", "Ε"); ("ζ", "Ζ");
    ("η", "Η"); ("θ", "Θ"); ("ι", "Ι"); ("κ", "Κ"); ("λ", "Λ"); ("μ", "Μ");
    ("ν", "Ν"); ("ξ", "Ξ"); ("ο", "Ο"); ("π", "Π"); ("ρ", "Ρ"); ("ς", "Σ");
    ("σ", "Σ"); ("τ", "Τ"); ("υ", "Υ"); ("φ", "Φ"); ("χ", "Χ"); ("ψ", "Ψ");
    ("ω", "Ω"); ("ϊ", "Ϊ"); ("ϋ", "Ϋ"); ("ό", "Ό"); ("ύ", "Ύ"); ("ώ", "Ώ");
    ("ϐ", "Β"); ("ϑ", "Θ"); ("ϕ", "Φ"); ("ϖ", "Π"); ("ϗ", "Ϗ"); ("ϙ", "Ϙ");
    ("ϛ", "Ϛ"); ("ϝ", "Ϝ"); ("ϟ", "Ϟ"); ("ϡ", "Ϡ"); ("ϣ", "Ϣ"); ("ϥ", "Ϥ");
    ("ϧ", "Ϧ"); ("ϩ", "Ϩ"); ("ϫ", "Ϫ"); ("ϭ", "Ϭ"); ("ϯ", "Ϯ"); ("ϰ", "Κ");
    ("ϱ", "Ρ"); ("ϲ", "Ϲ"); ("ϳ", "Ϳ"); ("ϵ", "Ε"); ("ϸ", "Ϸ"); ("ϻ", "Ϻ");
    ("а", "А"); ("б", "Б"); ("в", "В"); ("г", "Г"); ("д", "Д"); ("е", "Е");
    ("ж", "Ж"); ("з", "З"); ("и", "И"); ("й", "Й"); ("к", "К"); ("л", "Л");
    ("м", "М"); ("н", "Н"); ("о", "О"); ("п", "П"); ("р", "Р"); ("с", "С");
    ("т", "Т"); ("у", "У"); ("ф", "Ф"); ("х", "Х"); ("ц", "Ц"); ("ч", "Ч");
    ("ш", "Ш"); ("щ", "Щ"); ("ъ", "Ъ"); ("ы", "Ы"); ("ь", "Ь"); ("э", "Э");
    ("ю", "Ю"); ("я", "Я"); ("ѐ", "Ѐ"); ("ё", "Ё"); ("ђ", "Ђ"); ("ѓ", "Ѓ");
    ("є", "Є"); ("ѕ", "Ѕ"); ("і", "І"); ("ї", "Ї"); ("ј", "Ј"); ("љ", "Љ");
    ("њ", "Њ"); ("ћ", "Ћ"); ("ќ", "Ќ"); ("ѝ", "Ѝ"); ("ў", "Ў"); ("џ", "Џ");
    ("ѡ", "Ѡ"); ("ѣ", "Ѣ"); ("ѥ", "Ѥ"); ("ѧ", "Ѧ"); ("ѩ", "Ѩ"); ("ѫ", "Ѫ");
    ("ѭ", "Ѭ"); ("ѯ", "Ѯ"); ("ѱ", "Ѱ"); ("ѳ", "Ѳ"); ("ѵ", "Ѵ"); ("ѷ", "Ѷ");
    ("ѹ", "Ѹ"); ("ѻ", "Ѻ"); ("ѽ", "Ѽ"); ("ѿ", "Ѿ"); ("ҁ", "Ҁ"); ("ҋ", "Ҋ");
    ("ҍ", "Ҍ"); ("ҏ", "Ҏ"); ("ґ", "Ґ"); ("ғ", "Ғ"); ("ҕ", "Ҕ"); ("җ", "Җ");
    ("ҙ", "Ҙ"); ("қ", "Қ"); ("ҝ", "Ҝ"); ("ҟ", "Ҟ"); ("ҡ", "Ҡ"); ("ң", "Ң");
    ("ҥ", "Ҥ"); ("ҧ", "Ҧ"); ("ҩ", "Ҩ"); ("ҫ", "Ҫ"); ("ҭ", "Ҭ"); ("ү", "Ү");
    ("ұ", "Ұ"); ("ҳ", "Ҳ"); ("ҵ", "Ҵ"); ("ҷ", "Ҷ"); ("ҹ", "Ҹ"); ("һ", "Һ");
    ("ҽ", "Ҽ"); ("ҿ", "Ҿ"); ("ӂ", "Ӂ"); ("ӄ", "Ӄ"); ("ӆ", "Ӆ"); ("ӈ", "Ӈ");
    ("ӊ", "Ӊ"); ("ӌ", "Ӌ"); ("ӎ", "Ӎ"); ("ӏ", "Ӏ"); ("ӑ", "Ӑ"); ("ӓ", "Ӓ");
    ("ӕ", "Ӕ"); ("ӗ", "Ӗ"); ("ә", "Ә"); ("ӛ", "Ӛ"); ("ӝ", "Ӝ"); ("ӟ", "Ӟ");
    ("ӡ", "Ӡ"); ("ӣ", "Ӣ"); ("ӥ", "Ӥ"); ("ӧ", "Ӧ"); ("ө", "Ө"); ("ӫ", "Ӫ");
    ("ӭ", "Ӭ"); ("ӯ", "Ӯ"); ("ӱ", "Ӱ"); ("ӳ", "Ӳ"); ("ӵ", "Ӵ"); ("ӷ", "Ӷ");
    ("ӹ", "Ӹ"); ("ӻ", "Ӻ"); ("ӽ", "Ӽ"); ("ӿ", "Ӿ"); ("ԁ", "Ԁ"); ("ԃ", "Ԃ");
    ("ԅ", "Ԅ"); ("ԇ", "Ԇ"); ("ԉ", "Ԉ"); ("ԋ", "Ԋ"); ("ԍ", "Ԍ"); ("ԏ", "Ԏ");
    ("ԑ", "Ԑ"); ("ԓ", "Ԓ"); ("ԕ", "Ԕ"); ("ԗ", "Ԗ"); ("ԙ", "Ԙ"); ("ԛ", "Ԛ");
    ("ԝ", "Ԝ"); ("ԟ", "Ԟ"); ("ԡ", "Ԡ"); ("ԣ", "Ԣ"); ("ԥ", "Ԥ"); ("ԧ", "Ԧ");
    ("ԩ", "Ԩ"); ("ԫ", "Ԫ"); ("ԭ", "Ԭ"); ("ԯ", "Ԯ"); ("ա", "Ա"); ("բ", "Բ");
    ("գ", "Գ"); ("դ", "Դ"); ("ե", "Ե"); ("զ", "Զ"); ("է", "Է"); ("ը", "Ը");
    ("թ", "Թ"); ("ժ", "Ժ"); ("ի", "Ի"); ("լ", "Լ"); ("խ", "Խ"); ("ծ", "Ծ");
    ("կ", "Կ"); ("հ", "Հ"); ("ձ", "Ձ"); ("ղ", "Ղ"); ("ճ", "Ճ"); ("մ", "Մ");
    ("յ", "Յ"); ("ն", "Ն"); ("շ", "Շ"); ("ո", "Ո"); ("չ", "Չ"); ("պ", "Պ");
    ("ջ", "Ջ"); ("ռ", "Ռ"); ("ս", "Ս"); ("վ", "Վ"); ("տ", "Տ"); ("ր", "Ր");
    ("ց", "Ց"); ("ւ", "Ւ"); ("փ", "Փ"); ("ք", "Ք"); ("օ", "Օ"); ("ֆ", "Ֆ");
    ("և", "ԵՒ"); ("ა", "Ა"); ("ბ", "Ბ"); ("გ", "Გ"); ("დ", "Დ"); ("ე", "Ე");
    ("ვ", "Ვ"); ("ზ", "Ზ"); ("თ", "Თ"); ("ი", "Ი"); ("კ", "Კ"); ("ლ", "Ლ");
    ("მ", "Მ"); ("ნ", "Ნ"); ("ო", "Ო"); ("პ", "Პ"); ("ჟ", "Ჟ"); ("რ", "Რ");
    ("ს", "Ს"); ("ტ", "Ტ"); ("უ", "Უ"); ("ფ", "Ფ"); ("ქ", "Ქ"); ("ღ", "Ღ");
    ("ყ", "Ყ"); ("შ", "Შ"); ("ჩ", "Ჩ"); ("ც", "Ც"); ("ძ", "Ძ"); ("წ", "Წ");
    ("ჭ", "Ჭ"); ("ხ", "Ხ"); ("ჯ", "Ჯ"); ("ჰ", "Ჰ"); ("ჱ", "Ჱ"); ("ჲ", "Ჲ");
    ("ჳ", "Ჳ"); ("ჴ", "Ჴ"); ("ჵ", "Ჵ"); ("ჶ", "Ჶ"); ("ჷ", "Ჷ"); ("ჸ", "Ჸ");
    ("ჹ", "Ჹ"); ("ჺ", "Ჺ"); ("ჽ", "Ჽ"); ("ჾ", "Ჾ"); ("ჿ", "Ჿ"); ("ᏸ", "Ᏸ");
    ("ᏹ", "Ᏹ"); ("ᏺ", "Ᏺ"); ("ᏻ", "Ᏻ"); ("ᏼ", "Ᏼ"); ("ᏽ", "Ᏽ"); ("ᲀ", "В");
    ("ᲁ", "Д"); ("ᲂ", "О"); ("ᲃ", "С"); ("ᲄ", "Т"); ("ᲅ", "Т"); ("ᲆ", "Ъ");
    ("ᲇ", "Ѣ"); ("ᲈ", "Ꙋ"); ("ᵹ", "Ᵹ"); ("ᵽ", "Ᵽ"); ("ᶎ", "Ᶎ"); ("ḁ", "Ḁ");
    ("ḃ", "Ḃ"); ("ḅ", "Ḅ"); ("ḇ", "Ḇ"); ("ḉ", "Ḉ"); ("ḋ", "Ḋ"); ("ḍ", "Ḍ");
    ("ḏ", "Ḏ"); ("ḑ", "Ḑ"); ("ḓ", "Ḓ"); ("ḕ", "Ḕ"); ("ḗ", "Ḗ"); ("ḙ", "Ḙ");
    ("ḛ", "Ḛ"); ("ḝ", "Ḝ"); ("ḟ", "Ḟ"); ("ḡ", "Ḡ"); ("ḣ", "Ḣ"); ("ḥ", "Ḥ");
    ("ḧ", "Ḧ"); ("ḩ", "Ḩ"); ("ḫ", "Ḫ"); ("ḭ", "Ḭ"); ("ḯ", "Ḯ"); ("ḱ", "Ḱ");
    ("ḳ", "Ḳ"); ("ḵ", "Ḵ"); ("ḷ", "Ḷ"); ("ḹ", "Ḹ"); ("ḻ", "Ḻ"); ("ḽ", "Ḽ");
    ("ḿ", "Ḿ"); ("ṁ", "Ṁ"); ("ṃ", "Ṃ"); ("ṅ", "Ṅ"); ("ṇ", "Ṇ"); ("ṉ", "Ṉ");
    ("ṋ", "Ṋ"); ("ṍ", "Ṍ"); ("ṏ", "Ṏ"); ("ṑ", "Ṑ"); ("ṓ", "Ṓ"); ("ṕ", "Ṕ");
    ("ṗ", "Ṗ"); ("ṙ", "Ṙ"); ("ṛ", "Ṛ"); ("ṝ", "Ṝ"); ("ṟ", "Ṟ"); ("ṡ", "Ṡ");
    ("ṣ", "Ṣ"); ("ṥ", "Ṥ"); ("ṧ", "Ṧ"); ("ṩ", "Ṩ"); ("ṫ", "Ṫ"); ("ṭ", "Ṭ");
    ("ṯ", "Ṯ"); ("ṱ", "Ṱ"); ("ṳ", "Ṳ"); ("ṵ", "Ṵ"); ("ṷ", "Ṷ"); ("ṹ", "Ṹ");
    ("ṻ", "Ṻ"); ("ṽ", "Ṽ"); ("ṿ", "Ṿ"); ("ẁ", "Ẁ"); ("ẃ", "Ẃ"); ("ẅ", "Ẅ");
    ("ẇ", "Ẇ"); ("ẉ", "Ẉ"); ("ẋ", "Ẋ"); ("ẍ", "Ẍ"); ("ẏ", "Ẏ"); ("ẑ", "Ẑ");
    ("ẓ", "Ẓ"); ("ẕ", "Ẕ"); ("ẖ", "H̱"); ("ẗ", "T̈"); ("ẘ", "W̊"); ("ẙ", "Y̊");
    ("ẚ", "Aʾ"); ("ẛ", "Ṡ"); ("ạ", "Ạ"); ("ả", "Ả"); ("ấ", "Ấ"); ("ầ", "Ầ");
    ("ẩ", "Ẩ"); ("ẫ", "Ẫ"); ("ậ", "Ậ"); ("ắ", "Ắ"); ("ằ", "Ằ"); ("ẳ", "Ẳ");
    ("ẵ", "Ẵ"); ("ặ", "Ặ"); ("ẹ", "Ẹ"); ("ẻ", "Ẻ"); ("ẽ", "Ẽ"); ("ế", "Ế");
    ("ề", "Ề"); ("ể", "Ể"); ("ễ", "Ễ"); ("ệ", "Ệ"); ("ỉ", "Ỉ"); ("ị", "Ị");
    ("ọ", "Ọ"); ("ỏ", "Ỏ"); ("ố", "Ố"); ("ồ", "Ồ"); ("ổ", "Ổ"); ("ỗ", "Ỗ");
    ("ộ", "Ộ"); ("ớ", "Ớ"); ("ờ", "Ờ"); ("ở", "Ở"); ("ỡ", "Ỡ"); ("ợ", "Ợ");
    ("ụ", "Ụ"); ("ủ", "Ủ"); ("ứ", "Ứ"); ("ừ", "Ừ"); ("ử", "Ử"); ("ữ", "Ữ");
    ("ự", "Ự"); ("ỳ", "Ỳ"); ("ỵ", "Ỵ"); ("ỷ", "Ỷ"); ("ỹ", "Ỹ"); ("ỻ", "Ỻ");
    ("ỽ", "Ỽ"); ("ỿ", "Ỿ"); ("ἀ", "Ἀ"); ("ἁ", "Ἁ"); ("ἂ", "Ἂ"); ("ἃ", "Ἃ");
    ("ἄ", "Ἄ"); ("ἅ", "Ἅ"); ("ἆ", "Ἆ"); ("ἇ", "Ἇ"); ("ἐ", "Ἐ"); ("ἑ", "Ἑ");
    ("ἒ", "Ἒ"); ("ἓ", "Ἓ"); ("ἔ", "Ἔ"); ("ἕ", "Ἕ"); ("ἠ", "Ἠ"); ("ἡ", "Ἡ");
    ("ἢ", "Ἢ"); ("ἣ", "Ἣ"); ("ἤ", "Ἤ"); ("ἥ", "Ἥ"); ("ἦ", "Ἦ"); ("ἧ", "Ἧ");
    ("ἰ", "Ἰ"); ("ἱ", "Ἱ"); ("ἲ", "Ἲ"); ("ἳ", "Ἳ"); ("ἴ", "Ἴ"); ("ἵ", "Ἵ");
    ("ἶ", "Ἶ"); ("ἷ", "Ἷ"); ("ὀ", "Ὀ"); ("ὁ", "Ὁ"); ("ὂ", "Ὂ"); ("ὃ", "Ὃ");
    ("ὄ", "Ὄ"); ("ὅ", "Ὅ"); ("ὐ", "Υ̓"); ("ὑ", "Ὑ"); ("ὒ", "Υ̓̀"); ("ὓ", "Ὓ");
    ("ὔ", "Υ̓́"); ("ὕ", "Ὕ"); ("ὖ", "Υ̓͂"); ("ὗ", "Ὗ"); ("ὠ", "Ὠ"); ("ὡ", "Ὡ");
    ("ὢ", "Ὢ"); ("ὣ", "Ὣ"); ("ὤ", "Ὤ"); ("ὥ", "Ὥ"); ("ὦ", "Ὦ"); ("ὧ", "Ὧ");
    ("ὰ", "Ὰ"); ("ά", "Ά"); ("ὲ", "Ὲ"); ("έ", "Έ"); ("ὴ", "Ὴ"); ("ή", "Ή");
    ("ὶ", "Ὶ"); ("ί", "Ί"); ("ὸ", "Ὸ"); ("ό", "Ό"); ("ὺ", "Ὺ"); ("ύ", "Ύ");
    ("ὼ", "Ὼ"); ("ώ", "Ώ"); ("ᾀ", "ἈΙ"); ("ᾁ", "ἉΙ"); ("ᾂ", "ἊΙ"); ("ᾃ", "ἋΙ");
    ("ᾄ", "ἌΙ"); ("ᾅ", "ἍΙ"); ("ᾆ", "ἎΙ"); ("ᾇ", "ἏΙ"); ("ᾈ", "ἈΙ"); ("ᾉ", "ἉΙ");
    ("ᾊ", "ἊΙ"); ("ᾋ", "ἋΙ"); ("ᾌ", "ἌΙ"); ("ᾍ", "ἍΙ"); ("ᾎ", "ἎΙ"); ("ᾏ", "ἏΙ");
    ("ᾐ", "ἨΙ"); ("ᾑ", "ἩΙ"); ("ᾒ", "ἪΙ"); ("ᾓ", "ἫΙ"); ("ᾔ", "ἬΙ"); ("ᾕ", "ἭΙ");
    ("ᾖ", "ἮΙ"); ("ᾗ", "ἯΙ"); ("ᾘ", "ἨΙ"); ("ᾙ", "ἩΙ"); ("ᾚ", "ἪΙ"); ("ᾛ", "ἫΙ");
    ("ᾜ", "ἬΙ"); ("ᾝ", "ἭΙ"); ("ᾞ", "ἮΙ"); ("ᾟ", "ἯΙ"); ("ᾠ", "ὨΙ"); ("ᾡ", "ὩΙ");
    ("ᾢ", "ὪΙ"); ("ᾣ", "ὫΙ"); ("ᾤ", "ὬΙ"); ("ᾥ", "ὭΙ"); ("ᾦ", "ὮΙ"); ("ᾧ", "ὯΙ");
    ("ᾨ", "ὨΙ"); ("ᾩ", "ὩΙ"); ("ᾪ", "ὪΙ"); ("ᾫ", "ὫΙ"); ("ᾬ", "ὬΙ"); ("ᾭ", "ὭΙ");
    ("ᾮ", "ὮΙ"); ("ᾯ", "ὯΙ"); ("ᾰ", "Ᾰ"); ("ᾱ", "Ᾱ"); ("ᾲ", "ᾺΙ"); ("ᾳ", "ΑΙ");
    ("ᾴ", "ΆΙ"); ("ᾶ", "Α͂"); ("ᾷ", "Α͂Ι"); ("ᾼ", "ΑΙ"); ("ι", "Ι"); ("ῂ", "ῊΙ");
    ("ῃ", "ΗΙ"); ("ῄ", "ΉΙ"); ("ῆ", "Η͂"); ("ῇ", "Η͂Ι"); ("ῌ", "ΗΙ"); ("ῐ", "Ῐ");
    ("ῑ", "Ῑ"); ("ῒ", "Ϊ̀"); ("ΐ", "Ϊ́"); ("ῖ", "Ι͂"); ("ῗ", "Ϊ͂"); ("ῠ", "Ῠ");
    ("ῡ", "Ῡ"); ("ῢ", "Ϋ̀"); ("ΰ", "Ϋ́"); ("ῤ", "Ρ̓"); ("ῥ", "Ῥ"); ("ῦ", "Υ͂");
    ("ῧ", "Ϋ͂"); ("ῲ", "ῺΙ"); ("ῳ", "ΩΙ"); ("ῴ", "ΏΙ"); ("ῶ", "Ω͂"); ("ῷ", "Ω͂Ι");
    ("ῼ", "ΩΙ"); ("ⅎ", "Ⅎ"); ("ⅰ", "Ⅰ"); ("ⅱ", "Ⅱ"); ("ⅲ", "Ⅲ"); ("ⅳ", "Ⅳ");
    ("ⅴ", "Ⅴ"); ("ⅵ", "Ⅵ"); ("ⅶ", "Ⅶ"); ("ⅷ", "Ⅷ"); ("ⅸ", "Ⅸ"); ("ⅹ", "Ⅹ");
    ("ⅺ", "Ⅺ"); ("ⅻ", "Ⅻ"); ("ⅼ", "Ⅼ"); ("ⅽ", "Ⅽ"); ("ⅾ", "Ⅾ"); ("ⅿ", "Ⅿ");
    ("ↄ", "Ↄ"); ("ⓐ", "Ⓐ"); ("ⓑ", "Ⓑ"); ("ⓒ", "Ⓒ"); ("ⓓ", "Ⓓ"); ("ⓔ", "Ⓔ");
    ("ⓕ", "Ⓕ"); ("ⓖ", "Ⓖ"); ("ⓗ", "Ⓗ"); ("ⓘ", "Ⓘ"); ("ⓙ", "Ⓙ"); ("ⓚ", "Ⓚ");
    ("ⓛ", "Ⓛ"); ("ⓜ", "Ⓜ"); ("ⓝ", "Ⓝ"); ("ⓞ", "Ⓞ"); ("ⓟ", "Ⓟ"); ("ⓠ", "Ⓠ");
    ("ⓡ", "Ⓡ"); ("ⓢ", "Ⓢ"); ("ⓣ", "Ⓣ"); ("ⓤ", "Ⓤ"); ("ⓥ", "Ⓥ"); ("ⓦ", "Ⓦ");
    ("ⓧ", "Ⓧ"); ("ⓨ", "Ⓨ"); ("ⓩ", "Ⓩ"); ("ⰰ", "Ⰰ"); ("ⰱ", "Ⰱ"); ("ⰲ", "Ⰲ");
    ("ⰳ", "Ⰳ"); ("ⰴ", "Ⰴ"); ("ⰵ", "Ⰵ"); ("ⰶ", "Ⰶ"); ("ⰷ", "Ⰷ"); ("ⰸ", "Ⰸ");
    ("ⰹ", "Ⰹ"); ("ⰺ", "Ⰺ"); ("ⰻ", "Ⰻ"); ("ⰼ", "Ⰼ"); ("ⰽ", "Ⰽ"); ("ⰾ", "Ⰾ");
    ("ⰿ", "Ⰿ"); ("ⱀ", "Ⱀ"); ("ⱁ", "Ⱁ"); ("ⱂ", "Ⱂ"); ("ⱃ", "Ⱃ"); ("ⱄ", "Ⱄ");
    ("ⱅ", "Ⱅ"); ("ⱆ", "Ⱆ"); ("ⱇ", "Ⱇ"); ("ⱈ", "Ⱈ"); ("ⱉ", "Ⱉ"); ("ⱊ", "Ⱊ");
    ("ⱋ", "Ⱋ"); ("ⱌ", "Ⱌ"); ("ⱍ", "Ⱍ"); ("ⱎ", "Ⱎ"); ("ⱏ", "Ⱏ"); ("ⱐ", "Ⱐ");
    ("ⱑ", "Ⱑ"); ("ⱒ", "Ⱒ"); ("ⱓ", "Ⱓ"); ("ⱔ", "Ⱔ"); ("ⱕ", "Ⱕ"); ("ⱖ", "Ⱖ");
    ("ⱗ", "Ⱗ"); ("ⱘ", "Ⱘ"); ("ⱙ", "Ⱙ"); ("ⱚ", "Ⱚ"); ("ⱛ", "Ⱛ"); ("ⱜ", "Ⱜ");
    ("ⱝ", "Ⱝ"); ("ⱞ", "Ⱞ"); ("ⱟ", "Ⱟ"); ("ⱡ", "Ⱡ"); ("ⱥ", "Ⱥ"); ("ⱦ", "Ⱦ");
    ("ⱨ", "Ⱨ"); ("ⱪ", "Ⱪ"); ("ⱬ", "Ⱬ"); ("ⱳ", "Ⱳ"); ("ⱶ", "Ⱶ"); ("ⲁ", "Ⲁ");
    ("ⲃ", "Ⲃ"); ("ⲅ", "Ⲅ"); ("ⲇ", "Ⲇ"); ("ⲉ", "Ⲉ"); ("ⲋ", "Ⲋ"); ("ⲍ", "Ⲍ");
    ("ⲏ", "Ⲏ"); ("ⲑ", "Ⲑ"); ("ⲓ", "Ⲓ"); ("ⲕ", "Ⲕ"); ("ⲗ", "Ⲗ"); ("ⲙ", "Ⲙ");
    ("ⲛ", "Ⲛ"); ("ⲝ", "Ⲝ"); ("ⲟ", "Ⲟ"); ("ⲡ", "Ⲡ"); ("ⲣ", "Ⲣ"); ("ⲥ", "Ⲥ");
    ("ⲧ", "Ⲧ"); ("ⲩ", "Ⲩ"); ("ⲫ", "Ⲫ"); ("ⲭ", "Ⲭ"); ("ⲯ", "Ⲯ"); ("ⲱ", "Ⲱ");
    ("ⲳ", "Ⲳ"); ("ⲵ", "Ⲵ"); ("ⲷ", "Ⲷ"); ("ⲹ", "Ⲹ"); ("ⲻ", "Ⲻ"); ("ⲽ", "Ⲽ");
    ("ⲿ", "Ⲿ"); ("ⳁ", "Ⳁ"); ("ⳃ", "Ⳃ"); ("ⳅ", "Ⳅ"); ("ⳇ", "Ⳇ"); ("ⳉ", "Ⳉ");
    ("ⳋ", "Ⳋ"); ("ⳍ", "Ⳍ"); ("ⳏ", "Ⳏ"); ("ⳑ", "Ⳑ"); ("ⳓ", "Ⳓ"); ("ⳕ", "Ⳕ");
    ("ⳗ", "Ⳗ"); ("ⳙ", "Ⳙ"); ("ⳛ", "Ⳛ"); ("ⳝ", "Ⳝ"); ("ⳟ", "Ⳟ"); ("ⳡ", "Ⳡ");
    ("ⳣ", "Ⳣ"); ("ⳬ", "Ⳬ"); ("ⳮ", "Ⳮ"); ("ⳳ", "Ⳳ"); ("ⴀ", "Ⴀ"); ("ⴁ", "Ⴁ");
    ("ⴂ", "Ⴂ"); ("ⴃ", "Ⴃ"); ("ⴄ", "Ⴄ"); ("ⴅ", "Ⴅ"); ("ⴆ", "Ⴆ"); ("ⴇ", "Ⴇ");
    ("ⴈ", "Ⴈ"); ("ⴉ", "Ⴉ"); ("ⴊ", "Ⴊ"); ("ⴋ", "Ⴋ"); ("ⴌ", "Ⴌ"); ("ⴍ", "Ⴍ");
    ("ⴎ", "Ⴎ"); ("ⴏ", "Ⴏ"); ("ⴐ", "Ⴐ"); ("ⴑ", "Ⴑ"); ("ⴒ", "Ⴒ"); ("ⴓ", "Ⴓ");
    ("ⴔ", "Ⴔ"); ("ⴕ", "Ⴕ"); ("ⴖ", "Ⴖ"); ("ⴗ", "Ⴗ"); ("ⴘ", "Ⴘ"); ("ⴙ", "Ⴙ");
    ("ⴚ", "Ⴚ"); ("ⴛ", "Ⴛ"); ("ⴜ", "Ⴜ"); ("ⴝ", "Ⴝ"); ("ⴞ", "Ⴞ"); ("ⴟ", "Ⴟ");
    ("ⴠ", "Ⴠ"); ("ⴡ", "Ⴡ"); ("ⴢ", "Ⴢ"); ("ⴣ", "Ⴣ"); ("ⴤ", "Ⴤ"); ("ⴥ", "Ⴥ");
    ("ⴧ", "Ⴧ"); ("ⴭ", "Ⴭ"); ("ꙁ", "Ꙁ"); ("ꙃ", "Ꙃ"); ("ꙅ", "Ꙅ"); ("ꙇ", "Ꙇ");
    ("ꙉ", "Ꙉ"); ("ꙋ", "Ꙋ"); ("ꙍ", "Ꙍ"); ("ꙏ", "Ꙏ"); ("ꙑ", "Ꙑ"); ("ꙓ", "Ꙓ");
    ("ꙕ", "Ꙕ"); ("ꙗ", "Ꙗ"); ("ꙙ", "Ꙙ"); ("ꙛ", "Ꙛ"); ("ꙝ", "Ꙝ"); ("ꙟ", "Ꙟ");
    ("ꙡ", "Ꙡ"); ("ꙣ", "Ꙣ"); ("ꙥ", "Ꙥ"); ("ꙧ", "Ꙧ"); ("ꙩ", "Ꙩ"); ("ꙫ", "Ꙫ");
    ("ꙭ", "Ꙭ"); ("ꚁ", "Ꚁ"); ("ꚃ", "Ꚃ"); ("ꚅ", "Ꚅ"); ("ꚇ", "Ꚇ"); ("ꚉ", "Ꚉ");
    ("ꚋ", "Ꚋ"); ("ꚍ", "Ꚍ"); ("ꚏ", "Ꚏ"); ("ꚑ", "Ꚑ"); ("ꚓ", "Ꚓ"); ("ꚕ", "Ꚕ");
    ("ꚗ", "Ꚗ"); ("ꚙ", "Ꚙ"); ("ꚛ", "Ꚛ"); ("ꜣ", "Ꜣ"); ("ꜥ", "Ꜥ"); ("ꜧ", "Ꜧ");
    ("ꜩ", "Ꜩ"); ("ꜫ", "Ꜫ"); ("ꜭ", "Ꜭ"); ("ꜯ", "Ꜯ"); ("ꜳ", "Ꜳ"); ("ꜵ", "Ꜵ");
    ("ꜷ", "Ꜷ"); ("ꜹ", "Ꜹ"); ("ꜻ", "Ꜻ"); ("ꜽ", "Ꜽ"); ("ꜿ", "Ꜿ"); ("ꝁ", "Ꝁ");
    ("ꝃ", "Ꝃ"); ("ꝅ", "Ꝅ"); ("ꝇ", "Ꝇ"); ("ꝉ", "Ꝉ"); ("ꝋ", "Ꝋ"); ("ꝍ", "Ꝍ");
    ("ꝏ", "Ꝏ"); ("ꝑ", "Ꝑ"); ("ꝓ", "Ꝓ"); ("ꝕ", "Ꝕ"); ("ꝗ", "Ꝗ"); ("ꝙ", "Ꝙ");
    ("ꝛ", "Ꝛ"); ("ꝝ", "Ꝝ"); ("ꝟ", "Ꝟ"); ("ꝡ", "Ꝡ"); ("ꝣ", "Ꝣ"); ("ꝥ", "Ꝥ");
    ("ꝧ", "Ꝧ"); ("ꝩ", "Ꝩ"); ("ꝫ", "Ꝫ"); ("ꝭ", "Ꝭ"); ("ꝯ", "Ꝯ"); ("ꝺ", "Ꝺ");
    ("ꝼ", "Ꝼ"); ("ꝿ", "Ꝿ"); ("ꞁ", "Ꞁ"); ("ꞃ", "Ꞃ"); ("ꞅ", "Ꞅ"); ("ꞇ", "Ꞇ");
    ("ꞌ", "Ꞌ"); ("ꞑ", "Ꞑ"); ("ꞓ", "Ꞓ"); ("ꞔ", "Ꞔ"); ("ꞗ", "Ꞗ"); ("ꞙ", "Ꞙ");
    ("ꞛ", "Ꞛ"); ("ꞝ", "Ꞝ"); ("ꞟ", "Ꞟ"); ("ꞡ", "Ꞡ"); ("ꞣ", "Ꞣ"); ("ꞥ", "Ꞥ");
    ("ꞧ", "Ꞧ"); ("ꞩ", "Ꞩ"); ("ꞵ", "Ꞵ"); ("ꞷ", "Ꞷ"); ("ꞹ", "Ꞹ"); ("ꞻ", "Ꞻ");
    ("ꞽ", "Ꞽ"); ("ꞿ", "Ꞿ"); ("ꟁ", "Ꟁ"); ("ꟃ", "Ꟃ"); ("ꟈ", "Ꟈ"); ("ꟊ", "Ꟊ");
    ("ꟑ", "Ꟑ"); ("ꟗ", "Ꟗ"); ("ꟙ", "Ꟙ"); ("ꟶ", "Ꟶ"); ("ꭓ", "Ꭓ"); ("ꭰ", "Ꭰ");
    ("ꭱ", "Ꭱ"); ("ꭲ", "Ꭲ"); ("ꭳ", "Ꭳ"); ("ꭴ", "Ꭴ"); ("ꭵ", "Ꭵ"); ("ꭶ", "Ꭶ");
    ("ꭷ", "Ꭷ"); ("ꭸ", "Ꭸ"); ("ꭹ", "Ꭹ"); ("ꭺ", "Ꭺ"); ("ꭻ", "Ꭻ"); ("ꭼ", "Ꭼ");
    ("ꭽ", "Ꭽ"); ("ꭾ", "Ꭾ"); ("ꭿ", "Ꭿ"); ("ꮀ", "Ꮀ"); ("ꮁ", "Ꮁ"); ("ꮂ", "Ꮂ");
    ("ꮃ", "Ꮃ"); ("ꮄ", "Ꮄ"); ("ꮅ", "Ꮅ"); ("ꮆ", "Ꮆ"); ("ꮇ", "Ꮇ"); ("ꮈ", "Ꮈ");
    ("ꮉ", "Ꮉ"); ("ꮊ", "Ꮊ"); ("ꮋ", "Ꮋ"); ("ꮌ", "Ꮌ"); ("ꮍ", "Ꮍ"); ("ꮎ", "Ꮎ");
    ("ꮏ", "Ꮏ"); ("ꮐ", "Ꮐ"); ("ꮑ", "Ꮑ"); ("ꮒ", "Ꮒ"); ("ꮓ", "Ꮓ"); ("ꮔ", "Ꮔ");
    ("ꮕ", "Ꮕ"); ("ꮖ", "Ꮖ"); ("ꮗ", "Ꮗ"); ("ꮘ", "Ꮘ"); ("ꮙ", "Ꮙ"); ("ꮚ", "Ꮚ");
    ("ꮛ", "Ꮛ"); ("ꮜ", "Ꮜ"); ("ꮝ", "Ꮝ"); ("ꮞ", "Ꮞ"); ("ꮟ", "Ꮟ"); ("ꮠ", "Ꮠ");
    ("ꮡ", "Ꮡ"); ("ꮢ", "Ꮢ"); ("ꮣ", "Ꮣ"); ("ꮤ", "Ꮤ"); ("ꮥ", "Ꮥ"); ("ꮦ", "Ꮦ");
    ("ꮧ", "Ꮧ"); ("ꮨ", "Ꮨ"); ("ꮩ", "Ꮩ"); ("ꮪ", "Ꮪ"); ("ꮫ", "Ꮫ"); ("ꮬ", "Ꮬ");
    ("ꮭ", "Ꮭ"); ("ꮮ", "Ꮮ"); ("ꮯ", "Ꮯ"); ("ꮰ", "Ꮰ"); ("ꮱ", "Ꮱ"); ("ꮲ", "Ꮲ");
    ("ꮳ", "Ꮳ"); ("ꮴ", "Ꮴ"); ("ꮵ", "Ꮵ"); ("ꮶ", "Ꮶ"); ("ꮷ", "Ꮷ"); ("ꮸ", "Ꮸ");
    ("ꮹ", "Ꮹ"); ("ꮺ", "Ꮺ"); ("ꮻ", "Ꮻ"); ("ꮼ", "Ꮼ"); ("ꮽ", "Ꮽ"); ("ꮾ", "Ꮾ");
    ("ꮿ", "Ꮿ"); ("ﬀ", "FF"); ("ﬁ", "FI"); ("ﬂ", "FL"); ("ﬃ", "FFI"); ("ﬄ", "FFL");
    ("ﬅ", "ST"); ("ﬆ", "ST"); ("ﬓ", "ՄՆ"); ("ﬔ", "ՄԵ"); ("ﬕ", "ՄԻ"); ("ﬖ", "ՎՆ");
    ("ﬗ", "ՄԽ"); ("ａ", "Ａ"); ("ｂ", "Ｂ"); ("ｃ", "Ｃ"); ("ｄ", "Ｄ"); ("ｅ", "Ｅ");
    ("ｆ", "Ｆ"); ("ｇ", "Ｇ"); ("ｈ", "Ｈ"); ("ｉ", "Ｉ"); ("ｊ", "Ｊ"); ("ｋ", "Ｋ");
    ("ｌ", "Ｌ"); ("ｍ", "Ｍ"); ("ｎ", "Ｎ"); ("ｏ", "Ｏ"); ("ｐ", "Ｐ"); ("ｑ", "Ｑ");
    ("ｒ", "Ｒ"); ("ｓ", "Ｓ"); ("ｔ", "Ｔ"); ("ｕ", "Ｕ"); ("ｖ", "Ｖ"); ("ｗ", "Ｗ");
    ("ｘ", "Ｘ"); ("ｙ", "Ｙ"); ("ｚ", "Ｚ"); ("𐐨", "𐐀"); ("𐐩", "𐐁"); ("𐐪", "𐐂");
    ("𐐫", "𐐃"); ("𐐬", "𐐄"); ("𐐭", "𐐅"); ("𐐮", "𐐆"); ("𐐯", "𐐇"); ("𐐰", "𐐈");
    ("𐐱", "𐐉"); ("𐐲", "𐐊"); ("𐐳", "𐐋"); ("𐐴", "𐐌"); ("𐐵", "𐐍"); ("𐐶", "𐐎");
    ("𐐷", "𐐏"); ("𐐸", "𐐐"); ("𐐹", "𐐑"); ("𐐺", "𐐒"); ("𐐻", "𐐓"); ("𐐼", "𐐔");
    ("𐐽", "𐐕"); ("𐐾", "𐐖"); ("𐐿", "𐐗"); ("𐑀", "𐐘"); ("𐑁", "𐐙"); ("𐑂", "𐐚");
    ("𐑃", "𐐛"); ("𐑄", "𐐜"); ("𐑅", "𐐝"); ("𐑆", "𐐞"); ("𐑇", "𐐟"); ("𐑈", "𐐠");
    ("𐑉", "𐐡"); ("𐑊", "𐐢"); ("𐑋", "𐐣"); ("𐑌", "𐐤"); ("𐑍", "𐐥"); ("𐑎", "𐐦");
    ("𐑏", "𐐧"); ("𐓘", "𐒰"); ("𐓙", "𐒱"); ("𐓚", "𐒲"); ("𐓛", "𐒳"); ("𐓜", "𐒴");
    ("𐓝", "𐒵"); ("𐓞", "𐒶"); ("𐓟", "𐒷"); ("𐓠", "𐒸"); ("𐓡", "𐒹"); ("𐓢", "𐒺");
    ("𐓣", "𐒻"); ("𐓤", "𐒼"); ("𐓥", "𐒽"); ("𐓦", "𐒾"); ("𐓧", "𐒿"); ("𐓨", "𐓀");
    ("𐓩", "𐓁"); ("𐓪", "𐓂"); ("𐓫", "𐓃"); ("𐓬", "𐓄"); ("𐓭", "𐓅"); ("𐓮", "𐓆");
    ("𐓯", "𐓇"); ("𐓰", "𐓈"); ("𐓱", "𐓉"); ("𐓲", "𐓊"); ("𐓳", "𐓋"); ("𐓴", "𐓌");
    ("𐓵", "𐓍"); ("𐓶", "𐓎"); ("𐓷", "𐓏"); ("𐓸", "𐓐"); ("𐓹", "𐓑"); ("𐓺", "𐓒");
    ("𐓻", "𐓓"); ("𐖗", "𐕰"); ("𐖘", "𐕱"); ("𐖙", "𐕲"); ("𐖚", "𐕳"); ("𐖛", "𐕴");
    ("𐖜", "𐕵"); ("𐖝", "𐕶"); ("𐖞", "𐕷"); ("𐖟", "𐕸"); ("𐖠", "𐕹"); ("𐖡", "𐕺");
    ("𐖣", "𐕼"); ("𐖤", "𐕽"); ("𐖥", "𐕾"); ("𐖦", "𐕿"); ("𐖧", "𐖀"); ("𐖨", "𐖁");
    ("𐖩", "𐖂"); ("𐖪", "𐖃"); ("𐖫", "𐖄"); ("𐖬", "𐖅"); ("𐖭", "𐖆"); ("𐖮", "𐖇");
    ("𐖯", "𐖈"); ("𐖰", "𐖉"); ("𐖱", "𐖊"); ("𐖳", "𐖌"); ("𐖴", "𐖍"); ("𐖵", "𐖎");
    ("𐖶", "𐖏"); ("𐖷", "𐖐"); ("𐖸", "𐖑"); ("𐖹", "𐖒"); ("𐖻", "𐖔"); ("𐖼", "𐖕");
    ("𐳀", "𐲀"); ("𐳁", "𐲁"); ("𐳂", "𐲂"); ("𐳃", "𐲃"); ("𐳄", "𐲄"); ("𐳅", "𐲅");
    ("𐳆", "𐲆"); ("𐳇", "𐲇"); ("𐳈", "𐲈"); ("𐳉", "𐲉"); ("𐳊", "𐲊"); ("𐳋", "𐲋");
    ("𐳌", "𐲌"); ("𐳍", "𐲍"); ("𐳎", "𐲎"); ("𐳏", "𐲏"); ("𐳐", "𐲐"); ("𐳑", "𐲑");
    ("𐳒", "𐲒"); ("𐳓", "𐲓"); ("𐳔", "𐲔"); ("𐳕", "𐲕"); ("𐳖", "𐲖"); ("𐳗", "𐲗");
    ("𐳘", "𐲘"); ("𐳙", "𐲙"); ("𐳚", "𐲚"); ("𐳛", "𐲛"); ("𐳜", "𐲜"); ("𐳝", "𐲝");
    ("𐳞", "𐲞"); ("𐳟", "𐲟"); ("𐳠", "𐲠"); ("𐳡", "𐲡"); ("𐳢", "𐲢"); ("𐳣", "𐲣");
    ("𐳤", "𐲤"); ("𐳥", "𐲥"); ("𐳦", "𐲦"); ("𐳧", "𐲧"); ("𐳨", "𐲨"); ("𐳩", "𐲩");
    ("𐳪", "𐲪"); ("𐳫", "𐲫"); ("𐳬", "𐲬"); ("𐳭", "𐲭"); ("𐳮", "𐲮"); ("𐳯", "𐲯");
    ("𐳰", "𐲰"); ("𐳱", "𐲱"); ("𐳲", "𐲲"); ("𑣀", "𑢠"); ("𑣁", "𑢡"); ("𑣂", "𑢢");
    ("𑣃", "𑢣"); ("𑣄", "𑢤"); ("𑣅", "𑢥"); ("𑣆", "𑢦"); ("𑣇", "𑢧"); ("𑣈", "𑢨");
    ("𑣉", "𑢩"); ("𑣊", "𑢪"); ("𑣋", "𑢫"); ("𑣌", "𑢬"); ("𑣍", "𑢭"); ("𑣎", "𑢮");
    ("𑣏", "𑢯"); ("𑣐", "𑢰"); ("𑣑", "𑢱"); ("𑣒", "𑢲"); ("𑣓", "𑢳"); ("𑣔", "𑢴");
    ("𑣕", "𑢵"); ("𑣖", "𑢶"); ("𑣗", "𑢷"); ("𑣘", "𑢸"); ("𑣙", "𑢹"); ("𑣚", "𑢺");
    ("𑣛", "𑢻"); ("𑣜", "𑢼"); ("𑣝", "𑢽"); ("𑣞", "𑢾"); ("𑣟", "𑢿"); ("𖹠", "𖹀");
    ("𖹡", "𖹁"); ("𖹢", "𖹂"); ("𖹣", "𖹃"); ("𖹤", "𖹄"); ("𖹥", "𖹅"); ("𖹦", "𖹆");
    ("𖹧", "𖹇"); ("𖹨", "𖹈"); ("𖹩", "𖹉"); ("𖹪", "𖹊"); ("𖹫", "𖹋"); ("𖹬", "𖹌");
    ("𖹭", "𖹍"); ("𖹮", "𖹎"); ("𖹯", "𖹏"); ("𖹰", "𖹐"); ("𖹱", "𖹑"); ("𖹲", "𖹒");
    ("𖹳", "𖹓"); ("𖹴", "𖹔"); ("𖹵", "𖹕"); ("𖹶", "𖹖"); ("𖹷", "𖹗"); ("𖹸", "𖹘");
    ("𖹹", "𖹙"); ("𖹺", "𖹚"); ("𖹻", "𖹛"); ("𖹼", "𖹜"); ("𖹽", "𖹝"); ("𖹾", "𖹞");
    ("𖹿", "𖹟"); ("𞤢", "𞤀"); ("𞤣", "𞤁"); ("𞤤", "𞤂"); ("𞤥", "𞤃"); ("𞤦", "𞤄");
    ("𞤧", "𞤅"); ("𞤨", "𞤆"); ("𞤩", "𞤇"); ("𞤪", "𞤈"); ("𞤫", "𞤉"); ("𞤬", "𞤊");
    ("𞤭", "𞤋"); ("𞤮", "𞤌"); ("𞤯", "𞤍"); ("𞤰", "𞤎"); ("𞤱", "𞤏"); ("𞤲", "𞤐");
    ("𞤳", "𞤑"); ("𞤴", "𞤒"); ("𞤵", "𞤓"); ("𞤶", "𞤔"); ("𞤷", "𞤕"); ("𞤸", "𞤖");
    ("𞤹", "𞤗"); ("𞤺", "𞤘"); ("𞤻", "𞤙"); ("𞤼", "𞤚"); ("𞤽", "𞤛"); ("𞤾", "𞤜");
    ("𞤿", "𞤝"); ("𞥀", "𞤞"); ("𞥁", "𞤟"); ("𞥂", "𞤠"); ("𞥃", "𞤡")
  ].

Fixpoint lookupString (k : string) (l : list (string * string)) : option string :=
  match l with
  | [] => None
  | (k', v) :: rest => if String.eqb k k' then Some v else lookupString k rest
  end.

(** The image of one character outside ASCII, given in UTF-8. *)
Definition upperCaseOf (character : string) : string :=
  match lookupString character upperCaseTable with
  | Some image => image
  | None => character
  end.

(** The number of bytes of the UTF-8 sequence a byte leads; 1 for an ASCII
    byte and for a byte that leads none. *)
Definition sequenceLength (lead : ascii) : nat :=
  let n := nat_of_ascii lead in
  if (194 <=? n)%nat && (n <=? 223)%nat then 2
  else if (224 <=? n)%nat && (n <=? 239)%nat then 3
  else if (240 <=? n)%nat && (n <=? 244)%nat then 4
  else 1.

(** Whether a byte continues a UTF-8 sequence. *)
Definition isContinuation (c : ascii) : bool :=
  let n := nat_of_ascii c in (128 <=? n)%nat && (n <=? 191)%nat.

(** [s.toUpperCase()]: the text is read character by character in UTF-8,
    an ASCII letter is mapped within ASCII and any other character by
    [upperCaseTable]; a byte that belongs to no character is kept. *)
Fixpoint toUpperCase (s : string) : string :=
  match s with
  | EmptyString => EmptyString
  | String b rest =>
      match sequenceLength b, rest with
      | 2, String c1 r1 =>
          if isContinuation c1
          then upperCaseOf (String b (String c1 EmptyString)) ++ toUpperCase r1
          else String (upperChar b) (toUpperCase rest)
      | 3, String c1 (String c2 r2) =>
          if isContinuation c1 && isContinuation c2
          then upperCaseOf (String b (String c1 (String c2 EmptyString))) ++ toUpperCase r2
          else String (upperChar b) (toUpperCase rest)
      | 4, String c1 (String c2 (String c3 r3)) =>
          if isContinuation c1 && isContinuation c2 && isContinuation c3
          then upperCaseOf (String b (String c1 (String c2 (String c3 EmptyString))))
               ++ toUpperCase r3
          else String (upperChar b) (toUpperCase rest)
      | _, _ => String (upperChar b) (toUpperCase rest)
      end
  end.

Fixpoint anyChar (p : ascii -> bool) (s : string) : bool :=
  match s with
  | EmptyString => false
  | String c s' => p c || anyChar p s'
  end.

Fixpoint allChar (p : ascii -> bool) (s : string) : bool :=
  match s with
  | EmptyString => true
  | String c s' => p c && allChar p s'
  end.

(** [a.includes(x)] on an array of strings, for a string [x]. *)
Definition includesString (a : list string) (x : string) : bool :=
  existsb (String.eqb x) a.

(** ** Numbers *)

Definition number := spec_float.

Definition prec : Z := 53.
Definition emax : Z := 1024.

Definition NaN : number := S754_nan.
Definition zero : number := S754_zero false.

(** The number denoted by an integer literal. *)
Definition ofZ (z : Z) : number := binary_normalize prec emax z 0 false.

(** The binary64 value nearest to [(-1)^neg * m * 10^e] (ties to even). *)
Definition ofDecimal (neg : bool) (m : Z) (e : Z) : number :=
  match m with
  | Zpos p =>
      if (0 <=? e)%Z
      then binary_normalize prec emax (if neg then Z.neg (p * Z.to_pos (10 ^ e)) else Z.pos (p * Z.to_pos (10 ^ e))) 0 false
      else SFdiv prec emax (S754_finite neg p 0) (S754_finite false (Z.to_pos (10 ^ (- e))) 0)
  | _ => S754_zero neg
  end.


(** SameValueZero on numbers: [NaN] equals itself and the two zeros are
    equal. *)
Definition numberSameValueZero (x y : number) : bool :=
  match x, y with
  | S754_nan, S754_nan => true
  | S754_zero _, S754_zero _ => true
  | S754_infinity a, S754_infinity b => Bool.eqb a b
  | S754_finite a m e, S754_finite b n f => Bool.eqb a b && Pos.eqb m n && Z.eqb e f
  | _, _ => false
  end.

(** *** [Number(text)]: the StringToNumber conversion *)

(** The white space and line terminator characters that [Number] strips,
    in UTF-8. Of one byte: TAB, LF, VT, FF, CR and the space. *)
Definition isWhiteSpace (c : ascii) : bool :=
  let n := nat_of_ascii c in
  ((9 <=? n)%nat && (n <=? 13)%nat) || (n =? 32)%nat.

(** Of two bytes: the no-break space U+00A0. *)
Definition isWhiteSpace2 (a b : ascii) : bool :=
  Ascii.eqb a "194" && Ascii.eqb b "160".

(** Of three bytes: U+1680, U+2000 to U+200A, the line and paragraph
    separators U+2028 and U+2029, U+202F, U+205F, U+3000 and the byte order
    mark U+FEFF. *)
Definition whiteSpace3 : list (ascii * ascii * ascii) :=
  [ ("225", "154", "128");
    ("226", "128", "128"); ("226", "128", "129"); ("226", "128", "130");
    ("226", "128", "131"); ("226", "128", "132"); ("226", "128", "133");
    ("226", "128", "134"); ("226", "128", "135"); ("226", "128", "136");
    ("226", "128", "137"); ("226", "128", "138");
    ("226", "128", "168"); ("226", "128", "169"); ("226", "128", "175");
    ("226", "129", "159"); ("227", "128", "128"); ("239", "187", "191") ]%char.

Definition isWhiteSpace3 (a b c : ascii) : bool :=
  existsb (fun t => let '(x, y, z) := t in Ascii.eqb a x && Ascii.eqb b y && Ascii.eqb c z)
          whiteSpace3.

(** Removes the white space characters at the start of [s], for the tests
    [w2] and [w3] of the characters of two and of three bytes. *)
Fixpoint dropWhiteSpace (w2 : ascii -> ascii -> bool) (w3 : ascii -> ascii -> ascii -> bool)
    (s : string) : string :=
  match s with
  | EmptyString => EmptyString
  | String a rest =>
      if isWhiteSpace a then dropWhiteSpace w2 w3 rest
      else
        match rest with
        | EmptyString => s
        | String b rest2 =>
            if w2 a b then dropWhiteSpace w2 w3 rest2
            else
              match rest2 with
              | EmptyString => s
              | String c rest3 => if w3 a b c then dropWhiteSpace w2 w3 rest3 else s
              end
        end
  end.

Fixpoint reverse (s : string) : string :=
  match s with
  | EmptyString => EmptyString
  | String c s' => reverse s' ++ String c EmptyString
  end.

(** [s.trimStart()]. *)
Definition trimStart (s : string) : string :=
  dropWhiteSpace isWhiteSpace2 isWhiteSpace3 s.

(** [s.trimEnd()]: the same on the bytes read from the end. *)
Definition trimEnd (s : string) : string :=
  reverse (dropWhiteSpace (fun a b => isWhiteSpace2 b a) (fun a b c => isWhiteSpace3 c b a)
             (reverse s)).

Definition trim (s : string) : string := trimEnd (trimStart s).

(** Value of a digit in a base up to 16, when [c] is one. *)
Definition digitValue (base : Z) (c : ascii) : option Z :=
  let n := Z.of_nat (nat_of_ascii c) in
  let v :=
    if (48 <=? n)%Z && (n <=? 57)%Z then Some (n - 48)%Z
    else if (97 <=? n)%Z && (n <=? 102)%Z then Some (n - 87)%Z
    else if (65 <=? n)%Z && (n <=? 70)%Z then Some (n - 55)%Z
    else None in
  match v with
  | Some d => if (d <? base)%Z then Some d else None
  | None => None
  end.

(** Reads the longest prefix of digits of [s] in [base], continuing the value
    [acc]; returns the value, the number of digits read and the rest. *)
Fixpoint readDigits (base : Z) (acc : Z) (count : nat) (s : string) : Z * nat * string :=
  match s with
  | EmptyString => (acc, count, s)
  | String c s' =>
      match digitValue base c with
      | Some d => readDigits base (acc * base + d) (S count) s'
      | None => (acc, count, s)
      end
  end.

(** A literal [0x..], [0o..] or [0b..] without its prefix. *)
Definition nonDecimalLiteral (base : Z) (digits : string) : number :=
  match readDigits base 0 0 digits with
  | (v, S _, EmptyString) => ofZ v
  | _ => NaN
  end.

(** The exponent part of a decimal literal, [e] or [E] with a signed
    integer, or nothing. *)
Definition exponentPart (s : string) : option Z :=
  match s with
  | EmptyString => Some 0%Z
  | String c s' =>
      if Ascii.eqb c "e" || Ascii.eqb c "E" then
        let '(neg, digits) :=
          match s' with
          | String sign t =>
              if Ascii.eqb sign "-" then (true, t)
              else if Ascii.eqb sign "+" then (false, t)
              else (false, s')
          | EmptyString => (false, s')
          end in
        match readDigits 10 0 0 digits with
        | (v, S _, EmptyString) => Some (if neg then (- v)%Z else v)
        | _ => None
        end
      else None
  end.

(** An unsigned decimal literal: [Infinity], or digits with an optional
    fraction and an optional exponent. *)
Definition unsignedDecimalLiteral (neg : bool) (s : string) : number :=
  if String.eqb s "Infinity" then S754_infinity neg else
  let '(int, nint, rest) := readDigits 10 0 0 s in
  let '(mant, nfrac, rest') :=
    match rest with
    | String c t =>
        if Ascii.eqb c "." then readDigits 10 int 0 t else (int, 0%nat, rest)
    | EmptyString => (int, 0%nat, rest)
    end in
  match (nint + nfrac)%nat with
  | O => NaN
  | S _ =>
      match exponentPart rest' with
      | Some e => ofDecimal neg mant (e - Z.of_nat nfrac)
      | None => NaN
      end
  end.

(** [s.slice(2)]. *)
Definition slice2 (s : string) : string :=
  match s with
  | String _ (String _ rest) => rest
  | _ => EmptyString
  end.

Definition Number (text : string) : number :=
  let s := trim text in
  if String.eqb s "" then zero
  else if startsWith "0x" s || startsWith "0X" s then nonDecimalLiteral 16 (slice2 s)
  else if startsWith "0o" s || startsWith "0O" s then nonDecimalLiteral 8 (slice2 s)
  else if startsWith "0b" s || startsWith "0B" s then nonDecimalLiteral 2 (slice2 s)
  else if startsWith "-" s then unsignedDecimalLiteral true (substring 1 (String.length s - 1) s)
  else if startsWith "+" s then unsignedDecimalLiteral false (substring 1 (String.length s - 1) s)
  else unsignedDecimalLiteral false s.

End Js.

Module JsValue.
Import Js.

(** ** Values *)

(** The values that flow through the service. [VInherited p] is the member
    named [p] of [Object.prototype] (a built-in function, or the prototype
    object itself for [__proto__]), which a property read on a plain object
    reaches when the object has no own property [p]. Arrays are arrays of
    strings, the only ones the service builds. *)
Inductive value :=
| VUndefined
| VString (s : string)
| VNumber (n : number)
| VArray (l : list string)
| VInherited (p : string).

(** ToBoolean. *)
Definition truthy (v : value) : bool :=
  match v with
  | VUndefined => false
  | VString s => negb (String.eqb s "")
  | VNumber n =>
      match n with
      | S754_zero _ | S754_nan => false
      | _ => true
      end
  | VArray _ => true
  | VInherited _ => true
  end.

(** [a || b]. *)
Definition logicalOr (a b : value) : value := if truthy a then a else b.

(** SameValueZero, the equality of [Map] keys and of [includes]. Every array
    of the service is freshly allocated by [split], so two array values met
    as keys are never the same object. *)
Definition sameValueZero (a b : value) : bool :=
  match a, b with
  | VUndefined, VUndefined => true
  | VString s, VString t => String.eqb s t
  | VNumber x, VNumber y => numberSameValueZero x y
  | VInherited p, VInherited q => String.eqb p q
  | _, _ => false
  end.

(** [a.includes(v)] on an array of strings. *)
Definition includes (a : list string) (v : value) : bool :=
  match v with
  | VString s => includesString a s
  | _ => false
  end.

(** ** Plain objects *)

(** What a property read on a constant table of strings yields: nothing, the
    table's own string, or a member inherited from [Object.prototype]. *)
Inductive member :=
| Absent
| Own (s : string)
| Inherited (p : string).

Definition memberValue (m : member) : value :=
  match m with
  | Absent => VUndefined
  | Own s => VString s
  | Inherited p => VInherited p
  end.

(** [a === b] on two such reads. *)
Definition memberEq (a b : member) : bool :=
  match a, b with
  | Absent, Absent => true
  | Own s, Own t => String.eqb s t
  | Inherited p, Inherited q => String.eqb p q
  | _, _ => false
  end.

(** The property names every plain object inherits from [Object.prototype]. *)
Definition objectPrototypeMembers : list string :=
  [ "constructor"; "__defineGetter__"; "__defineSetter__"; "hasOwnProperty";
    "__lookupGetter__"; "__lookupSetter__"; "isPrototypeOf";
    "propertyIsEnumerable"; "toString"; "valueOf"; "__proto__";
    "toLocaleString" ].

(** ToString of an inherited member: the source text of a built-in function,
    or of the prototype object. *)
Definition inheritedToString (p : string) : string :=
  if String.eqb p "__proto__" then "[object Object]"
  else "function " ++ (if String.eqb p "constructor" then "Object" else p)
       ++ "() { [native code] }".

(** ToPropertyKey of a read used as a computed property name. *)
Definition toPropertyKey (m : member) : string :=
  match m with
  | Absent => "undefined"
  | Own s => s
  | Inherited p => inheritedToString p
  end.

Fixpoint assoc (k : string) (l : list (string * string)) : option string :=
  match l with
  | [] => None
  | (k', v) :: rest => if String.eqb k k' then Some v else assoc k rest
  end.

(** [table[p]] for a constant object literal [table] with string values and
    a property name [p]. *)
Definition readTable (table : list (string * string)) (p : string) : member :=
  match assoc p table with
  | Some v => Own v
  | None => if includesString objectPrototypeMembers p then Inherited p else Absent
  end.

(** An object built at run time, from [{}] by [Object.assign]. *)
Abbreviation object := (gmap string value).

(** [o[p]]. *)
Definition get (o : object) (p : string) : value :=
  match o !! p with
  | Some v => v
  | None => if includesString objectPrototypeMembers p then VInherited p else VUndefined
  end.

(** [Object.assign(o, {[key]: v})]. *)
Definition assign1 (o : object) (key : member) (v : value) : object :=
  <[toPropertyKey key := v]> o.

(** [Object.assign(o, src)] for a source object given by its properties in
    creation order. *)
Definition assign (o : object) (src : list (string * value)) : object :=
  fold_left (fun acc kv => <[fst kv := snd kv]> acc) src o.

(** ** [Map] *)

(** A [Map] is its entries in insertion order, with keys pairwise different
    under SameValueZero; [set] stores the key [-0] as [+0]. *)
Definition jsMap := list (value * value).

Definition normalizeKey (k : value) : value :=
  match k with
  | VNumber (S754_zero _) => VNumber zero
  | _ => k
  end.

Fixpoint mapSet (m : jsMap) (k v : value) : jsMap :=
  match m with
  | [] => [(normalizeKey k, v)]
  | (k', v') :: rest =>
      if sameValueZero k' k then (k', v) :: rest else (k', v') :: mapSet rest k v
  end.

Fixpoint mapGet (m : jsMap) (k : value) : value :=
  match m with
  | [] => VUndefined
  | (k', v') :: rest => if sameValueZero k' k then v' else mapGet rest k
  end.

Fixpoint mapHas (m : jsMap) (k : value) : bool :=
  match m with
  | [] => false
  | (k', _) :: rest => sameValueZero k' k || mapHas rest k
  end.

Definition mapSize (m : jsMap) : nat := List.length m.

(** [a[i]] on an array of strings: [None] is [undefined]. *)
Definition index (a : list string) (i : nat) : option string := nth_error a i.

Definition optionValue (o : option string) : value :=
  match o with
  | Some s => VString s
  | None => VUndefined
  end.

(** ToPropertyKey of an array element used to index an object. *)
Definition propertyName (o : option string) : string :=
  match o with
  | Some s => s
  | None => "undefined"
  end.

(** [a.reduce((acc, x, i) => f(acc, x, i), init)], with a callback that may
    raise; [i] counts from [start]. *)
Fixpoint reduce {A B} (f : B -> A -> nat -> result B) (a : list A) (start : nat) (acc : B) : result B :=
  match a with
  | [] => Ok acc
  | x :: rest => let* acc' := f acc x start in reduce f rest (S start) acc'
  end.

(** Method calls on a value that are defined on strings only. *)
Definition callToUpperCase (v : value) : result string :=
  match v with
  | VString s => Ok (toUpperCase s)
  | _ => Throw TypeError
  end.

Definition callSplit (v : value) (sep : string) : result (list string) :=
  match v with
  | VString s => Ok (split s sep)
  | _ => Throw TypeError
  end.

Definition callRemoveAll (v : value) (c : ascii) : result string :=
  match v with
  | VString s => Ok (removeAll c s)
  | _ => Throw TypeError
  end.

End JsValue.

Import Js JsValue.

(** ** The service: constants *)

Definition TAB : string := String "009"%char EmptyString.
Definition CRLF : string := String "013"%char (String "010"%char EmptyString).

Definition fileAnVILDataIngestion := "anvil-data-ingestion-attributes.tsv".
Definition fileAnVILDataIngestionAccession := "anvil-data-ingestion-attributes-accession.tsv".
Definition fileTerraDataIngestionCounts := "terra-data-ingestion-attributes-counts.tsv".
Definition fileTerraDataIngestionFileSize := "terra-data-ingestion-attributes-file-size.tsv".

Definition ALLOW_LIST_WORKSPACE_FIELD_ARRAY := ["consentShortNames"; "dataTypes"; "diseases"].
Definition ALLOW_LIST_WORKSPACE_FIELD_NUMBER := ["size"; "samples"; "subjects"].
Definition ALLOW_LIST_WORKSPACE_ACCESS_PUBLIC := ["1000G-high-coverage-2019"].

Definition WORKSPACE_CONSORTIUM_DISPLAY_VALUE : list (string * string) :=
  [ ("CCDG", "CCDG");
    ("CMG", "CMG");
    ("EMERGE", "eMERGE");
    ("GTEX", "GTEx (v8)");
    ("NHGRI", "NHGRI");
    ("PAGE", "PAGE");
    ("THOUSANDGENOMES", "1000 Genomes") ].

(** The property names of [INGESTION_HEADERS_TO_WORKSPACE_KEY]. The service
    indexes that table with these names only, written out at each use, so
    a name is a constructor and the table a function. *)
Inductive ingestionHeader :=
| CONSENT_SHORT_NAMES
| DATA_TYPES
| DB_GAP_ID
| DISEASES
| PROJECT_ID
| LIBRARY_PROJECT_NAME
| SAMPLES
| SIZE
| SUBJECTS
| WORKSPACE.

Definition INGESTION_HEADERS_TO_WORKSPACE_KEY (h : ingestionHeader) : string :=
  match h with
  | CONSENT_SHORT_NAMES => "library:dataUseRestriction"
  | DATA_TYPES => "library:datatype.items"
  | DB_GAP_ID => "study_accession"
  | DISEASES => "library:indication"
  | PROJECT_ID => "name"
  | LIBRARY_PROJECT_NAME => "library:projectName"
  | SAMPLES => "Sample Count"
  | SIZE => "File Size"
  | SUBJECTS => "library:numSubjects"
  | WORKSPACE => "Workspace"
  end.

Definition HEADERS_TO_WORKSPACE_KEY : list (string * string) :=
  [ ("ACCESS", "access");
    (INGESTION_HEADERS_TO_WORKSPACE_KEY CONSENT_SHORT_NAMES, "consentShortNames");
    ("CONSORTIUM", "consortium");
    (INGESTION_HEADERS_TO_WORKSPACE_KEY DATA_TYPES, "dataTypes");
    (INGESTION_HEADERS_TO_WORKSPACE_KEY DB_GAP_ID, "dbGapId");
    ("DB_GAP_ID_ACCESSION", "dbGapIdAccession");
    (INGESTION_HEADERS_TO_WORKSPACE_KEY DISEASES, "diseases");
    (INGESTION_HEADERS_TO_WORKSPACE_KEY PROJECT_ID, "projectId");
    (INGESTION_HEADERS_TO_WORKSPACE_KEY SAMPLES, "samples");
    (INGESTION_HEADERS_TO_WORKSPACE_KEY SIZE, "size");
    (INGESTION_HEADERS_TO_WORKSPACE_KEY SUBJECTS, "subjects");
    (INGESTION_HEADERS_TO_WORKSPACE_KEY WORKSPACE, "projectId") ].

(** ** The service: pure functions *)

(** Returns formatted ingested datum, specified by key. *)
Definition formatIngestedDatum (datum : value) (key : member) : result value :=
  if memberEq key (readTable HEADERS_TO_WORKSPACE_KEY "CONSORTIUM") then
    let* consortium := callToUpperCase datum in
    Ok (logicalOr (memberValue (readTable WORKSPACE_CONSORTIUM_DISPLAY_VALUE consortium))
                  (VString consortium))
  else Ok datum.

(** Returns the ingested datum, corrected for type. *)
Definition buildIngestedDatum (datum : value) (key : member) : result value :=
  let* value := formatIngestedDatum datum key in
  if includes ALLOW_LIST_WORKSPACE_FIELD_ARRAY (memberValue key) then
    let* parts := callSplit value "," in
    Ok (VArray parts)
  else if includes ALLOW_LIST_WORKSPACE_FIELD_NUMBER (memberValue key) then
    let* stripped := callRemoveAll value "," in
    Ok (VNumber (Number stripped))
  else Ok value.

(** Returns the datum key (if it exists), and corresponding formatted value. *)
Definition getIngestedDatumKeyValuePair (datum : value) (header : option string)
  : result (member * value) :=
  let key := readTable HEADERS_TO_WORKSPACE_KEY (propertyName header) in
  let* value := buildIngestedDatum datum key in
  Ok (key, value).

(** [header === name] for an array element [header] and a string [name]. *)
Definition headerIs (header : option string) (name : string) : bool :=
  match header with
  | Some h => String.eqb h name
  | None => false
  end.

(** Returns true if the header equals the specified key or value pair. *)
Definition isHeaderKeyOrValue (header : option string) (keyPair valuePair : ingestionHeader) : bool :=
  let keyExists := headerIs header (INGESTION_HEADERS_TO_WORKSPACE_KEY keyPair) in
  let valueExists := headerIs header (INGESTION_HEADERS_TO_WORKSPACE_KEY valuePair) in
  keyExists || valueExists.

(** The inner reduction of [buildKeyValuePair]: the row object holding the
    columns under the key header and the value header. *)
Definition buildKeyValueRow (contentRow : string) (headers : list string)
    (keyPair valuePair : ingestionHeader) : result object :=
  reduce (fun (acc : object) datum i =>
            let header := index headers i in
            if isHeaderKeyOrValue header keyPair valuePair then
              let* '(key, value) := getIngestedDatumKeyValuePair (VString datum) header in
              Ok (assign1 acc key value)
            else Ok acc)
         (split contentRow TAB) 0 ∅.

(** Returns map object key-value pair from ingested data, specified by key
    and value. *)
Definition buildKeyValuePair (contentRows headers : list string)
    (keyPair valuePair : ingestionHeader) : result jsMap :=
  reduce (fun (acc : jsMap) contentRow (_ : nat) =>
            let* row := buildKeyValueRow contentRow headers keyPair valuePair in
            let keyKeyPair :=
              readTable HEADERS_TO_WORKSPACE_KEY (INGESTION_HEADERS_TO_WORKSPACE_KEY keyPair) in
            let keyValuePair :=
              readTable HEADERS_TO_WORKSPACE_KEY (INGESTION_HEADERS_TO_WORKSPACE_KEY valuePair) in
            Ok (mapSet acc (get row (toPropertyKey keyKeyPair)) (get row (toPropertyKey keyValuePair))))
         (skipn 1 contentRows) 0 [].

(** Returns the ingested headers. *)
Definition buildIngestedHeaders (contentRows : list string) : list string :=
  split (join "," (firstn 1 contentRows)) TAB.

(** Whether an exception is raised before the await of the transformer. The
    TypeErrors of the service are raised in the part of [buildWorkspaceRow]
    that runs when the row is mapped, so the promise of such a row is
    rejected when [Promise.all] subscribes to it; the rejection of a
    collaborator arrives at the await, later. *)
Definition raisedBeforeAwait (e : error) : bool :=
  match e with
  | TypeError => true
  | Rejection => false
  end.

(** [Promise.all]: the results in order when every promise is fulfilled,
    and else the rejection of the promise that settles first. A promise
    rejected before its await settles before every promise rejected at its
    await, whatever their places in the list; among promises of one kind
    the first of the list is reported. *)
Fixpoint promiseAll {A} (ps : list (result A)) : result (list A) :=
  match ps with
  | [] => Ok []
  | p :: rest =>
      match p, promiseAll rest with
      | Ok x, Ok xs => Ok (x :: xs)
      | Ok _, Throw e => Throw e
      | Throw e, Ok _ => Throw e
      | Throw e, Throw e' =>
          if raisedBeforeAwait e' && negb (raisedBeforeAwait e) then Throw e' else Throw e
      end
  end.

Section Service.

(** The two collaborators of the service, [getStudyGapAccession] of
    [dashboard-xml.service.js] and [sortDataByDuoTypes] of
    [dashboard-sort.service.js], and the directory of the input files: a
    file name has a content or does not exist. *)
Variable getStudyGapAccession : value -> result value.
Variable sortDataByDuoTypes : list object -> member -> member -> list object.
Variable fs : string -> option string.

(** The first statement of [buildWorkspaceRow], the reduction that grabs
    the ingested row data: every column whose header has a workspace key,
    coerced. *)
Definition buildIngestedRow (contentRow : string) (headers : list string) : result object :=
  reduce (fun (acc : object) datum i =>
            let header := index headers i in
            let* '(key, value) := getIngestedDatumKeyValuePair (VString datum) header in
            if truthy (memberValue key) then Ok (assign1 acc key value) else Ok acc)
         (split contentRow TAB) 0 ∅.

(** Returns the ingested workspace. *)
Definition buildWorkspaceRow (contentRow : string) (headers : list string)
    (sampleCountByProjectId studyIdByProjectId fileSizeByProjectId : jsMap) : result object :=
  let* row := buildIngestedRow contentRow headers in
  let keyAccess := readTable HEADERS_TO_WORKSPACE_KEY "ACCESS" in
  let keyConsortium := readTable HEADERS_TO_WORKSPACE_KEY "CONSORTIUM" in
  let keyProjectId :=
    readTable HEADERS_TO_WORKSPACE_KEY (INGESTION_HEADERS_TO_WORKSPACE_KEY PROJECT_ID) in
  let keySamplesCount :=
    readTable HEADERS_TO_WORKSPACE_KEY (INGESTION_HEADERS_TO_WORKSPACE_KEY SAMPLES) in
  let keySize := readTable HEADERS_TO_WORKSPACE_KEY (INGESTION_HEADERS_TO_WORKSPACE_KEY SIZE) in
  let keyStudyAccession := readTable HEADERS_TO_WORKSPACE_KEY "DB_GAP_ID_ACCESSION" in
  let keyStudyId :=
    readTable HEADERS_TO_WORKSPACE_KEY (INGESTION_HEADERS_TO_WORKSPACE_KEY DB_GAP_ID) in
  let projectId := get row (toPropertyKey keyProjectId) in
  let access :=
    if includes ALLOW_LIST_WORKSPACE_ACCESS_PUBLIC projectId
    then VString "Public" else VString "Private" in
  let* parts := callSplit projectId "_" in
  let consortium := optionValue (index parts 1) in
  let* consortiumDisplayValue :=
    buildIngestedDatum consortium (readTable HEADERS_TO_WORKSPACE_KEY "CONSORTIUM") in
  let samplesCount := logicalOr (mapGet sampleCountByProjectId projectId) (VNumber zero) in
  let size := logicalOr (mapGet fileSizeByProjectId projectId) (VNumber zero) in
  let studyId := mapGet studyIdByProjectId projectId in
  let* studyAccession := getStudyGapAccession studyId in
  let workspace :=
    [ (toPropertyKey keyAccess, access);
      (toPropertyKey keyConsortium, consortiumDisplayValue);
      (toPropertyKey keySamplesCount, samplesCount);
      (toPropertyKey keySize, size);
      (toPropertyKey keyStudyAccession, studyAccession);
      (toPropertyKey keyStudyId, studyId) ] in
  Ok (assign row workspace).

(** Returns the ingested workspaces. *)
Definition buildWorkspaces (contentRows headers : list string)
    (sampleCountByProjectId studyIdByProjectId fileSizeByProjectId : jsMap)
  : result (list object) :=
  promiseAll
    (map (fun contentRow =>
            buildWorkspaceRow contentRow headers
              sampleCountByProjectId studyIdByProjectId fileSizeByProjectId)
         (skipn 1 contentRows)).

(** ** The service: file access *)

(** A computation that may write lines to the console and may raise. *)
Definition io (A : Type) : Type := list string -> result A * list string.

Definition ioRet {A} (r : result A) : io A := fun console => (r, console).

Definition ioBind {A B} (m : io A) (k : A -> io B) : io B :=
  fun console =>
    match m console with
    | (Ok a, console') => k a console'
    | (Throw e, console') => (Throw e, console')
    end.

Definition consoleLog (line : string) : io unit :=
  fun console => (Ok tt, console ++ [line]).

Notation "'let!' x ':=' m 'in' k" := (ioBind m (fun x => k))
  (at level 10, x name, m at level 100, k at level 200).
Notation "'let!' ' p ':=' m 'in' k" := (ioBind m (fun x => let 'p := x in k))
  (at level 10, p pattern, m at level 100, k at level 200).

(** Returns the contents of the specified file, as an array. *)
Definition getFileContents (fileName : string) : io (list string) :=
  match fs fileName with
  | Some fileContent => ioRet (Ok (split fileContent CRLF))
  | None =>
      let! _ := consoleLog ("Error: file " ++ fileName ++ " cannot be found.") in
      ioRet (Ok [])
  end.

(** Returns the ingested header and content for the specified file. *)
Definition getIngestedData (fileName : string) : io (list string * list string) :=
  let! contentRows := getFileContents fileName in
  let headers := buildIngestedHeaders contentRows in
  ioRet (Ok (headers, contentRows)).

Definition getFileSizeByProjectId : io jsMap :=
  let! '(headers, contentRows) := getIngestedData fileTerraDataIngestionFileSize in
  ioRet (buildKeyValuePair contentRows headers WORKSPACE SIZE).

(** Returns map object key-value pair of sample count by project id. *)
Definition getSampleCountByProjectId : io jsMap :=
  let! '(headers, contentRows) := getIngestedData fileTerraDataIngestionCounts in
  ioRet (buildKeyValuePair contentRows headers WORKSPACE SAMPLES).

(** Returns map object key-value pair of study id by project id. *)
Definition getStudyIdByProjectId : io jsMap :=
  let! '(headers, contentRows) := getIngestedData fileAnVILDataIngestionAccession in
  ioRet (buildKeyValuePair contentRows headers PROJECT_ID DB_GAP_ID).

(** Returns ingested workspaces data. *)
Definition getWorkspaces (sampleCountByProjectId studyIdByProjectId fileSizeByProjectId : jsMap)
  : io (list object) :=
  let! '(headers, contentRows) := getIngestedData fileAnVILDataIngestion in
  ioRet (buildWorkspaces contentRows headers
           sampleCountByProjectId studyIdByProjectId fileSizeByProjectId).

(** Returns the workspaces ingested data. *)
Definition getIngestedWorkspaces : io (list object) :=
  let! studyIdByProjectId := getStudyIdByProjectId in
  let! sampleCountByProjectId := getSampleCountByProjectId in
  let! fileSizeByProjectId := getFileSizeByProjectId in
  let! workspaces := getWorkspaces sampleCountByProjectId studyIdByProjectId fileSizeByProjectId in
  ioRet (Ok (sortDataByDuoTypes workspaces
               (readTable HEADERS_TO_WORKSPACE_KEY "CONSORTIUM")
               (readTable HEADERS_TO_WORKSPACE_KEY (INGESTION_HEADERS_TO_WORKSPACE_KEY PROJECT_ID)))).

End Service.

(** ** Notions used to state the properties *)

(** Field Coercion of a text under a workspace key: the value
    [buildIngestedDatum] returns for it. *)
Definition coerce (text : string) (key : member) : value :=
  match buildIngestedDatum (VString text) key with
  | Ok v => v
  | Throw _ => VUndefined
  end.

(** The workspace key of the column at position [i]. *)
Definition keyAt (headers : list string) (i : nat) : member :=
  readTable HEADERS_TO_WORKSPACE_KEY (propertyName (index headers i)).

(** The canonical field names: the strings [HEADERS_TO_WORKSPACE_KEY] maps
    to. *)
Definition canonicalFields : list string := map snd HEADERS_TO_WORKSPACE_KEY.

(** The row object a reduction over the columns builds: the columns selected
    by [sel] are written, left to right, under the property key of their
    workspace key. *)
Fixpoint rowFrom (sel : nat -> bool) (headers fields : list string) (i : nat) (acc : object)
  : object :=
  match fields with
  | [] => acc
  | datum :: rest =>
      rowFrom sel headers rest (S i)
        (if sel i then assign1 acc (keyAt headers i) (coerce datum (keyAt headers i)) else acc)
  end.

(** The value the last selected column with property key [p] holds, when
    there is one. *)
Fixpoint lastWrite (sel : nat -> bool) (headers fields : list string) (i : nat) (p : string)
  : option value :=
  match fields with
  | [] => None
  | datum :: rest =>
      match lastWrite sel headers rest (S i) p with
      | Some v => Some v
      | None =>
          if sel i && String.eqb (toPropertyKey (keyAt headers i)) p
          then Some (coerce datum (keyAt headers i))
          else None
      end
  end.

(** The partial record of a content row of the main export. *)
Definition ingestedRow (contentRow : string) (headers : list string) : object :=
  rowFrom (fun i => truthy (memberValue (keyAt headers i))) headers (split contentRow TAB) 0 ∅.

(** The property names of the derived fields, in the order the transformer
    writes them. *)
Definition derivedFields : list string :=
  ["access"; "consortium"; "samples"; "size"; "dbGapIdAccession"; "dbGapId"].


(** Reading of the spec's words "the middle segment": the segment at the
    middle position of the list of segments. *)
Definition middleSegment (segments : list string) : option string :=
  nth_error segments (List.length segments / 2).

(** A resolver to run the transformer with: the accession of a study id is
    the id with a version suffix, and nothing for no study id. *)
Definition exampleResolver (studyId : value) : result value :=
  match studyId with
  | VString s => Ok (VString (s ++ ".v1.p1"))
  | _ => Ok VUndefined
  end.

(** Whether a character is a decimal digit. *)
Definition isDecimalDigit (c : ascii) : bool :=
  let n := nat_of_ascii c in (48 <=? n)%nat && (n <=? 57)%nat.

(** The integer a string of decimal digits denotes, continuing [acc]. *)
Fixpoint decimalValueFrom (acc : Z) (digits : string) : Z :=
  match digits with
  | EmptyString => acc
  | String c rest => decimalValueFrom (acc * 10 + (Z.of_nat (nat_of_ascii c) - 48)) rest
  end.

Definition decimalValue (digits : string) : Z := decimalValueFrom 0 digits.

(** ** Notions for the Lookup Builder, after the spec's words *)

(** The text a row has under the column named [name]: the field at the
    position of that header (the last one, should the header repeat), or
    nothing when the row has no field there. *)
Fixpoint columnText (name : string) (headers fields : list string) (i : nat) : option string :=
  match fields with
  | [] => None
  | datum :: rest =>
      match columnText name headers rest (S i) with
      | Some text => Some text
      | None => if headerIs (index headers i) name then Some datum else None
      end
  end.

(** The value under a named column: the Field Coercion of its text, or
    [undefined] for a missing position. *)
Definition columnValue (headers : list string) (contentRow : string) (column : ingestionHeader)
  : value :=
  let name := INGESTION_HEADERS_TO_WORKSPACE_KEY column in
  match columnText name headers (split contentRow TAB) 0 with
  | Some text => coerce text (readTable HEADERS_TO_WORKSPACE_KEY name)
  | None => VUndefined
  end.

(** One pair per non-header row: the value under the first named column and
    the value under the second. *)
Definition lookupEntries (contentRows headers : list string) (keyPair valuePair : ingestionHeader)
  : list (value * value) :=
  map (fun contentRow =>
         (columnValue headers contentRow keyPair, columnValue headers contentRow valuePair))
      (skipn 1 contentRows).

(** The association obtained by entering the pairs in order. *)
Definition setAll (entries : list (value * value)) : jsMap :=
  fold_left (fun m kv => mapSet m (fst kv) (snd kv)) entries [].

(** The value of the last pair with the key [k]; [undefined] without one. *)
Definition lastValue (entries : list (value * value)) (k : value) : value :=
  fold_left (fun acc kv => if sameValueZero (fst kv) k then snd kv else acc) entries VUndefined.

(** Whether each key differs from the keys in [seen] and from the keys before
    it. *)
Fixpoint distinctKeys (seen keys : list value) : bool :=
  match keys with
  | [] => true
  | k :: rest =>
      negb (existsb (fun k' => sameValueZero k' k) seen) && distinctKeys (k :: seen) rest
  end.

(** What SameValueZero compares: nothing for an array, which equals no other
    object, and the value up to the sign of zero otherwise. *)
Definition keyClass (v : value) : option value :=
  match v with
  | VArray _ => None
  | _ => Some (normalizeKey v)
  end.

(** The record the transformer returns for a project id [pid] whose second
    segment is [segment], when the resolver returns [accession]. *)
Definition workspaceRecord (row : object) (pid segment : string) (accession : value)
    (sampleCountByProjectId studyIdByProjectId fileSizeByProjectId : jsMap) : object :=
  assign row
    [ ("access",
       if includes ALLOW_LIST_WORKSPACE_ACCESS_PUBLIC (VString pid)
       then VString "Public" else VString "Private");
      ("consortium", coerce segment (Own "consortium"));
      ("samples", logicalOr (mapGet sampleCountByProjectId (VString pid)) (VNumber zero));
      ("size", logicalOr (mapGet fileSizeByProjectId (VString pid)) (VNumber zero));
      ("dbGapIdAccession", accession);
      ("dbGapId", mapGet studyIdByProjectId (VString pid)) ].

(** The row object the inner reduction of the Lookup Builder builds for a
    content row. *)
Definition keyValueRow (headers : list string) (keyPair valuePair : ingestionHeader)
    (contentRow : string) : object :=
  rowFrom (fun i => isHeaderKeyOrValue (index headers i) keyPair valuePair)
          headers (split contentRow TAB) 0 ∅.

(** The diagnostic of a missing file. *)
Definition missingFile (fileName : string) : string :=
  ("Error: file " ++ fileName ++ " cannot be found.")%string.

(** ** Inputs to run the service on *)

Definition exampleHeaders : list string :=
  ["name"; "library:numSubjects"; "library:datatype.items"; "File Size"].

Definition exampleRow : string :=
  ("AN_CCDG_something" ++ TAB ++ "1,234" ++ TAB ++ "a,b,c" ++ TAB ++ "2,048")%string.

Definition exampleSamples : jsMap := [(VString "AN_CCDG_something", VNumber (ofZ 7))].

Definition exampleCounts : list string :=
  [ "Workspace" ++ TAB ++ "Sample Count";
    "AN_CCDG_something" ++ TAB ++ "1,000";
    "AN_CMG_other" ++ TAB ++ "n/a";
    "AN_CCDG_something" ++ TAB ++ "7" ]%string.

(** A directory with the sample counts only. *)
Definition exampleFiles (fileName : string) : option string :=
  if String.eqb fileName fileTerraDataIngestionCounts
  then Some (join CRLF exampleCounts)
  else None.

(** A directory with the main export, the accession cross-reference and the
    sample counts, and without the file sizes. *)
Definition exampleDirectory (fileName : string) : option string :=
  if String.eqb fileName fileAnVILDataIngestion then
    Some (join CRLF [ "name" ++ TAB ++ "library:numSubjects";
                      "AN_CCDG_something" ++ TAB ++ "1,234";
                      "AN_CMG_other" ++ TAB ++ "12" ]%string)
  else if String.eqb fileName fileAnVILDataIngestionAccession then
    Some (join CRLF [ "name" ++ TAB ++ "study_accession";
                      "AN_CCDG_something" ++ TAB ++ "phs000123" ]%string)
  else if String.eqb fileName fileTerraDataIngestionCounts then
    Some (join CRLF exampleCounts)
  else None.

(** A directory whose main export has the workspace of the public
    allow-list. *)
Definition publicDirectory (fileName : string) : option string :=
  if String.eqb fileName fileAnVILDataIngestion then
    Some (join CRLF ["name"; "AN_CCDG_something"; "1000G-high-coverage-2019"])
  else None.

(** A directory whose main export ends with a line break. *)
Definition trailingBreakDirectory (fileName : string) : option string :=
  if String.eqb fileName fileAnVILDataIngestion then
    Some (join CRLF ["name"; "AN_CCDG_something"; ""])
  else None.

Definition keepOrder (records : list object) (_ _ : member) : list object := records.

(** ** Notions for the further properties *)

(** [s.slice(n)]. *)
Fixpoint dropChars (n : nat) (s : string) : string :=
  match n, s with
  | O, _ => s
  | S k, String _ rest => dropChars k rest
  | S _, EmptyString => EmptyString
  end.

(** Whether [sep] occurs somewhere in [s]. *)
Fixpoint occurs (sep s : string) : bool :=
  match s with
  | EmptyString => startsWith sep EmptyString
  | String _ rest => startsWith sep s || occurs sep rest
  end.

(** Whether a file is missing from a directory. *)
Definition isMissing (fs : string -> option string) (fileName : string) : bool :=
  match fs fileName with
  | Some _ => false
  | None => true
  end.

(** The four input files, in the order the pipeline reads them. *)
Definition inputFiles : list string :=
  [ fileAnVILDataIngestionAccession; fileTerraDataIngestionCounts;
    fileTerraDataIngestionFileSize; fileAnVILDataIngestion ].

(** The lines [getFileContents] returns for a file of a directory. *)
Definition fileLines (fs : string -> option string) (fileName : string) : list string :=
  match fs fileName with
  | Some content => split content CRLF
  | None => []
  end.

(** The lookup built from a file of a directory. *)
Definition lookupOf (fs : string -> option string) (fileName : string)
    (keyPair valuePair : ingestionHeader) : jsMap :=
  match buildKeyValuePair (fileLines fs fileName) (buildIngestedHeaders (fileLines fs fileName))
          keyPair valuePair with
  | Ok m => m
  | Throw _ => []
  end.

(** A directory whose main export is a header row alone. *)
Definition headerOnlyFiles (fileName : string) : option string :=
  if String.eqb fileName fileAnVILDataIngestion
  then Some ("name" ++ TAB ++ "library:numSubjects")%string
  else None.

(** A directory with the main export alone. *)
Definition mainOnlyFiles (fileName : string) : option string :=
  if String.eqb fileName fileAnVILDataIngestion then
    Some (join CRLF [ "name" ++ TAB ++ "Sample Count";
                      "AN_CCDG_something" ++ TAB ++ "1,234";
                      "AN_CMG_other" ++ TAB ++ "12" ]%string)
  else None.

(** Whether a call returned. *)
Definition returned {A} (r : result A) : bool :=
  match r with
  | Ok _ => true
  | Throw _ => false
  end.

(** A resolver that rejects every study id. *)
Definition rejectingResolver (_ : value) : result value := Throw Rejection.

(** An accession lookup for the example row. *)
Definition exampleStudies : jsMap := [(VString "AN_CCDG_something", VString "phs000123")].

(** Whether the string forms of the inherited members tell the members
    apart. *)
Definition inheritedToString_distinct : bool :=
  forallb (fun p =>
             forallb (fun q =>
                        implb (String.eqb (inheritedToString p) (inheritedToString q))
                              (String.eqb p q))
                     objectPrototypeMembers)
          objectPrototypeMembers.

(** A row with a column under the header constructor. *)
Definition inheritedHeaders : list string := ["name"; "constructor"].

Definition inheritedRow : string := ("AN_CCDG_something" ++ TAB ++ "anything")%string.

(** A row with two columns that map to the project id. *)
Definition repeatedHeaders : list string := ["name"; "Workspace"].

Definition repeatedRow : string := ("AN_CCDG_first" ++ TAB ++ "AN_CMG_second")%string.

(** A row with a column for each derived field. *)
Definition derivedHeaders : list string :=
  [ "name"; "ACCESS"; "CONSORTIUM"; "Sample Count"; "File Size";
    "DB_GAP_ID_ACCESSION"; "study_accession" ].

Definition derivedRow : string :=
  ("AN_CCDG_something" ++ TAB ++ "Public" ++ TAB ++ "gtex" ++ TAB ++ "5" ++ TAB ++ "9"
   ++ TAB ++ "phs000123.v1.p1" ++ TAB ++ "phs000123")%string.

(** Three white space characters outside ASCII, in UTF-8: U+00A0, U+FEFF
    and U+2028. *)
Definition noBreakSpace : string := String "194"%char (String "160"%char EmptyString).

Definition byteOrderMark : string :=
  String "239"%char (String "187"%char (String "191"%char EmptyString)).

Definition lineSeparator : string :=
  String "226"%char (String "128"%char (String "168"%char EmptyString)).

(** * Properties *)

Ltac derived_lookup :=
  unfold workspaceRecord, assign; cbn [fold_left fst snd];
  repeat (rewrite lookup_insert_ne by (intro; discriminate));
  apply lookup_insert_eq.


(** ** Field Coercion *)

Lemma upperChar_not_lower c : isLower (upperChar c) = false.
Proof. destruct c as [[] [] [] [] [] [] [] []]; reflexivity. Qed.

Lemma anyChar_append p (s t : string) :
  anyChar p (s ++ t)%string = anyChar p s || anyChar p t.
Proof.
  induction s as [|a s IH]; [reflexivity|].
  change (p a || anyChar p (s ++ t)%string = p a || anyChar p s || anyChar p t).
  now rewrite IH, orb_assoc.
Qed.

Lemma lookupString_In k l v : lookupString k l = Some v -> In (k, v) l.
Proof.
  induction l as [|[k' v'] l IH]; simpl; [discriminate|].
  destruct (String.eqb k k') eqn:E.
  - intros [= ->]. apply String.eqb_eq in E. subst. now left.
  - intros H. right. auto.
Qed.

(** No image of the upper-case table has an ASCII lower-case letter. *)
Lemma upperCaseOf_no_lower character :
  anyChar isLower character = false -> anyChar isLower (upperCaseOf character) = false.
Proof.
  intros H. unfold upperCaseOf.
  destruct (lookupString character upperCaseTable) as [image|] eqn:E; [|exact H].
  apply lookupString_In in E.
  assert (forallb (fun kv => negb (anyChar isLower (snd kv))) upperCaseTable = true) as Htable
      by (vm_compute; reflexivity).
  rewrite forallb_forall in Htable. specialize (Htable _ E).
  now apply negb_true_iff in Htable.
Qed.

Lemma lower_is_single b : isLower b = true -> sequenceLength b = 1.
Proof. destruct b as [[] [] [] [] [] [] [] []]; try discriminate; reflexivity. Qed.

Lemma lead_not_lower b n : sequenceLength b = S (S n) -> isLower b = false.
Proof.
  intros H. destruct (isLower b) eqn:E; [|reflexivity].
  rewrite (lower_is_single b E) in H. discriminate.
Qed.

Lemma continuation_not_lower c : isContinuation c = true -> isLower c = false.
Proof. destruct c as [[] [] [] [] [] [] [] []]; try discriminate; reflexivity. Qed.

Lemma toUpperCase_no_lower_bounded n s :
  String.length s <= n -> anyChar isLower (toUpperCase s) = false.
Proof.
  revert s. induction n as [|n IH]; intros s Hlen.
  - destruct s; [reflexivity | simpl in Hlen; lia].
  - destruct s as [|b rest]; [reflexivity|].
    cbn [String.length] in Hlen.
    assert (anyChar isLower (String (upperChar b) (toUpperCase rest)) = false) as Hsingle.
    { cbn [anyChar]. rewrite upperChar_not_lower. apply IH. lia. }
    cbn [toUpperCase].
    destruct (sequenceLength b) as [|[|[|[|[|k]]]]] eqn:E; try exact Hsingle.
    + destruct rest as [|c1 r1]; [exact Hsingle|].
      destruct (isContinuation c1) eqn:E1; [|exact Hsingle].
      rewrite anyChar_append, upperCaseOf_no_lower.
      * apply IH. cbn [String.length] in Hlen. lia.
      * cbn [anyChar].
        now rewrite (lead_not_lower b _ E), (continuation_not_lower c1 E1).
    + destruct rest as [|c1 [|c2 r2]]; try exact Hsingle.
      destruct (isContinuation c1) eqn:E1; [|exact Hsingle].
      destruct (isContinuation c2) eqn:E2; [|exact Hsingle].
      cbn [andb]. rewrite anyChar_append, upperCaseOf_no_lower.
      * apply IH. cbn [String.length] in Hlen. lia.
      * cbn [anyChar].
        now rewrite (lead_not_lower b _ E), (continuation_not_lower c1 E1),
          (continuation_not_lower c2 E2).
    + destruct rest as [|c1 [|c2 [|c3 r3]]]; try exact Hsingle.
      destruct (isContinuation c1) eqn:E1; [|exact Hsingle].
      destruct (isContinuation c2) eqn:E2; [|exact Hsingle].
      destruct (isContinuation c3) eqn:E3; [|exact Hsingle].
      cbn [andb]. rewrite anyChar_append, upperCaseOf_no_lower.
      * apply IH. cbn [String.length] in Hlen. lia.
      * cbn [anyChar].
        now rewrite (lead_not_lower b _ E), (continuation_not_lower c1 E1),
          (continuation_not_lower c2 E2), (continuation_not_lower c3 E3).
Qed.

Lemma toUpperCase_no_lower s : anyChar isLower (toUpperCase s) = false.
Proof. now apply (toUpperCase_no_lower_bounded (String.length s)). Qed.

Lemma includesString_In l x : includesString l x = true <-> In x l.
Proof.
  unfold includesString. rewrite existsb_exists. split.
  - intros (y & Hy & Heq). apply String.eqb_eq in Heq. now subst.
  - intros H. exists x. split; [assumption | apply String.eqb_refl].
Qed.

(** An upper-cased string names no member of [Object.prototype]: each of
    those names has a lower-case letter. *)
Lemma toUpperCase_not_inherited s :
  includesString objectPrototypeMembers (toUpperCase s) = false.
Proof.
  destruct (includesString objectPrototypeMembers (toUpperCase s)) eqn:E; [|reflexivity].
  apply includesString_In in E.
  pose proof (toUpperCase_no_lower s) as Hno.
  unfold objectPrototypeMembers in E. simpl in E.
  repeat (destruct E as [E|E]; [rewrite <- E in Hno; discriminate Hno|]).
  destruct E.
Qed.

Lemma assoc_In k l v : assoc k l = Some v -> In (k, v) l.
Proof.
  induction l as [|[k' v'] l IH]; simpl; [discriminate|].
  destruct (String.eqb k k') eqn:E.
  - intros [= ->]. apply String.eqb_eq in E. subst. now left.
  - intros H. right. auto.
Qed.

(** The consortium rule on a string: upper-case, then the display table, else
    the upper-cased string. *)
Lemma formatIngestedDatum_consortium text :
  formatIngestedDatum (VString text) (Own "consortium") =
  Ok (VString match assoc (toUpperCase text) WORKSPACE_CONSORTIUM_DISPLAY_VALUE with
              | Some display => display
              | None => toUpperCase text
              end).
Proof.
  unfold formatIngestedDatum.
  change (memberEq (Own "consortium") (readTable HEADERS_TO_WORKSPACE_KEY "CONSORTIUM")) with true.
  cbv beta iota. unfold callToUpperCase, rbind, readTable.
  destruct (assoc (toUpperCase text) WORKSPACE_CONSORTIUM_DISPLAY_VALUE) as [d|] eqn:E.
  - apply assoc_In in E. simpl in E.
    repeat (destruct E as [E|E]; [injection E as _ <-; reflexivity|]).
    destruct E.
  - rewrite toUpperCase_not_inherited. reflexivity.
Qed.

Lemma formatIngestedDatum_other datum key :
  memberEq key (Own "consortium") = false ->
  formatIngestedDatum datum key = Ok datum.
Proof.
  unfold formatIngestedDatum.
  change (readTable HEADERS_TO_WORKSPACE_KEY "CONSORTIUM") with (Own "consortium").
  now intros ->.
Qed.

(** Field Coercion never raises on a text. *)
Lemma buildIngestedDatum_string text key :
  buildIngestedDatum (VString text) key = Ok (coerce text key).
Proof.
  unfold coerce.
  assert (exists v, buildIngestedDatum (VString text) key = Ok v) as [v ->]; [|reflexivity].
  unfold buildIngestedDatum.
  destruct (memberEq key (Own "consortium")) eqn:E.
  - destruct key as [|k|p]; try discriminate E. simpl in E.
    apply String.eqb_eq in E. subst k.
    rewrite formatIngestedDatum_consortium. simpl. eauto.
  - rewrite (formatIngestedDatum_other _ _ E). simpl.
    destruct (includes _ _); [eauto|]. destruct (includes _ _); eauto.
Qed.

(** *** Splitting *)

Lemma append_empty_r (s : string) : (s ++ "")%string = s.
Proof.
  induction s as [|a s IH]; [reflexivity|].
  change (String a (s ++ "")%string = String a s). now rewrite IH.
Qed.

Lemma append_snoc (cur s : string) a :
  ((cur ++ String a "") ++ s)%string = (cur ++ String a s)%string.
Proof.
  induction cur as [|b cur IH]; [reflexivity|].
  change (String b ((cur ++ String a "") ++ s)%string = String b (cur ++ String a s)%string).
  now rewrite IH.
Qed.

Lemma splitFrom_nonempty sep skip cur s : splitFrom sep skip cur s <> [].
Proof.
  revert skip cur. induction s as [|a s IH]; intros skip cur; simpl; [discriminate|].
  destruct skip; [|apply IH]. destruct (startsWith sep (String a s)); [discriminate | apply IH].
Qed.

Lemma join_cons sep x rest :
  rest <> [] -> join sep (x :: rest) = (x ++ sep ++ join sep rest)%string.
Proof. destruct rest; [congruence | reflexivity]. Qed.

(** Joining the pieces with the separator gives the string back. *)
Lemma splitFrom_join c cur s :
  join (String c EmptyString) (splitFrom (String c EmptyString) 0 cur s) = (cur ++ s)%string.
Proof.
  revert cur. induction s as [|a s IH]; intros cur.
  - simpl. now rewrite append_empty_r.
  - cbn [splitFrom startsWith String.length Nat.sub].
    destruct (Ascii.eqb c a) eqn:E; cbn [andb].
    + apply Ascii.eqb_eq in E. subst a.
      rewrite join_cons by apply splitFrom_nonempty. now rewrite IH.
    + now rewrite IH, append_snoc.
Qed.

(** No piece holds the separator. *)
Lemma splitFrom_pieces c cur s :
  anyChar (Ascii.eqb c) cur = false ->
  Forall (fun piece => anyChar (Ascii.eqb c) piece = false)
         (splitFrom (String c EmptyString) 0 cur s).
Proof.
  revert cur. induction s as [|a s IH]; intros cur Hcur.
  - now constructor.
  - cbn [splitFrom startsWith String.length Nat.sub].
    destruct (Ascii.eqb c a) eqn:E; cbn [andb].
    + constructor; [assumption | now apply IH].
    + apply IH. rewrite anyChar_append, Hcur. simpl. now rewrite E.
Qed.

(** *** Numbers written in digits *)

Lemma digit_facts c :
  isDecimalDigit c = true ->
  isWhiteSpace c = false
  /\ digitValue 10 c = Some (Z.of_nat (nat_of_ascii c) - 48)%Z
  /\ (forall other,
         In other ["x"; "X"; "o"; "O"; "b"; "B"; "-"; "+"; "I"; "."; "e"; "E"]%char ->
         Ascii.eqb other c = false).
Proof.
  intros H. split; [|split].
  - destruct c as [[] [] [] [] [] [] [] []]; try discriminate; reflexivity.
  - destruct c as [[] [] [] [] [] [] [] []]; try discriminate; reflexivity.
  - intros other Hin. simpl in Hin.
    repeat (destruct Hin as [<-|Hin];
            [destruct c as [[] [] [] [] [] [] [] []]; try discriminate; reflexivity|]).
    destruct Hin.
Qed.

Lemma allChar_append p (s t : string) :
  allChar p (s ++ t)%string = allChar p s && allChar p t.
Proof.
  induction s as [|a s IH]; [reflexivity|].
  change (p a && allChar p (s ++ t)%string = p a && allChar p s && allChar p t).
  now rewrite IH, andb_assoc.
Qed.

Lemma allChar_reverse p s : allChar p (reverse s) = allChar p s.
Proof.
  induction s as [|a s IH]; [reflexivity|].
  simpl. rewrite allChar_append, IH. simpl. rewrite andb_true_r. apply andb_comm.
Qed.

Lemma reverse_append_char s a : reverse (s ++ String a "") = String a (reverse s).
Proof.
  induction s as [|b s IH]; [reflexivity|].
  change ((reverse (s ++ String a "") ++ String b "")%string
          = String a (reverse s ++ String b "")%string).
  now rewrite IH.
Qed.

Lemma reverse_involutive s : reverse (reverse s) = s.
Proof.
  induction s as [|a s IH]; [reflexivity|].
  simpl. now rewrite reverse_append_char, IH.
Qed.

(** A decimal digit is part of no white space character. *)
Lemma digit_not_white a :
  isDecimalDigit a = true ->
  (forall b, isWhiteSpace2 a b = false /\ isWhiteSpace2 b a = false)
  /\ (forall b c, isWhiteSpace3 a b c = false /\ isWhiteSpace3 c b a = false).
Proof.
  intros H. split.
  - intros b. unfold isWhiteSpace2.
    destruct a as [[] [] [] [] [] [] [] []]; try discriminate;
      (split; [reflexivity | apply andb_false_r]).
  - intros b c. unfold isWhiteSpace3, whiteSpace3. cbn [existsb].
    destruct a as [[] [] [] [] [] [] [] []]; try discriminate;
      (split; [reflexivity | rewrite !andb_false_r; reflexivity]).
Qed.

Lemma dropWhiteSpace_digit w2 w3 a s :
  isDecimalDigit a = true ->
  (forall b, w2 a b = false) -> (forall b c, w3 a b c = false) ->
  dropWhiteSpace w2 w3 (String a s) = String a s.
Proof.
  intros Ha H2 H3. cbn [dropWhiteSpace].
  destruct (digit_facts a Ha) as [-> _].
  destruct s as [|b [|c rest]]; [reflexivity| |]; rewrite H2; [reflexivity|].
  now rewrite H3.
Qed.

Lemma dropWhiteSpace_digits w2 w3 s :
  (forall a b, isDecimalDigit a = true -> w2 a b = false) ->
  (forall a b c, isDecimalDigit a = true -> w3 a b c = false) ->
  allChar isDecimalDigit s = true -> dropWhiteSpace w2 w3 s = s.
Proof.
  intros H2 H3 H. destruct s as [|a s]; [reflexivity|].
  simpl in H. apply andb_true_iff in H as [Ha _].
  apply dropWhiteSpace_digit; auto.
Qed.

Lemma trimStart_digits s : allChar isDecimalDigit s = true -> trimStart s = s.
Proof.
  apply dropWhiteSpace_digits.
  - intros a b Ha. apply (digit_not_white a Ha).
  - intros a b c Ha. apply (digit_not_white a Ha).
Qed.

Lemma trim_digits s : allChar isDecimalDigit s = true -> trim s = s.
Proof.
  intros H. unfold trim, trimEnd. rewrite (trimStart_digits s H).
  rewrite dropWhiteSpace_digits.
  - apply reverse_involutive.
  - intros a b Ha. apply (digit_not_white a Ha).
  - intros a b c Ha. apply (digit_not_white a Ha).
  - now rewrite allChar_reverse.
Qed.

Lemma readDigits_digits s acc count :
  allChar isDecimalDigit s = true ->
  readDigits 10 acc count s = (decimalValueFrom acc s, count + String.length s, EmptyString).
Proof.
  revert acc count. induction s as [|c s IH]; intros acc count H; simpl.
  - now rewrite Nat.add_0_r.
  - simpl in H. apply andb_true_iff in H as [Hc Hs].
    destruct (digit_facts c Hc) as (_ & -> & _).
    rewrite (IH _ _ Hs). f_equal. f_equal. lia.
Qed.

Lemma decimalValueFrom_nonneg s acc :
  allChar isDecimalDigit s = true -> (0 <= acc)%Z -> (0 <= decimalValueFrom acc s)%Z.
Proof.
  revert acc. induction s as [|c s IH]; intros acc H Hacc; simpl; [assumption|].
  simpl in H. apply andb_true_iff in H as [Hc Hs]. apply (IH _ Hs).
  unfold isDecimalDigit in Hc. apply andb_true_iff in Hc as [Hlo _].
  apply Nat.leb_le in Hlo. lia.
Qed.

Lemma ofDecimal_integer v : (0 <= v)%Z -> ofDecimal false v 0 = ofZ v.
Proof.
  intros Hv. unfold ofDecimal, ofZ. destruct v as [|p|p]; [reflexivity| |lia].
  simpl. now rewrite Pos.mul_1_r.
Qed.

(** [Number] of a non-empty string of decimal digits is the integer the
    digits denote (rounded to the nearest number). *)
Lemma Number_digits s :
  s <> "" -> allChar isDecimalDigit s = true -> Number s = ofZ (decimalValue s).
Proof.
  intros Hne Hd. unfold Number. rewrite (trim_digits s Hd).
  destruct s as [|c s]; [congruence|]. clear Hne.
  pose proof Hd as Hall. simpl in Hd. apply andb_true_iff in Hd as [Hc Hs].
  destruct (digit_facts c Hc) as (_ & _ & Hc').
  assert (forall z l, In l ["x"; "X"; "o"; "O"; "b"; "B"]%char ->
                      startsWith (String z (String l "")) (String c s) = false) as Hprefix.
  { intros z l Hl. cbn [startsWith]. destruct s as [|d s']; [now rewrite andb_false_r|].
    simpl in Hs. apply andb_true_iff in Hs as [Hd' _].
    destruct (digit_facts d Hd') as (_ & _ & Hd'').
    rewrite (Hd'' l) by (simpl in *; tauto). now rewrite andb_false_r. }
  cbn [String.eqb].
  rewrite !Hprefix by (simpl; tauto). cbn [orb].
  assert (startsWith "-" (String c s) = false) as ->
      by (cbn [startsWith]; rewrite (Hc' "-"%char) by (simpl; tauto); reflexivity).
  assert (startsWith "+" (String c s) = false) as ->
      by (cbn [startsWith]; rewrite (Hc' "+"%char) by (simpl; tauto); reflexivity).
  unfold unsignedDecimalLiteral.
  assert (String.eqb (String c s) "Infinity" = false) as ->.
  { cbn [String.eqb]. rewrite Ascii.eqb_sym, (Hc' "I"%char) by (simpl; tauto). reflexivity. }
  rewrite (readDigits_digits _ 0 0 Hall).
  cbn [Nat.add String.length exponentPart].
  rewrite Z.sub_0_r. apply ofDecimal_integer.
  now apply decimalValueFrom_nonneg.
Qed.

Lemma removeAll_digits text :
  allChar (fun c => isDecimalDigit c || Ascii.eqb c ",") text = true ->
  allChar isDecimalDigit (removeAll "," text) = true.
Proof.
  induction text as [|c text IH]; simpl; [reflexivity|].
  intros H. apply andb_true_iff in H as [Hc Ht].
  destruct (Ascii.eqb c ",") eqn:E; [now apply IH|].
  simpl. rewrite orb_false_r in Hc. now rewrite Hc, IH.
Qed.

Lemma removeAll_nonempty text :
  anyChar isDecimalDigit text = true -> removeAll "," text <> "".
Proof.
  induction text as [|c text IH]; simpl; [discriminate|].
  intros H. destruct (Ascii.eqb c ",") eqn:E; [|discriminate].
  apply Ascii.eqb_eq in E. subst c. simpl in H. now apply IH.
Qed.

(** X19. Field Coercion under a field of the number allow-list, on digits
    grouped by commas, is the integer the digits denote: the commas do not
    count. *)
Lemma coercion_of_grouped_digits field text :
  In field ALLOW_LIST_WORKSPACE_FIELD_NUMBER ->
  allChar (fun c => isDecimalDigit c || Ascii.eqb c ",") text = true ->
  anyChar isDecimalDigit text = true ->
  buildIngestedDatum (VString text) (Own field)
  = Ok (VNumber (ofZ (decimalValue (removeAll "," text)))).
Proof.
  intros Hfield Hall Hany.
  rewrite <- Number_digits by auto using removeAll_digits, removeAll_nonempty.
  simpl in Hfield. destruct Hfield as [<-|[<-|[<-|[]]]]; reflexivity.
Qed.

(** C6. Field Coercion of a text under a field of the array allow-list is the
    list of the pieces of the text between commas, in order: the pieces hold
    no comma and joined by commas they give the text back. Under a field of
    the number allow-list it is the number read from the text with all commas
    removed. In particular "1,234" as size is the number 1234 and "a,b,c" as
    dataTypes is the list a, b, c. *)
Theorem C6_field_coercion_array_number :
  Forall (fun field => forall text,
            buildIngestedDatum (VString text) (Own field) = Ok (VArray (split text ",")))
         ALLOW_LIST_WORKSPACE_FIELD_ARRAY
  /\ (forall text,
        join "," (split text ",") = text
        /\ Forall (fun piece => anyChar (Ascii.eqb ",") piece = false) (split text ","))
  /\ Forall (fun field => forall text,
               buildIngestedDatum (VString text) (Own field)
               = Ok (VNumber (Number (removeAll "," text))))
            ALLOW_LIST_WORKSPACE_FIELD_NUMBER
  /\ buildIngestedDatum (VString "1,234") (Own "size") = Ok (VNumber (ofZ 1234))
  /\ buildIngestedDatum (VString "a,b,c") (Own "dataTypes") = Ok (VArray ["a"; "b"; "c"]).
Proof.
  split; [repeat (constructor; [intros text; reflexivity|]); constructor|].
  split; [intros text; split; [apply splitFrom_join | now apply splitFrom_pieces]|].
  split; [repeat (constructor; [intros text; reflexivity|]); constructor|].
  split; reflexivity.
Qed.

(** C7. Field Coercion under the consortium field upper-cases the text and
    returns the display name the fixed table gives for it, or the upper-cased
    text itself when the table has none; "gtex" becomes "GTEx (v8)". *)
Theorem C7_consortium_display_value :
  (forall text,
      buildIngestedDatum (VString text) (readTable HEADERS_TO_WORKSPACE_KEY "CONSORTIUM")
      = Ok (VString match assoc (toUpperCase text) WORKSPACE_CONSORTIUM_DISPLAY_VALUE with
                    | Some display => display
                    | None => toUpperCase text
                    end))
  /\ (forall text,
        ~ In (toUpperCase text) (map fst WORKSPACE_CONSORTIUM_DISPLAY_VALUE) ->
        buildIngestedDatum (VString text) (Own "consortium") = Ok (VString (toUpperCase text)))
  /\ buildIngestedDatum (VString "gtex") (Own "consortium") = Ok (VString "GTEx (v8)").
Proof.
  assert (forall text,
      buildIngestedDatum (VString text) (Own "consortium")
      = Ok (VString match assoc (toUpperCase text) WORKSPACE_CONSORTIUM_DISPLAY_VALUE with
                    | Some display => display
                    | None => toUpperCase text
                    end)) as H.
  { intros text. unfold buildIngestedDatum.
    rewrite formatIngestedDatum_consortium. reflexivity. }
  split; [exact H|]. split; [|reflexivity].
  intros text Hnot. rewrite H.
  destruct (assoc _ _) as [d|] eqn:E; [|reflexivity].
  apply assoc_In in E. exfalso. apply Hnot.
  apply in_map_iff. exists (toUpperCase text, d). auto.
Qed.

(** ** Rows *)

Lemma reduce_rowFrom_all headers fields i acc :
  reduce (fun (acc : object) datum i =>
            let header := index headers i in
            let* '(key, value) := getIngestedDatumKeyValuePair (VString datum) header in
            if truthy (memberValue key) then Ok (assign1 acc key value) else Ok acc)
         fields i acc
  = Ok (rowFrom (fun i => truthy (memberValue (keyAt headers i))) headers fields i acc).
Proof.
  revert i acc. induction fields as [|datum rest IH]; intros i acc; simpl; [reflexivity|].
  unfold getIngestedDatumKeyValuePair at 1.
  rewrite buildIngestedDatum_string. simpl.
  fold (keyAt headers i).
  destruct (truthy (memberValue (keyAt headers i))); simpl; apply IH.
Qed.

Lemma reduce_rowFrom_selected (sel : nat -> bool) headers fields i acc :
  reduce (fun (acc : object) datum i =>
            let header := index headers i in
            if sel i then
              let* '(key, value) := getIngestedDatumKeyValuePair (VString datum) header in
              Ok (assign1 acc key value)
            else Ok acc)
         fields i acc
  = Ok (rowFrom sel headers fields i acc).
Proof.
  revert i acc. induction fields as [|datum rest IH]; intros i acc; simpl; [reflexivity|].
  destruct (sel i); simpl; [|apply IH].
  unfold getIngestedDatumKeyValuePair at 1.
  rewrite buildIngestedDatum_string. simpl.
  fold (keyAt headers i). apply IH.
Qed.

Lemma buildIngestedRow_ok contentRow headers :
  buildIngestedRow contentRow headers = Ok (ingestedRow contentRow headers).
Proof.
  unfold buildIngestedRow, ingestedRow.
  apply reduce_rowFrom_all.
Qed.

Lemma buildKeyValueRow_ok contentRow headers keyPair valuePair :
  buildKeyValueRow contentRow headers keyPair valuePair
  = Ok (rowFrom (fun i => isHeaderKeyOrValue (index headers i) keyPair valuePair)
                headers (split contentRow TAB) 0 ∅).
Proof.
  unfold buildKeyValueRow.
  apply (reduce_rowFrom_selected (fun i => isHeaderKeyOrValue (index headers i) keyPair valuePair)).
Qed.

(** A property of the row object is the last write to it, or what the
    accumulator had. *)
Lemma rowFrom_lookup sel headers fields i (acc : object) p :
  rowFrom sel headers fields i acc !! p =
  match lastWrite sel headers fields i p with
  | Some v => Some v
  | None => acc !! p
  end.
Proof.
  revert i acc. induction fields as [|datum rest IH]; intros i acc; simpl; [reflexivity|].
  rewrite IH.
  destruct (lastWrite sel headers rest (S i) p); [reflexivity|].
  destruct (sel i); simpl; [|reflexivity].
  unfold assign1.
  destruct (String.eqb (toPropertyKey (keyAt headers i)) p) eqn:E.
  - apply String.eqb_eq in E. subst p. apply lookup_insert_eq.
  - apply String.eqb_neq in E. now apply lookup_insert_ne.
Qed.

(** [lastWrite] finds the column at offset [k] when no later selected column
    has the same property key. *)
Lemma lastWrite_at sel headers fields i p k datum :
  nth_error fields k = Some datum ->
  sel (i + k) = true ->
  toPropertyKey (keyAt headers (i + k)) = p ->
  (forall j, k < j -> j < List.length fields ->
             sel (i + j) = true -> toPropertyKey (keyAt headers (i + j)) <> p) ->
  lastWrite sel headers fields i p = Some (coerce datum (keyAt headers (i + k))).
Proof.
  revert i k. induction fields as [|d rest IH]; intros i k Hnth Hsel Hkey Hlater.
  - destruct k; discriminate Hnth.
  - destruct k as [|k]; simpl in Hnth |- *.
    + injection Hnth as ->.
      assert (lastWrite sel headers rest (S i) p = None) as ->.
      { clear IH Hsel Hkey. revert i Hlater. induction rest as [|d' rest IH]; intros i Hlater.
        - reflexivity.
        - simpl. rewrite (IH (S i)).
          + destruct (sel (S i)) eqn:Es; [|reflexivity]. simpl.
            destruct (String.eqb _ p) eqn:E; [|reflexivity].
            apply String.eqb_eq in E. exfalso.
            apply (Hlater 1); simpl; try lia;
              replace (i + 1) with (S i) by lia; assumption.
          + intros j Hj Hlen Hs.
            replace (S i + j) with (i + S j) in * by lia.
            apply Hlater; simpl in *; try lia. assumption. }
      rewrite Nat.add_0_r in *. rewrite Hsel, <- Hkey, String.eqb_refl. reflexivity.
    + replace (i + S k) with (S i + k) in * by lia.
      rewrite (IH (S i) k Hnth Hsel Hkey); [reflexivity|].
      intros j Hj Hlen Hs.
      replace (S i + j) with (i + S j) in * by lia.
      apply Hlater; simpl; try lia. assumption.
Qed.

(** [lastWrite] finds nothing when no selected column has the property key. *)
Lemma lastWrite_none sel headers fields i p :
  (forall j, j < List.length fields ->
             sel (i + j) = true -> toPropertyKey (keyAt headers (i + j)) <> p) ->
  lastWrite sel headers fields i p = None.
Proof.
  revert i. induction fields as [|d rest IH]; intros i H; simpl; [reflexivity|].
  rewrite IH.
  - destruct (sel i) eqn:Es; [|reflexivity]. simpl.
    destruct (String.eqb _ p) eqn:E; [|reflexivity].
    apply String.eqb_eq in E. exfalso.
    apply (H 0); simpl; try lia; rewrite Nat.add_0_r; assumption.
  - intros j Hlen Hs. replace (S i + j) with (i + S j) in * by lia.
    apply H; simpl; try lia. assumption.
Qed.

(** ** Records *)

(** Reading a field of the record: a derived field holds its derived value,
    any other field what the partial record holds. *)
Lemma workspaceRecord_lookup_other (row : object) pid segment accession samples studies sizes p :
  ~ In p derivedFields ->
  workspaceRecord row pid segment accession samples studies sizes !! p = row !! p.
Proof.
  intros Hp. unfold workspaceRecord, assign. simpl in *.
  repeat (rewrite lookup_insert_ne; [|intros <-; tauto]).
  reflexivity.
Qed.

Lemma get_lookup (o : object) p v : o !! p = Some v -> get o p = v.
Proof. unfold get. now intros ->. Qed.

Lemma readTable_Own table p v : readTable table p = Own v -> In v (map snd table).
Proof.
  unfold readTable. destruct (assoc p table) as [w|] eqn:E.
  - intros [= ->]. apply assoc_In in E. apply in_map_iff. now exists (p, v).
  - destruct (includesString _ _); discriminate.
Qed.

Lemma canonical_truthy field : In field canonicalFields -> truthy (VString field) = true.
Proof.
  unfold canonicalFields. simpl.
  intros H. repeat (destruct H as [<-|H]; [reflexivity|]). destruct H.
Qed.

(** No canonical field name is the property key of an inherited member. *)
Lemma inheritedToString_not_canonical p field :
  In field canonicalFields -> inheritedToString p <> field.
Proof.
  unfold canonicalFields, inheritedToString. simpl.
  intros H. destruct (String.eqb p "__proto__");
    repeat (destruct H as [<-|H]; [discriminate|]); destruct H.
Qed.

(** A column that is written under a canonical field name maps to it. *)
Lemma written_under_canonical headers j field :
  In field canonicalFields ->
  truthy (memberValue (keyAt headers j)) = true ->
  toPropertyKey (keyAt headers j) = field ->
  keyAt headers j = Own field.
Proof.
  intros Hcan Hsel Hkey. destruct (keyAt headers j) as [|s|p]; simpl in *.
  - discriminate.
  - now subst.
  - exfalso. now apply (inheritedToString_not_canonical p field).
Qed.

(** The partial record at a canonical field: the coerced text of the last
    column that maps to the field. *)
Lemma ingestedRow_lookup contentRow headers i datum field :
  nth_error (split contentRow TAB) i = Some datum ->
  keyAt headers i = Own field ->
  (forall j, i < j -> j < List.length (split contentRow TAB) -> keyAt headers j <> Own field) ->
  ingestedRow contentRow headers !! field = Some (coerce datum (Own field)).
Proof.
  intros Hnth Hkey Hlast.
  assert (In field canonicalFields) as Hcan.
  { unfold keyAt in Hkey. now apply readTable_Own in Hkey. }
  unfold ingestedRow. rewrite rowFrom_lookup.
  rewrite (lastWrite_at _ headers _ 0 field i datum); simpl.
  - now rewrite Hkey.
  - assumption.
  - rewrite Hkey. now apply canonical_truthy.
  - now rewrite Hkey.
  - intros j Hj Hlen Hsel Heq. apply (Hlast j Hj Hlen).
    now apply written_under_canonical.
Qed.

Lemma lastWrite_inv sel headers fields i p v :
  lastWrite sel headers fields i p = Some v ->
  exists k datum,
    nth_error fields k = Some datum
    /\ sel (i + k) = true
    /\ toPropertyKey (keyAt headers (i + k)) = p
    /\ v = coerce datum (keyAt headers (i + k)).
Proof.
  revert i. induction fields as [|d rest IH]; intros i; simpl; [discriminate|].
  destruct (lastWrite sel headers rest (S i) p) as [w|] eqn:E.
  - intros [= <-]. destruct (IH (S i) E) as (k & datum & H1 & H2 & H3 & H4).
    exists (S k), datum. replace (i + S k) with (S i + k) by lia. auto.
  - destruct (sel i) eqn:Es; [|discriminate]. simpl.
    destruct (String.eqb _ p) eqn:Ep; [|discriminate].
    intros [= <-]. apply String.eqb_eq in Ep.
    exists 0, d. rewrite Nat.add_0_r. auto.
Qed.

Lemma get_own (o : object) p s : get o p = VString s -> o !! p = Some (VString s).
Proof.
  unfold get. destruct (o !! p); [now intros ->|].
  destruct (includesString _ _); discriminate.
Qed.

Lemma mapGet_mapHas m k : mapHas m k = false -> mapGet m k = VUndefined.
Proof.
  induction m as [|[k' v'] m IH]; simpl; [reflexivity|].
  destruct (sameValueZero k' k); [discriminate | exact IH].
Qed.

Lemma split_no_separator_from c cur s :
  anyChar (Ascii.eqb c) s = false ->
  splitFrom (String c EmptyString) 0 cur s = [(cur ++ s)%string].
Proof.
  revert cur. induction s as [|a s IH]; intros cur H; simpl in *.
  - now rewrite append_empty_r.
  - apply orb_false_iff in H as [Ha Hs].
    rewrite Ha. simpl. now rewrite (IH _ Hs), append_snoc.
Qed.

(** A string without the separator splits into itself alone. *)
Lemma split_no_separator c s :
  anyChar (Ascii.eqb c) s = false -> split s (String c EmptyString) = [s].
Proof. intros H. unfold split. now rewrite split_no_separator_from. Qed.

(** A project id with a second segment is not empty, and is not the id on
    the public allow-list. *)
Lemma second_segment_nonempty pid segment :
  index (split pid "_") 1 = Some segment ->
  pid <> "" /\ includes ALLOW_LIST_WORKSPACE_ACCESS_PUBLIC (VString pid) = false.
Proof.
  intros H. split.
  - intros ->. discriminate H.
  - simpl. destruct (String.eqb pid "1000G-high-coverage-2019") eqn:E; [|reflexivity].
    apply String.eqb_eq in E. subst pid. discriminate H.
Qed.

Lemma workspaceRecord_access (row : object) pid segment accession samples studies sizes :
  workspaceRecord row pid segment accession samples studies sizes !! "access"
  = Some (if includes ALLOW_LIST_WORKSPACE_ACCESS_PUBLIC (VString pid)
          then VString "Public" else VString "Private").
Proof. derived_lookup. Qed.

Lemma workspaceRecord_consortium (row : object) pid segment accession samples studies sizes :
  workspaceRecord row pid segment accession samples studies sizes !! "consortium"
  = Some (coerce segment (Own "consortium")).
Proof. derived_lookup. Qed.

Lemma workspaceRecord_samples (row : object) pid segment accession samples studies sizes :
  workspaceRecord row pid segment accession samples studies sizes !! "samples"
  = Some (logicalOr (mapGet samples (VString pid)) (VNumber zero)).
Proof. derived_lookup. Qed.

Lemma workspaceRecord_size (row : object) pid segment accession samples studies sizes :
  workspaceRecord row pid segment accession samples studies sizes !! "size"
  = Some (logicalOr (mapGet sizes (VString pid)) (VNumber zero)).
Proof. derived_lookup. Qed.

Lemma workspaceRecord_projectId (row : object) pid segment accession samples studies sizes :
  workspaceRecord row pid segment accession samples studies sizes !! "projectId"
  = row !! "projectId".
Proof. apply workspaceRecord_lookup_other. simpl. intuition discriminate. Qed.

(** ** The Row Transformer *)

Section RowTransformer.

Variable getStudyGapAccession : value -> result value.

(** The transformer, case by case: it raises unless the row has a project
    id that is a string with a second segment, and then returns the partial
    record with the six derived fields written over it, unless the resolver
    rejects. *)
Lemma buildWorkspaceRow_eq contentRow headers samples studies sizes :
  buildWorkspaceRow getStudyGapAccession contentRow headers samples studies sizes =
  match get (ingestedRow contentRow headers) "projectId" with
  | VString pid =>
      match index (split pid "_") 1 with
      | Some segment =>
          match getStudyGapAccession (mapGet studies (VString pid)) with
          | Ok accession =>
              Ok (workspaceRecord (ingestedRow contentRow headers) pid segment accession
                    samples studies sizes)
          | Throw e => Throw e
          end
      | None => Throw TypeError
      end
  | _ => Throw TypeError
  end.
Proof.
  unfold buildWorkspaceRow. rewrite buildIngestedRow_ok.
  cbv beta iota delta [rbind].
  change (toPropertyKey (readTable HEADERS_TO_WORKSPACE_KEY
            (INGESTION_HEADERS_TO_WORKSPACE_KEY PROJECT_ID))) with "projectId".
  change (readTable HEADERS_TO_WORKSPACE_KEY "CONSORTIUM") with (Own "consortium").
  destruct (get (ingestedRow contentRow headers) "projectId") as [|pid| | |] eqn:Hpid;
    try reflexivity.
  cbv beta iota delta [callSplit].
  destruct (index (split pid "_") 1) as [segment|] eqn:Hseg; [|reflexivity].
  cbv beta iota delta [optionValue].
  rewrite buildIngestedDatum_string.
  destruct (getStudyGapAccession (mapGet studies (VString pid))); reflexivity.
Qed.

Lemma buildWorkspaceRow_inv contentRow headers samples studies sizes r :
  buildWorkspaceRow getStudyGapAccession contentRow headers samples studies sizes = Ok r ->
  exists pid segment accession,
    get (ingestedRow contentRow headers) "projectId" = VString pid
    /\ index (split pid "_") 1 = Some segment
    /\ getStudyGapAccession (mapGet studies (VString pid)) = Ok accession
    /\ r = workspaceRecord (ingestedRow contentRow headers) pid segment accession
             samples studies sizes.
Proof.
  rewrite buildWorkspaceRow_eq.
  destruct (get (ingestedRow contentRow headers) "projectId") as [|pid| | |] eqn:Hpid;
    try discriminate.
  destruct (index (split pid "_") 1) as [segment|] eqn:Hseg; [|discriminate].
  destruct (getStudyGapAccession (mapGet studies (VString pid))) as [accession|] eqn:Hacc;
    [|discriminate].
  intros [= <-]. exists pid, segment, accession. repeat split; assumption.
Qed.

Lemma buildWorkspaceRow_intro contentRow headers samples studies sizes pid segment accession :
  get (ingestedRow contentRow headers) "projectId" = VString pid ->
  index (split pid "_") 1 = Some segment ->
  getStudyGapAccession (mapGet studies (VString pid)) = Ok accession ->
  buildWorkspaceRow getStudyGapAccession contentRow headers samples studies sizes
  = Ok (workspaceRecord (ingestedRow contentRow headers) pid segment accession
          samples studies sizes).
Proof. intros Hpid Hseg Hacc. now rewrite buildWorkspaceRow_eq, Hpid, Hseg, Hacc. Qed.

Lemma buildWorkspaceRow_throws contentRow headers samples studies sizes pid :
  get (ingestedRow contentRow headers) "projectId" = VString pid ->
  index (split pid "_") 1 = None ->
  buildWorkspaceRow getStudyGapAccession contentRow headers samples studies sizes
  = Throw TypeError.
Proof. intros Hpid Hseg. now rewrite buildWorkspaceRow_eq, Hpid, Hseg. Qed.

(** A project id without an underscore makes the transformer raise: the
    consortium rule is applied to [undefined]. So does the empty content row
    a final line break leaves behind. *)
Lemma project_id_without_underscore_raises contentRow headers samples studies sizes pid :
  get (ingestedRow contentRow headers) "projectId" = VString pid ->
  anyChar (Ascii.eqb "_") pid = false ->
  buildWorkspaceRow getStudyGapAccession contentRow headers samples studies sizes
  = Throw TypeError.
Proof.
  intros Hpid Hno. apply buildWorkspaceRow_throws with (pid := pid); [assumption|].
  change "_" with (String "_"%char EmptyString). now rewrite split_no_separator.
Qed.

(** X20. Every record the transformer returns has the access "Private": the
    only id of the public allow-list has no second segment. *)
Lemma access_always_private contentRow headers samples studies sizes r :
  buildWorkspaceRow getStudyGapAccession contentRow headers samples studies sizes = Ok r ->
  r !! "access" = Some (VString "Private").
Proof.
  intros H. apply buildWorkspaceRow_inv in H as (pid & segment & accession & _ & Hseg & _ & ->).
  rewrite workspaceRecord_access.
  now destruct (second_segment_nonempty _ _ Hseg) as [_ ->].
Qed.

(** C2 (amended). Reading the record back at a canonical field that a column
    of the row maps to, and that is not one of the six derived fields, gives
    exactly the Field Coercion of the text of the last such column. *)
Theorem C2_round_trip_outside_derived_fields
    contentRow headers samples studies sizes r i datum field :
  buildWorkspaceRow getStudyGapAccession contentRow headers samples studies sizes = Ok r ->
  nth_error (split contentRow TAB) i = Some datum ->
  keyAt headers i = Own field ->
  (forall j, i < j -> j < List.length (split contentRow TAB) -> keyAt headers j <> Own field) ->
  ~ In field derivedFields ->
  exists v,
    buildIngestedDatum (VString datum) (Own field) = Ok v
    /\ r !! field = Some v
    /\ get r field = v.
Proof.
  intros H Hnth Hkey Hlast Hder.
  apply buildWorkspaceRow_inv in H as (pid & segment & accession & _ & _ & _ & ->).
  exists (coerce datum (Own field)).
  assert (workspaceRecord (ingestedRow contentRow headers) pid segment accession
            samples studies sizes !! field = Some (coerce datum (Own field))) as Hr.
  { rewrite workspaceRecord_lookup_other by assumption.
    now apply ingestedRow_lookup with (i := i). }
  split; [apply buildIngestedDatum_string|]. split; [exact Hr | now apply get_lookup].
Qed.


(** C5 (amended). For a row whose project id has a second segment between
    underscores, the transformer returns a record whose consortium is Field
    Coercion's consortium rule applied to that second segment. *)
Theorem C5_consortium_from_second_segment
    contentRow headers samples studies sizes row pid segment accession :
  buildIngestedRow contentRow headers = Ok row ->
  get row "projectId" = VString pid ->
  index (split pid "_") 1 = Some segment ->
  getStudyGapAccession (mapGet studies (VString pid)) = Ok accession ->
  exists r display,
    buildWorkspaceRow getStudyGapAccession contentRow headers samples studies sizes = Ok r
    /\ buildIngestedDatum (VString segment) (readTable HEADERS_TO_WORKSPACE_KEY "CONSORTIUM")
       = Ok display
    /\ r !! "consortium" = Some display.
Proof.
  rewrite buildIngestedRow_ok. intros [= <-] Hpid Hseg Hacc.
  exists (workspaceRecord (ingestedRow contentRow headers) pid segment accession
            samples studies sizes), (coerce segment (Own "consortium")).
  split; [now apply buildWorkspaceRow_intro|].
  split; [apply buildIngestedDatum_string | apply workspaceRecord_consortium].
Qed.

(** C8. On a row whose project id is the id of the public allow-list the
    transformer raises: the id has no second segment, so the consortium rule
    is applied to [undefined]. No record with the access "Public" results. *)
Theorem C8_public_project_id_raises samples studies sizes :
  includes ALLOW_LIST_WORKSPACE_ACCESS_PUBLIC (VString "1000G-high-coverage-2019") = true
  /\ buildWorkspaceRow getStudyGapAccession "1000G-high-coverage-2019" ["name"]
       samples studies sizes = Throw TypeError.
Proof.
  split; [reflexivity|].
  now apply buildWorkspaceRow_throws with (pid := "1000G-high-coverage-2019").
Qed.

(** C9. When the project id of the row is not a key of the sample-count
    lookup, the samples of the returned record is the number 0, as an own
    field of the record; likewise the size with the file-size lookup. *)
Theorem C9_missing_lookup_entry_yields_zero
    contentRow headers samples studies sizes r :
  buildWorkspaceRow getStudyGapAccession contentRow headers samples studies sizes = Ok r ->
  exists pid,
    r !! "projectId" = Some (VString pid)
    /\ (mapHas samples (VString pid) = false -> r !! "samples" = Some (VNumber zero))
    /\ (mapHas sizes (VString pid) = false -> r !! "size" = Some (VNumber zero)).
Proof.
  intros H.
  apply buildWorkspaceRow_inv in H as (pid & segment & accession & Hpid & _ & _ & ->).
  exists pid. split; [|split].
  - rewrite workspaceRecord_projectId. now apply get_own.
  - intros Hno. rewrite workspaceRecord_samples, (mapGet_mapHas _ _ Hno). reflexivity.
  - intros Hno. rewrite workspaceRecord_size, (mapGet_mapHas _ _ Hno). reflexivity.
Qed.

(** C10. In every record the transformer returns, samples and size are own
    fields that are neither [undefined] nor [NaN], and each is the number 0
    whenever the lookup holds a falsy value for the project id; [NaN] (what
    a text that is no number coerces to), the empty string, 0 and
    [undefined] are falsy. *)
Theorem C10_samples_and_size_never_nan
    contentRow headers samples studies sizes r :
  buildWorkspaceRow getStudyGapAccession contentRow headers samples studies sizes = Ok r ->
  exists pid count size,
    r !! "projectId" = Some (VString pid)
    /\ r !! "samples" = Some count /\ r !! "size" = Some size
    /\ count <> VUndefined /\ count <> VNumber NaN
    /\ size <> VUndefined /\ size <> VNumber NaN
    /\ (truthy (mapGet samples (VString pid)) = false -> count = VNumber zero)
    /\ (truthy (mapGet sizes (VString pid)) = false -> size = VNumber zero)
    /\ Forall (fun v => truthy v = false)
         [VNumber NaN; VString ""; VNumber zero; VUndefined;
          coerce "n/a" (Own "samples"); coerce "" (Own "size")].
Proof.
  intros H.
  apply buildWorkspaceRow_inv in H as (pid & segment & accession & Hpid & _ & _ & ->).
  assert (forall v, logicalOr v (VNumber zero) <> VUndefined
                    /\ logicalOr v (VNumber zero) <> VNumber NaN
                    /\ (truthy v = false -> logicalOr v (VNumber zero) = VNumber zero)) as Hor.
  { intros v. unfold logicalOr. destruct (truthy v) eqn:E.
    - repeat split; try discriminate; intros ->; discriminate E.
    - repeat split; discriminate. }
  exists pid, (logicalOr (mapGet samples (VString pid)) (VNumber zero)),
    (logicalOr (mapGet sizes (VString pid)) (VNumber zero)).
  destruct (Hor (mapGet samples (VString pid))) as (? & ? & ?).
  destruct (Hor (mapGet sizes (VString pid))) as (? & ? & ?).
  repeat (split; [first [ assumption
                        | apply workspaceRecord_samples
                        | apply workspaceRecord_size
                        | rewrite workspaceRecord_projectId; now apply get_own ]|]).
  repeat constructor.
Qed.

End RowTransformer.

(** ** [Map] *)

Lemma sameValueZero_keyClass a b :
  sameValueZero a b = true <-> exists c, keyClass a = Some c /\ keyClass b = Some c.
Proof.
  split.
  - destruct a as [|s|x|l|p], b as [|t|y|l'|q]; simpl; try discriminate.
    + eauto.
    + intros H. apply String.eqb_eq in H. subst. eauto.
    + destruct x as [a| a| |a m e], y as [b| b| |b n f]; simpl; try discriminate; eauto.
      * intros H. apply Bool.eqb_prop in H. subst. eauto.
      * intros H. apply andb_true_iff in H as [H He]. apply andb_true_iff in H as [Hs Hm].
        apply Bool.eqb_prop in Hs. apply Pos.eqb_eq in Hm. apply Z.eqb_eq in He.
        subst. eauto.
    + intros H. apply String.eqb_eq in H. subst. eauto.
  - intros (c & Ha & Hb).
    destruct a as [|s|x|l|p], b as [|t|y|l'|q];
      try (destruct x as [a| a| |a m e]); try (destruct y as [b| b| |b n f]);
      cbv [keyClass normalizeKey zero] in Ha, Hb;
      try discriminate Ha; try discriminate Hb;
      rewrite <- Hb in Ha; try discriminate Ha;
      try reflexivity; injection Ha as Ha; simpl.
    + subst. apply String.eqb_refl.
    + subst. now destruct b.
    + subst. rewrite Pos.eqb_refl, Z.eqb_refl. now destruct b.
    + subst. apply String.eqb_refl.
Qed.

Lemma sameValueZero_sym a b : sameValueZero a b = true -> sameValueZero b a = true.
Proof. rewrite !sameValueZero_keyClass. intros (c & ? & ?). eauto. Qed.

Lemma sameValueZero_trans a b c :
  sameValueZero a b = true -> sameValueZero b c = true -> sameValueZero a c = true.
Proof.
  rewrite !sameValueZero_keyClass. intros (x & Ha & Hb) (y & Hb' & Hc).
  exists x. split; [assumption|congruence].
Qed.

(** Keys that are the same compare alike with every key. *)
Lemma sameValueZero_congr a b c :
  sameValueZero a b = true -> sameValueZero a c = sameValueZero b c.
Proof.
  intros H.
  destruct (sameValueZero a c) eqn:Ea, (sameValueZero b c) eqn:Eb; try reflexivity.
  - rewrite <- Eb. symmetry. eapply sameValueZero_trans; [apply sameValueZero_sym|]; eassumption.
  - rewrite <- Ea. eapply sameValueZero_trans; eassumption.
Qed.

Lemma sameValueZero_normalizeKey k k' :
  sameValueZero (normalizeKey k) k' = sameValueZero k k'.
Proof. destruct k as [| |[]| |]; reflexivity. Qed.

(** [get] after [set]. *)
Lemma mapGet_mapSet m k v k' :
  mapGet (mapSet m k v) k' = if sameValueZero k k' then v else mapGet m k'.
Proof.
  induction m as [|[k0 v0] m IH]; simpl.
  - now rewrite sameValueZero_normalizeKey.
  - destruct (sameValueZero k0 k) eqn:E; simpl.
    + rewrite (sameValueZero_congr _ _ k' E). now destruct (sameValueZero k k').
    + rewrite IH. destruct (sameValueZero k0 k') eqn:E0; [|reflexivity].
      destruct (sameValueZero k k') eqn:E1; [|reflexivity].
      rewrite (sameValueZero_trans k0 k' k E0 (sameValueZero_sym _ _ E1)) in E. discriminate.
Qed.

(** [has] after [set]. *)
Lemma mapHas_mapSet m k v k' :
  mapHas (mapSet m k v) k' = sameValueZero k k' || mapHas m k'.
Proof.
  induction m as [|[k0 v0] m IH]; simpl.
  - now rewrite sameValueZero_normalizeKey.
  - destruct (sameValueZero k0 k) eqn:E; simpl.
    + rewrite <- (sameValueZero_congr _ _ k' E). now destruct (sameValueZero k0 k').
    + rewrite IH. destruct (sameValueZero k0 k'), (sameValueZero k k'); reflexivity.
Qed.

(** [set] adds at most one entry, and exactly one for a key the map has
    not. *)
Lemma mapSize_mapSet m k v :
  mapSize (mapSet m k v) = if mapHas m k then mapSize m else S (mapSize m).
Proof.
  unfold mapSize. induction m as [|[k0 v0] m IH]; simpl; [reflexivity|].
  destruct (sameValueZero k0 k); simpl; [reflexivity|].
  rewrite IH. now destruct (mapHas m k).
Qed.

Lemma mapGet_fold entries m k :
  mapGet (fold_left (fun m kv => mapSet m (fst kv) (snd kv)) entries m) k
  = fold_left (fun acc kv => if sameValueZero (fst kv) k then snd kv else acc)
      entries (mapGet m k).
Proof.
  revert m. induction entries as [|[k0 v0] entries IH]; intros m; simpl; [reflexivity|].
  now rewrite IH, mapGet_mapSet.
Qed.

Lemma mapSize_fold_le entries m :
  mapSize (fold_left (fun m kv => mapSet m (fst kv) (snd kv)) entries m)
  <= mapSize m + List.length entries.
Proof.
  revert m. induction entries as [|[k0 v0] entries IH]; intros m; simpl; [lia|].
  specialize (IH (mapSet m k0 v0)). rewrite mapSize_mapSet in IH.
  destruct (mapHas m k0); lia.
Qed.

Lemma mapSize_fold_distinct entries m seen :
  (forall k, existsb (fun k' => sameValueZero k' k) seen = mapHas m k) ->
  distinctKeys seen (map fst entries) = true ->
  mapSize (fold_left (fun m kv => mapSet m (fst kv) (snd kv)) entries m)
  = mapSize m + List.length entries.
Proof.
  revert m seen. induction entries as [|[k0 v0] entries IH]; intros m seen Hseen Hd; simpl.
  - lia.
  - simpl in Hd. apply andb_true_iff in Hd as [Hfresh Hd].
    rewrite (IH (mapSet m k0 v0) (k0 :: seen)); [| |assumption].
    + rewrite mapSize_mapSet. rewrite <- Hseen.
      apply negb_true_iff in Hfresh. rewrite Hfresh. lia.
    + intros k. simpl. now rewrite mapHas_mapSet, Hseen.
Qed.

(** ** The Lookup Builder *)

(** The builder never raises: it enters one pair per non-header row, read
    from the row object of that row. *)
Lemma buildKeyValuePair_eq contentRows headers keyPair valuePair :
  buildKeyValuePair contentRows headers keyPair valuePair =
  Ok (fold_left
        (fun m contentRow =>
           mapSet m
             (get (keyValueRow headers keyPair valuePair contentRow)
                (toPropertyKey (readTable HEADERS_TO_WORKSPACE_KEY
                                  (INGESTION_HEADERS_TO_WORKSPACE_KEY keyPair))))
             (get (keyValueRow headers keyPair valuePair contentRow)
                (toPropertyKey (readTable HEADERS_TO_WORKSPACE_KEY
                                  (INGESTION_HEADERS_TO_WORKSPACE_KEY valuePair)))))
        (skipn 1 contentRows) []).
Proof.
  unfold buildKeyValuePair.
  generalize (skipn 1 contentRows). intros rows.
  generalize 0 at 1. generalize (@nil (value * value)). intros m i. revert i m.
  induction rows as [|contentRow rows IH]; intros i m; simpl; [reflexivity|].
  rewrite buildKeyValueRow_ok. simpl. apply IH.
Qed.

Lemma key_not_inherited column :
  includesString objectPrototypeMembers
    (toPropertyKey (readTable HEADERS_TO_WORKSPACE_KEY
                      (INGESTION_HEADERS_TO_WORKSPACE_KEY column))) = false.
Proof. destruct column; reflexivity. Qed.

(** The last write under the property key of a named column is the coerced
    text of that column, when the other selected column has another key. *)
Lemma lastWrite_columnText (sel : nat -> bool) headers fields i target other :
  (forall i, sel i = headerIs (index headers i) (INGESTION_HEADERS_TO_WORKSPACE_KEY target)
                     || headerIs (index headers i) (INGESTION_HEADERS_TO_WORKSPACE_KEY other)) ->
  toPropertyKey (readTable HEADERS_TO_WORKSPACE_KEY (INGESTION_HEADERS_TO_WORKSPACE_KEY target))
  <> toPropertyKey (readTable HEADERS_TO_WORKSPACE_KEY (INGESTION_HEADERS_TO_WORKSPACE_KEY other)) ->
  lastWrite sel headers fields i
    (toPropertyKey (readTable HEADERS_TO_WORKSPACE_KEY (INGESTION_HEADERS_TO_WORKSPACE_KEY target)))
  = match columnText (INGESTION_HEADERS_TO_WORKSPACE_KEY target) headers fields i with
    | Some text =>
        Some (coerce text (readTable HEADERS_TO_WORKSPACE_KEY
                             (INGESTION_HEADERS_TO_WORKSPACE_KEY target)))
    | None => None
    end.
Proof.
  intros Hsel Hne. revert i.
  induction fields as [|datum rest IH]; intros i; simpl; [reflexivity|].
  rewrite IH. destruct (columnText _ headers rest (S i)); [reflexivity|].
  rewrite Hsel. unfold keyAt, headerIs.
  destruct (index headers i) as [h|]; simpl; [|reflexivity].
  destruct (String.eqb h (INGESTION_HEADERS_TO_WORKSPACE_KEY target)) eqn:Et; simpl.
  - apply String.eqb_eq in Et. subst h. now rewrite String.eqb_refl.
  - destruct (String.eqb h (INGESTION_HEADERS_TO_WORKSPACE_KEY other)) eqn:Eo; [|reflexivity].
    apply String.eqb_eq in Eo. subst h.
    apply not_eq_sym in Hne. apply String.eqb_neq in Hne. now rewrite Hne.
Qed.

(** The row object read at the key of a named column is the value under that
    column. *)
Lemma keyValueRow_get headers keyPair valuePair contentRow target other :
  (target = keyPair /\ other = valuePair) \/ (target = valuePair /\ other = keyPair) ->
  toPropertyKey (readTable HEADERS_TO_WORKSPACE_KEY (INGESTION_HEADERS_TO_WORKSPACE_KEY target))
  <> toPropertyKey (readTable HEADERS_TO_WORKSPACE_KEY (INGESTION_HEADERS_TO_WORKSPACE_KEY other)) ->
  get (keyValueRow headers keyPair valuePair contentRow)
    (toPropertyKey (readTable HEADERS_TO_WORKSPACE_KEY (INGESTION_HEADERS_TO_WORKSPACE_KEY target)))
  = columnValue headers contentRow target.
Proof.
  intros Hwhich Hne. unfold get, keyValueRow, columnValue.
  rewrite rowFrom_lookup, lookup_empty.
  rewrite (lastWrite_columnText _ headers _ 0 target other); [| |assumption].
  - destruct (columnText _ headers _ 0); [reflexivity|]. now rewrite key_not_inherited.
  - intros i. unfold isHeaderKeyOrValue.
    destruct Hwhich as [[-> ->]|[-> ->]]; [reflexivity | apply orb_comm].
Qed.

(** The three lookups of the pipeline name two columns with different
    workspace keys. *)
Lemma pipeline_lookups_have_distinct_keys :
  Forall (fun pair =>
            toPropertyKey (readTable HEADERS_TO_WORKSPACE_KEY
                             (INGESTION_HEADERS_TO_WORKSPACE_KEY (fst pair)))
            <> toPropertyKey (readTable HEADERS_TO_WORKSPACE_KEY
                                (INGESTION_HEADERS_TO_WORKSPACE_KEY (snd pair))))
         [(PROJECT_ID, DB_GAP_ID); (WORKSPACE, SAMPLES); (WORKSPACE, SIZE)].
Proof. repeat constructor; discriminate. Qed.

(** C3. The Lookup Builder returns the association obtained by entering, for
    each non-header row in order, the value under the first named column as
    key and the value under the second as value: one entry per row, a later
    row replacing the entry of an earlier row with the same key. So a key
    reads as the value of the last row that has it, there are at most as many
    entries as rows, and exactly as many when the keys of the rows differ. *)
Theorem C3_lookup_builder_one_entry_per_row contentRows headers keyPair valuePair :
  toPropertyKey (readTable HEADERS_TO_WORKSPACE_KEY (INGESTION_HEADERS_TO_WORKSPACE_KEY keyPair))
  <> toPropertyKey (readTable HEADERS_TO_WORKSPACE_KEY
                      (INGESTION_HEADERS_TO_WORKSPACE_KEY valuePair)) ->
  let entries := lookupEntries contentRows headers keyPair valuePair in
  buildKeyValuePair contentRows headers keyPair valuePair = Ok (setAll entries)
  /\ List.length entries = List.length contentRows - 1
  /\ mapSize (setAll entries) <= List.length entries
  /\ (distinctKeys [] (map fst entries) = true -> mapSize (setAll entries) = List.length entries)
  /\ (forall k, mapGet (setAll entries) k = lastValue entries k).
Proof.
  intros Hne entries. subst entries. unfold lookupEntries, setAll.
  split; [|split; [|split; [|split]]].
  - rewrite buildKeyValuePair_eq. f_equal.
    generalize (@nil (value * value)).
    induction (skipn 1 contentRows) as [|contentRow rows IH]; intros m; simpl; [reflexivity|].
    rewrite (keyValueRow_get headers keyPair valuePair contentRow keyPair valuePair);
      [|now left|assumption].
    rewrite (keyValueRow_get headers keyPair valuePair contentRow valuePair keyPair);
      [|now right|now apply not_eq_sym].
    apply IH.
  - rewrite length_map, length_skipn. reflexivity.
  - apply (mapSize_fold_le _ []).
  - intros Hd. now apply (mapSize_fold_distinct _ [] []).
  - intros k. apply (mapGet_fold _ []).
Qed.

(** ** File access and the pipeline *)

Section Pipeline.

Variable getStudyGapAccession : value -> result value.
Variable sortDataByDuoTypes : list object -> member -> member -> list object.
Variable fs : string -> option string.





End Pipeline.

(** ** The properties at concrete inputs *)


(** The record of the example row with the sample lookup [samples]. *)
Lemma exampleRow_record samples :
  buildWorkspaceRow exampleResolver exampleRow exampleHeaders samples [] []
  = Ok (workspaceRecord (ingestedRow exampleRow exampleHeaders)
          "AN_CCDG_something" "CCDG" VUndefined samples [] []).
Proof. apply buildWorkspaceRow_intro; vm_compute; reflexivity. Qed.

(** C2 (counterexample). Two headers of a row can map to one canonical
    field, as name and Workspace map to the project id, which is no derived
    field: the record then holds the coerced text of the later column, and
    the earlier column does not read back. And the derived fields that win
    over a column are six: a row with a column for each of access,
    consortium, samples, size, dbGapIdAccession and dbGapId reads back none
    of them. *)
Lemma C2_counterexample_repeated_field :
  (keyAt repeatedHeaders 0 = Own "projectId"
   /\ nth_error (split repeatedRow TAB) 0 = Some "AN_CCDG_first"
   /\ ~ In "projectId" derivedFields
   /\ buildIngestedDatum (VString "AN_CCDG_first") (Own "projectId")
      = Ok (VString "AN_CCDG_first")
   /\ exists r,
        buildWorkspaceRow exampleResolver repeatedRow repeatedHeaders [] [] [] = Ok r
        /\ get r "projectId" = VString "AN_CMG_second"
        /\ get r "projectId" <> VString "AN_CCDG_first")
  /\ exists r,
       buildWorkspaceRow exampleResolver derivedRow derivedHeaders [] [] [] = Ok r
       /\ Forall (fun column =>
                    let '(i, field, datum) := column in
                    keyAt derivedHeaders i = Own field
                    /\ nth_error (split derivedRow TAB) i = Some datum
                    /\ Ok (get r field) <> buildIngestedDatum (VString datum) (Own field))
                 [ (1, "access", "Public"); (2, "consortium", "gtex");
                   (3, "samples", "5"); (4, "size", "9");
                   (5, "dbGapIdAccession", "phs000123.v1.p1");
                   (6, "dbGapId", "phs000123") ].
Proof.
  split.
  - split; [vm_compute; reflexivity|]. split; [vm_compute; reflexivity|].
    split; [simpl; intuition discriminate|]. split; [vm_compute; reflexivity|].
    eexists. split.
    + apply buildWorkspaceRow_intro with (segment := "CMG") (accession := VUndefined);
        vm_compute; reflexivity.
    + rewrite (get_lookup _ "projectId" (VString "AN_CMG_second"))
        by (rewrite workspaceRecord_projectId; vm_compute; reflexivity).
      split; [reflexivity | discriminate].
  - eexists. split.
    + apply buildWorkspaceRow_intro with (segment := "CCDG") (accession := VUndefined);
        vm_compute; reflexivity.
    + repeat (constructor;
              [split; [vm_compute; reflexivity|]; split; [vm_compute; reflexivity|];
               vm_compute; discriminate|]).
      constructor.
Qed.

Lemma C2_witness :
  exists r,
    buildWorkspaceRow exampleResolver exampleRow exampleHeaders [] [] [] = Ok r
    /\ r !! "dataTypes" = Some (VArray ["a"; "b"; "c"]).
Proof.
  eexists. split; [apply exampleRow_record|].
  destruct (C2_round_trip_outside_derived_fields exampleResolver
              exampleRow exampleHeaders [] [] [] _ 2 "a,b,c" "dataTypes"
              (exampleRow_record []))
    as (v & Hv & Hr & _).
  - vm_compute. reflexivity.
  - vm_compute. reflexivity.
  - intros j Hj Hlen.
    assert (List.length (split exampleRow TAB) = 4) as Hfour by (vm_compute; reflexivity).
    assert (j = 3) as -> by lia. vm_compute. discriminate.
  - simpl. intuition discriminate.
  - rewrite Hr. f_equal. vm_compute in Hv. now injection Hv.
Defined.

Lemma C3_witness :
  let entries := lookupEntries exampleCounts (buildIngestedHeaders exampleCounts)
                   WORKSPACE SAMPLES in
  entries = [ (VString "AN_CCDG_something", VNumber (ofZ 1000));
              (VString "AN_CMG_other", VNumber NaN);
              (VString "AN_CCDG_something", VNumber (ofZ 7)) ]
  /\ buildKeyValuePair exampleCounts (buildIngestedHeaders exampleCounts) WORKSPACE SAMPLES
     = Ok [ (VString "AN_CCDG_something", VNumber (ofZ 7));
            (VString "AN_CMG_other", VNumber NaN) ]
  /\ mapGet (setAll entries) (VString "AN_CCDG_something") = VNumber (ofZ 7).
Proof.
  intros entries.
  destruct (C3_lookup_builder_one_entry_per_row exampleCounts
              (buildIngestedHeaders exampleCounts) WORKSPACE SAMPLES)
    as (Hbuild & _ & _ & _ & Hget).
  - vm_compute. discriminate.
  - split; [vm_compute; reflexivity|]. split.
    + rewrite Hbuild. vm_compute. reflexivity.
    + fold entries in Hget. rewrite Hget. vm_compute. reflexivity.
Defined.



(** C5 (counterexample). On a project id of five segments the middle
    segment is the third, and the consortium of the record comes from the
    second. *)
Lemma C5_counterexample_second_not_middle :
  split "AnVIL_CCDG_Broad_AI_IBD" "_" = ["AnVIL"; "CCDG"; "Broad"; "AI"; "IBD"]
  /\ middleSegment (split "AnVIL_CCDG_Broad_AI_IBD" "_") = Some "Broad"
  /\ buildIngestedDatum (VString "Broad") (Own "consortium") = Ok (VString "BROAD")
  /\ exists r,
       buildWorkspaceRow exampleResolver "AnVIL_CCDG_Broad_AI_IBD" ["name"] [] [] [] = Ok r
       /\ get r "consortium" = VString "CCDG"
       /\ get r "consortium" <> VString "BROAD".
Proof.
  repeat (split; [vm_compute; reflexivity|]).
  eexists. split.
  - apply buildWorkspaceRow_intro with (segment := "CCDG") (accession := VUndefined);
      vm_compute; reflexivity.
  - rewrite (get_lookup _ _ _ (workspaceRecord_consortium _ _ _ _ _ _ _)).
    split; [vm_compute; reflexivity | vm_compute; discriminate].
Qed.

Lemma C5_witness :
  exists r,
    buildWorkspaceRow exampleResolver "AN_CCDG_something" ["name"] [] [] [] = Ok r
    /\ r !! "consortium" = Some (VString "CCDG").
Proof.
  destruct (C5_consortium_from_second_segment exampleResolver
              "AN_CCDG_something" ["name"] [] [] []
              (ingestedRow "AN_CCDG_something" ["name"]) "AN_CCDG_something" "CCDG" VUndefined)
    as (r & display & Hr & Hdisplay & Hconsortium).
  - apply buildIngestedRow_ok.
  - vm_compute. reflexivity.
  - vm_compute. reflexivity.
  - reflexivity.
  - exists r. split; [exact Hr|]. rewrite Hconsortium. f_equal.
    vm_compute in Hdisplay. now injection Hdisplay.
Defined.

Lemma C9_witness :
  exists r,
    buildWorkspaceRow exampleResolver exampleRow exampleHeaders exampleSamples [] [] = Ok r
    /\ mapHas [] (VString "AN_CCDG_something") = false
    /\ r !! "size" = Some (VNumber zero).
Proof.
  eexists. split; [apply exampleRow_record|]. split; [reflexivity|].
  destruct (C9_missing_lookup_entry_yields_zero exampleResolver
              exampleRow exampleHeaders exampleSamples [] [] _ (exampleRow_record exampleSamples))
    as (pid & _ & _ & Hsize).
  apply Hsize. reflexivity.
Defined.

Lemma C10_witness :
  exists r,
    buildWorkspaceRow exampleResolver "AN_CMG_other" ["name"]
      [(VString "AN_CMG_other", VNumber NaN)] [] [(VString "AN_CMG_other", VString "")] = Ok r
    /\ r !! "samples" = Some (VNumber zero)
    /\ r !! "size" = Some (VNumber zero).
Proof.
  assert (buildWorkspaceRow exampleResolver "AN_CMG_other" ["name"]
            [(VString "AN_CMG_other", VNumber NaN)] [] [(VString "AN_CMG_other", VString "")]
          = Ok (workspaceRecord (ingestedRow "AN_CMG_other" ["name"]) "AN_CMG_other" "CMG"
                  VUndefined [(VString "AN_CMG_other", VNumber NaN)] []
                  [(VString "AN_CMG_other", VString "")])) as E
      by (apply buildWorkspaceRow_intro; vm_compute; reflexivity).
  eexists. split; [exact E|].
  destruct (C10_samples_and_size_never_nan exampleResolver _ _ _ _ _ _ E)
    as (pid & count & size & Hpid & Hcount & Hsize & _ & _ & _ & _ & Hc & Hs & _).
  assert (pid = "AN_CMG_other") as ->.
  { rewrite workspaceRecord_projectId in Hpid. vm_compute in Hpid. congruence. }
  rewrite Hcount, Hsize, Hc, Hs by reflexivity. now split.
Defined.

(** ** The pipeline at concrete directories *)

(** A run of the pipeline: two records, with the samples of the count file
    (the later row of a workspace standing, a count that is no number read as
    0), the accession the resolver gives, and the diagnostic of the missing
    file. *)
Lemma pipeline_example :
  match getIngestedWorkspaces exampleResolver keepOrder exampleDirectory [] with
  | (Ok records, console) =>
      map (fun r => map (get r)
                      ["projectId"; "consortium"; "subjects"; "samples"; "size";
                       "dbGapId"; "dbGapIdAccession"])
          records
      = [ [ VString "AN_CCDG_something"; VString "CCDG"; VNumber (ofZ 1234);
            VNumber (ofZ 7); VNumber zero; VString "phs000123";
            VString "phs000123.v1.p1" ];
          [ VString "AN_CMG_other"; VString "CMG"; VNumber (ofZ 12);
            VNumber zero; VNumber zero; VUndefined; VUndefined ] ]
      /\ console
         = ["Error: file terra-data-ingestion-attributes-file-size.tsv cannot be found."]
  | (Throw _, _) => False
  end.
Proof. vm_compute. split; reflexivity. Qed.

(** The pipeline rejects as a whole when the main export has the workspace
    of the public allow-list. *)
Lemma pipeline_rejects_public_workspace :
  fst (getIngestedWorkspaces exampleResolver keepOrder publicDirectory []) = Throw TypeError.
Proof. vm_compute. reflexivity. Qed.

(** It also rejects when the main export ends with a line break: the last
    line is an empty content row, whose project id is the empty string. *)
Lemma pipeline_rejects_trailing_line_break :
  fst (getIngestedWorkspaces exampleResolver keepOrder trailingBreakDirectory [])
  = Throw TypeError.
Proof. vm_compute. reflexivity. Qed.

(** * Further properties of the service *)

(** ** Lines and headers *)

Lemma startsWith_prefix p s :
  startsWith p s = true -> s = (p ++ dropChars (String.length p) s)%string.
Proof.
  revert s. induction p as [|a p IH]; intros s H; [reflexivity|].
  destruct s as [|b s]; [discriminate|].
  cbn [startsWith] in H. apply andb_true_iff in H as [Hab Hp].
  apply Ascii.eqb_eq in Hab. subst b.
  change (String a s = String a (p ++ dropChars (String.length p) s)%string).
  f_equal. now apply IH.
Qed.

Lemma append_assoc_string (a b c : string) : ((a ++ b) ++ c)%string = (a ++ b ++ c)%string.
Proof.
  induction a as [|x a IH]; [reflexivity|].
  change (String x ((a ++ b) ++ c)%string = String x (a ++ b ++ c)%string). now rewrite IH.
Qed.

(** Joining the pieces of a split with the separator gives the string back,
    for every non-empty separator. *)
Lemma splitFrom_join_any sep skip cur s :
  sep <> EmptyString ->
  join sep (splitFrom sep skip cur s) = (cur ++ dropChars skip s)%string.
Proof.
  intros Hsep. revert skip cur. induction s as [|c s IH]; intros skip cur.
  - cbn [splitFrom join]. destruct skip; cbn [dropChars]; now rewrite append_empty_r.
  - destruct skip as [|k]; cbn [splitFrom dropChars]; [|apply IH].
    destruct (startsWith sep (String c s)) eqn:E.
    + rewrite join_cons by apply splitFrom_nonempty. rewrite IH.
      apply startsWith_prefix in E.
      destruct sep as [|a sep]; [congruence|].
      cbn [String.length dropChars Nat.sub] in E |- *. rewrite Nat.sub_0_r.
      now rewrite E.
    + now rewrite IH, append_snoc.
Qed.

Lemma split_join sep s : sep <> EmptyString -> join sep (split s sep) = s.
Proof. intros H. unfold split. now rewrite splitFrom_join_any. Qed.

Lemma splitFrom_no_occurrence sep cur s :
  occurs sep s = false -> splitFrom sep 0 cur s = [(cur ++ s)%string].
Proof.
  revert cur. induction s as [|c s IH]; intros cur H.
  - cbn [splitFrom]. now rewrite append_empty_r.
  - cbn [occurs] in H. apply orb_false_iff in H as [Hhere Hrest].
    cbn [splitFrom]. rewrite Hhere. now rewrite (IH _ Hrest), append_snoc.
Qed.

(** A string in which the separator does not occur splits into itself. *)
Lemma split_no_occurrence sep s : occurs sep s = false -> split s sep = [s].
Proof. intros H. unfold split. now rewrite splitFrom_no_occurrence. Qed.

(** X1. For a file that exists, [getFileContents] writes nothing to the
    console and returns at least one line; the lines joined by the two
    characters CR LF are the content of the file, so nothing of the file is
    lost or altered. *)
Theorem getFileContents_round_trip fs fileName content console :
  fs fileName = Some content ->
  exists rows,
    getFileContents fs fileName console = (Ok rows, console)
    /\ rows <> []
    /\ join CRLF rows = content.
Proof.
  intros Hfile. exists (split content CRLF). unfold getFileContents. rewrite Hfile.
  split; [reflexivity|]. split; [apply splitFrom_nonempty|].
  apply split_join. discriminate.
Qed.

Lemma getFileContents_round_trip_witness :
  exampleFiles fileTerraDataIngestionCounts = Some (join CRLF exampleCounts)
  /\ exists rows,
       getFileContents exampleFiles fileTerraDataIngestionCounts [] = (Ok rows, [])
       /\ rows <> []
       /\ join CRLF rows = join CRLF exampleCounts.
Proof.
  split; [reflexivity|].
  apply (getFileContents_round_trip exampleFiles fileTerraDataIngestionCounts). reflexivity.
Defined.

(** X2. The header row is never empty: it is the first line cut at the tabs,
    the headers joined by tabs give that line back, and without any line
    there is the single header that is the empty string. *)
Theorem buildIngestedHeaders_first_line :
  (forall row rest,
      buildIngestedHeaders (row :: rest) = split row TAB
      /\ join TAB (buildIngestedHeaders (row :: rest)) = row)
  /\ buildIngestedHeaders [] = [""]
  /\ (forall contentRows, buildIngestedHeaders contentRows <> []).
Proof.
  split; [|split].
  - intros row rest. unfold buildIngestedHeaders. cbn [firstn join].
    split; [reflexivity | apply split_join; discriminate].
  - reflexivity.
  - intros contentRows. apply splitFrom_nonempty.
Qed.

(** ** The pipeline as a composition *)

Lemma getFileContents_eq fs fileName console :
  getFileContents fs fileName console
  = (Ok (fileLines fs fileName),
     console ++ (if isMissing fs fileName then [missingFile fileName] else [])).
Proof.
  unfold getFileContents, fileLines, isMissing. destruct (fs fileName).
  - unfold ioRet. now rewrite app_nil_r.
  - reflexivity.
Qed.

Lemma lookupOf_ok fs fileName keyPair valuePair :
  buildKeyValuePair (fileLines fs fileName) (buildIngestedHeaders (fileLines fs fileName))
    keyPair valuePair
  = Ok (lookupOf fs fileName keyPair valuePair).
Proof. unfold lookupOf. now rewrite buildKeyValuePair_eq. Qed.

Lemma lookup_from_file_eq fs fileName keyPair valuePair console :
  ioBind (getIngestedData fs fileName)
    (fun x => let '(headers, contentRows) := x in
              ioRet (buildKeyValuePair contentRows headers keyPair valuePair)) console
  = (Ok (lookupOf fs fileName keyPair valuePair),
     console ++ (if isMissing fs fileName then [missingFile fileName] else [])).
Proof.
  unfold getIngestedData, ioBind. rewrite getFileContents_eq.
  unfold ioRet. now rewrite lookupOf_ok.
Qed.

(** The pipeline, in one equation: the lookups of the three auxiliary files,
    the transformation of the content rows of the main export, the sort; and
    on the console one diagnostic for each missing file. *)
Lemma getIngestedWorkspaces_eq getStudyGapAccession sortDataByDuoTypes fs console :
  getIngestedWorkspaces getStudyGapAccession sortDataByDuoTypes fs console
  = (match buildWorkspaces getStudyGapAccession
             (fileLines fs fileAnVILDataIngestion)
             (buildIngestedHeaders (fileLines fs fileAnVILDataIngestion))
             (lookupOf fs fileTerraDataIngestionCounts WORKSPACE SAMPLES)
             (lookupOf fs fileAnVILDataIngestionAccession PROJECT_ID DB_GAP_ID)
             (lookupOf fs fileTerraDataIngestionFileSize WORKSPACE SIZE) with
     | Ok workspaces => Ok (sortDataByDuoTypes workspaces (Own "consortium") (Own "projectId"))
     | Throw e => Throw e
     end,
     console ++ map missingFile (List.filter (isMissing fs) inputFiles)).
Proof.
  unfold getIngestedWorkspaces.
  unfold getStudyIdByProjectId, getSampleCountByProjectId, getFileSizeByProjectId.
  unfold ioBind at 1. rewrite lookup_from_file_eq.
  unfold ioBind at 1. rewrite lookup_from_file_eq.
  unfold ioBind at 1. rewrite lookup_from_file_eq.
  unfold getWorkspaces, getIngestedData, ioBind. rewrite getFileContents_eq.
  unfold ioRet, inputFiles. cbn [List.filter].
  destruct (buildWorkspaces _ _ _ _ _ _);
    destruct (isMissing fs fileAnVILDataIngestionAccession),
             (isMissing fs fileTerraDataIngestionCounts),
             (isMissing fs fileTerraDataIngestionFileSize),
             (isMissing fs fileAnVILDataIngestion);
    cbn [map app]; rewrite <- ?app_assoc, ?app_nil_r; reflexivity.
Qed.

(** X3. Whatever the files hold and whether or not the pipeline rejects, its
    console output is exactly one diagnostic for each missing input file, in
    the order accession file, count file, file-size file, main export. *)
Theorem console_lists_the_missing_files getStudyGapAccession sortDataByDuoTypes fs console :
  snd (getIngestedWorkspaces getStudyGapAccession sortDataByDuoTypes fs console)
  = console ++ map (fun fileName => "Error: file " ++ fileName ++ " cannot be found.")%string
                   (List.filter (isMissing fs) inputFiles).
Proof.
  rewrite getIngestedWorkspaces_eq. cbn [snd].
  unfold missingFile. reflexivity.
Qed.

(** ** All the rows *)

Lemma promiseAll_Ok {A} (ps : list (result A)) xs :
  promiseAll ps = Ok xs <-> Forall2 (fun p x => p = Ok x) ps xs.
Proof.
  revert xs. induction ps as [|p ps IH]; intros xs; cbn [promiseAll].
  - split.
    + intros [= <-]. constructor.
    + intros H. inversion H. reflexivity.
  - destruct p as [x|e], (promiseAll ps) as [ys|e'] eqn:E.
    + split.
      * intros [= <-]. constructor; [reflexivity | now apply IH].
      * intros H. inversion H as [|? y ? ys' Hx Hys]; subst.
        injection Hx as <-. apply IH in Hys. now injection Hys as <-.
    + split; [discriminate|].
      intros H. inversion H as [|? y ? ys' Hx Hys]; subst.
      apply IH in Hys. discriminate.
    + split; [discriminate|]. intros H. inversion H. discriminate.
    + split; [destruct (_ && _); discriminate|]. intros H. inversion H. discriminate.
Qed.

Lemma buildWorkspaces_Forall2
    getStudyGapAccession contentRows headers samples studies sizes records :
  buildWorkspaces getStudyGapAccession contentRows headers samples studies sizes = Ok records
  <-> Forall2 (fun contentRow r =>
                 buildWorkspaceRow getStudyGapAccession contentRow headers samples studies sizes
                 = Ok r)
              (skipn 1 contentRows) records.
Proof.
  unfold buildWorkspaces. rewrite promiseAll_Ok.
  generalize (skipn 1 contentRows). intros rows. revert records.
  induction rows as [|row rows IH]; intros records; simpl.
  - split; intros H; inversion H; constructor.
  - split; intros H; inversion H; subst; constructor; try assumption; now apply IH.
Qed.

(** X4. [buildWorkspaces] returns records exactly when the transformer
    returns on every content row (every row but the first): then there is
    one record per content row, in the order of the rows, each the
    transformer's record of its row. One row that raises loses them all. *)
Theorem buildWorkspaces_one_record_per_row
    getStudyGapAccession contentRows headers samples studies sizes :
  (forall records,
      buildWorkspaces getStudyGapAccession contentRows headers samples studies sizes = Ok records
      <-> Forall2 (fun contentRow r =>
                     buildWorkspaceRow getStudyGapAccession contentRow headers
                       samples studies sizes = Ok r)
                  (skipn 1 contentRows) records)
  /\ ((exists records,
          buildWorkspaces getStudyGapAccession contentRows headers samples studies sizes
          = Ok records)
      <-> Forall (fun contentRow =>
                    exists r, buildWorkspaceRow getStudyGapAccession contentRow headers
                                samples studies sizes = Ok r)
                 (skipn 1 contentRows)).
Proof.
  split; [intros records; apply buildWorkspaces_Forall2|].
  split.
  - intros (records & H). apply buildWorkspaces_Forall2 in H.
    induction H; constructor; eauto.
  - intros H.
    assert (exists records,
               Forall2 (fun contentRow r =>
                          buildWorkspaceRow getStudyGapAccession contentRow headers
                            samples studies sizes = Ok r)
                       (skipn 1 contentRows) records) as (records & Hr).
    { induction H as [|row rows (r & Hrow) _ (rs & IH)].
      - exists []. constructor.
      - exists (r :: rs). now constructor. }
    exists records. now apply buildWorkspaces_Forall2.
Qed.

Lemma mapSize_fold_rows_le {A} (key val : A -> value) rows m :
  mapSize (fold_left (fun m row => mapSet m (key row) (val row)) rows m)
  <= mapSize m + List.length rows.
Proof.
  revert m. induction rows as [|row rows IH]; intros m; simpl; [lia|].
  specialize (IH (mapSet m (key row) (val row))). rewrite mapSize_mapSet in IH.
  destruct (mapHas m (key row)); lia.
Qed.

(** X5. The Lookup Builder never raises, whatever the rows, the headers and
    the two columns named: rows that are short, long or empty, and headers
    that lack the columns, give entries with [undefined] in them, never an
    exception. The lookup has at most one entry per row after the first. *)
Theorem buildKeyValuePair_never_raises contentRows headers keyPair valuePair :
  exists m,
    buildKeyValuePair contentRows headers keyPair valuePair = Ok m
    /\ mapSize m <= List.length contentRows - 1.
Proof.
  rewrite buildKeyValuePair_eq. eexists. split; [reflexivity|].
  etransitivity; [apply mapSize_fold_rows_le|].
  rewrite length_skipn. simpl. lia.
Qed.

(** ** The pipeline *)

Lemma lookupOf_missing fs fileName keyPair valuePair :
  fs fileName = None -> lookupOf fs fileName keyPair valuePair = [].
Proof. intros H. unfold lookupOf, fileLines. rewrite H. reflexivity. Qed.

Lemma getIngestedWorkspaces_inv getStudyGapAccession sortDataByDuoTypes fs console
    records console' :
  getIngestedWorkspaces getStudyGapAccession sortDataByDuoTypes fs console
  = (Ok records, console') ->
  exists workspaces,
    records = sortDataByDuoTypes workspaces (Own "consortium") (Own "projectId")
    /\ Forall2 (fun contentRow r =>
                  buildWorkspaceRow getStudyGapAccession contentRow
                    (buildIngestedHeaders (fileLines fs fileAnVILDataIngestion))
                    (lookupOf fs fileTerraDataIngestionCounts WORKSPACE SAMPLES)
                    (lookupOf fs fileAnVILDataIngestionAccession PROJECT_ID DB_GAP_ID)
                    (lookupOf fs fileTerraDataIngestionFileSize WORKSPACE SIZE)
                  = Ok r)
               (skipn 1 (fileLines fs fileAnVILDataIngestion)) workspaces.
Proof.
  rewrite getIngestedWorkspaces_eq.
  destruct (buildWorkspaces _ _ _ _ _ _) as [workspaces|e] eqn:E; [|discriminate].
  intros [= <- _]. exists workspaces. split; [reflexivity|].
  now apply buildWorkspaces_Forall2 in E.
Qed.

Section SortedOutput.

Variable getStudyGapAccession : value -> result value.
Variable sortDataByDuoTypes : list object -> member -> member -> list object.
Variable fs : string -> option string.

Hypothesis sort_rearranges :
  forall records groupKey tieKey,
    Permutation (sortDataByDuoTypes records groupKey tieKey) records.

(** X6. With a sort that rearranges its records, the records the pipeline
    returns are, up to their order, the transformer's records of the content
    rows of the main export under the lookups of the three auxiliary files:
    one record for each line of the main export after the first. *)
Theorem pipeline_returns_one_record_per_line console records console' :
  getIngestedWorkspaces getStudyGapAccession sortDataByDuoTypes fs console
  = (Ok records, console') ->
  List.length records = List.length (fileLines fs fileAnVILDataIngestion) - 1
  /\ exists workspaces,
       Permutation records workspaces
       /\ Forall2 (fun contentRow r =>
                     buildWorkspaceRow getStudyGapAccession contentRow
                       (buildIngestedHeaders (fileLines fs fileAnVILDataIngestion))
                       (lookupOf fs fileTerraDataIngestionCounts WORKSPACE SAMPLES)
                       (lookupOf fs fileAnVILDataIngestionAccession PROJECT_ID DB_GAP_ID)
                       (lookupOf fs fileTerraDataIngestionFileSize WORKSPACE SIZE)
                     = Ok r)
                  (skipn 1 (fileLines fs fileAnVILDataIngestion)) workspaces.
Proof.
  intros H. apply getIngestedWorkspaces_inv in H as (workspaces & -> & Hrows).
  split.
  - rewrite (Permutation_length (sort_rearranges _ _ _)).
    pose proof Hrows as Hlen. apply Forall2_length in Hlen.
    rewrite <- Hlen. now rewrite length_skipn.
  - exists workspaces. split; [apply sort_rearranges | exact Hrows].
Qed.

(** X7. When the sample-count file is missing, every record the pipeline
    returns has the samples 0, and when the file-size file is missing, every
    record has the size 0: a missing lookup file degrades to zeros. *)
Theorem pipeline_zeros_without_lookup_files console records console' :
  getIngestedWorkspaces getStudyGapAccession sortDataByDuoTypes fs console
  = (Ok records, console') ->
  (fs fileTerraDataIngestionCounts = None ->
   Forall (fun r : object => r !! "samples" = Some (VNumber zero)) records)
  /\ (fs fileTerraDataIngestionFileSize = None ->
      Forall (fun r : object => r !! "size" = Some (VNumber zero)) records).
Proof.
  intros H. apply getIngestedWorkspaces_inv in H as (workspaces & -> & Hrows).
  split; intros Hmissing;
    apply (Permutation_Forall (Permutation_sym (sort_rearranges _ _ _)));
    rewrite (lookupOf_missing _ _ _ _ Hmissing) in Hrows;
    induction Hrows as [|row r rows rs Hr _ IH]; constructor; try assumption;
    apply buildWorkspaceRow_inv in Hr as (pid & segment & accession & _ & _ & _ & ->).
  - now rewrite workspaceRecord_samples.
  - now rewrite workspaceRecord_size.
Qed.

(** X8. A main export without the line break CR LF in it, such as a header
    row alone or a file whose lines end in LF only, is a single line: the
    pipeline returns no record and does not raise. *)
Theorem pipeline_single_line_export_is_empty content console :
  fs fileAnVILDataIngestion = Some content ->
  occurs CRLF content = false ->
  fst (getIngestedWorkspaces getStudyGapAccession sortDataByDuoTypes fs console) = Ok [].
Proof.
  intros Hfile Hno. rewrite getIngestedWorkspaces_eq. cbn [fst].
  unfold fileLines at 1 2. rewrite Hfile, (split_no_occurrence _ _ Hno).
  unfold buildWorkspaces. cbn [skipn map promiseAll].
  now rewrite (Permutation_nil (Permutation_sym (sort_rearranges [] _ _))).
Qed.

End SortedOutput.

Lemma mainOnlyFiles_returns :
  returned (fst (getIngestedWorkspaces exampleResolver keepOrder mainOnlyFiles [])) = true.
Proof. vm_compute. reflexivity. Qed.

Lemma pipeline_returns_one_record_per_line_witness :
  match getIngestedWorkspaces exampleResolver keepOrder mainOnlyFiles [] with
  | (Ok records, _) => List.length records = 2
  | (Throw _, _) => False
  end.
Proof.
  pose proof mainOnlyFiles_returns as Hret.
  destruct (getIngestedWorkspaces exampleResolver keepOrder mainOnlyFiles [])
    as [[records|e] console'] eqn:E; [|discriminate Hret].
  destruct (pipeline_returns_one_record_per_line exampleResolver keepOrder mainOnlyFiles
              (fun records _ _ => Permutation_refl records) [] records console' E)
    as [Hlen _].
  rewrite Hlen. vm_compute. reflexivity.
Defined.

Lemma pipeline_zeros_without_lookup_files_witness :
  mainOnlyFiles fileTerraDataIngestionCounts = None
  /\ mainOnlyFiles fileTerraDataIngestionFileSize = None
  /\ match getIngestedWorkspaces exampleResolver keepOrder mainOnlyFiles [] with
     | (Ok records, _) =>
         Forall (fun r : object => r !! "samples" = Some (VNumber zero)) records
         /\ Forall (fun r : object => r !! "size" = Some (VNumber zero)) records
     | (Throw _, _) => False
     end.
Proof.
  split; [reflexivity|]. split; [reflexivity|].
  pose proof mainOnlyFiles_returns as Hret.
  destruct (getIngestedWorkspaces exampleResolver keepOrder mainOnlyFiles [])
    as [[records|e] console'] eqn:E; [|discriminate Hret].
  destruct (pipeline_zeros_without_lookup_files exampleResolver keepOrder mainOnlyFiles
              (fun records _ _ => Permutation_refl records) [] records console' E)
    as [Hsamples Hsizes].
  split; [apply Hsamples | apply Hsizes]; reflexivity.
Defined.

Lemma pipeline_single_line_export_is_empty_witness :
  headerOnlyFiles fileAnVILDataIngestion = Some ("name" ++ TAB ++ "library:numSubjects")%string
  /\ occurs CRLF ("name" ++ TAB ++ "library:numSubjects")%string = false
  /\ fst (getIngestedWorkspaces exampleResolver keepOrder headerOnlyFiles []) = Ok [].
Proof.
  split; [reflexivity|]. split; [vm_compute; reflexivity|].
  apply (pipeline_single_line_export_is_empty exampleResolver keepOrder headerOnlyFiles
           (fun records _ _ => Permutation_refl records)
           ("name" ++ TAB ++ "library:numSubjects")%string []).
  - reflexivity.
  - vm_compute. reflexivity.
Defined.

(** ** Records, further *)

Lemma keyAt_beyond_headers headers j :
  List.length headers <= j -> keyAt headers j = Absent.
Proof.
  intros H. unfold keyAt, index.
  assert (nth_error headers j = None) as -> by now apply nth_error_None.
  reflexivity.
Qed.

(** A reduction over the columns stops at the end of the header row, when
    the columns after it are not selected. *)
Lemma rowFrom_firstn sel headers fields i acc :
  (forall j, List.length headers <= j -> sel j = false) ->
  rowFrom sel headers fields i acc
  = rowFrom sel headers (firstn (List.length headers - i) fields) i acc.
Proof.
  intros Hsel. revert i acc. induction fields as [|datum rest IH]; intros i acc.
  - now rewrite firstn_nil.
  - destruct (List.length headers - i) as [|k] eqn:E.
    + cbn [firstn rowFrom]. rewrite Hsel by lia. rewrite IH.
      replace (List.length headers - S i) with 0 by lia. reflexivity.
    + cbn [firstn rowFrom]. rewrite IH.
      replace (List.length headers - S i) with k by lia. reflexivity.
Qed.

Lemma ingestedRow_firstn contentRow headers :
  ingestedRow contentRow headers
  = rowFrom (fun i => truthy (memberValue (keyAt headers i))) headers
      (firstn (List.length headers) (split contentRow TAB)) 0 ∅.
Proof.
  unfold ingestedRow. rewrite rowFrom_firstn.
  - now rewrite Nat.sub_0_r.
  - intros j Hj. now rewrite keyAt_beyond_headers.
Qed.

Lemma derived_fields_present (row : object) pid segment accession samples studies sizes :
  Forall (fun field =>
            is_Some (workspaceRecord row pid segment accession samples studies sizes !! field))
         derivedFields.
Proof. repeat constructor; eexists; derived_lookup. Qed.

Lemma workspaceRecord_study (row : object) pid segment accession samples studies sizes :
  workspaceRecord row pid segment accession samples studies sizes !! "dbGapId"
  = Some (mapGet studies (VString pid))
  /\ workspaceRecord row pid segment accession samples studies sizes !! "dbGapIdAccession"
     = Some accession.
Proof. split; derived_lookup. Qed.

Section RecordProperties.

Variable getStudyGapAccession : value -> result value.

(** X9. Every record the transformer returns has the six derived fields as
    own fields, and every other field of the record comes from a column of
    the row whose header has a workspace key: it holds the Field Coercion of
    the text of such a column. A column whose header has no workspace key
    leaves nothing in the record. *)
Theorem record_fields_come_from_mapped_columns
    contentRow headers samples studies sizes r :
  buildWorkspaceRow getStudyGapAccession contentRow headers samples studies sizes = Ok r ->
  Forall (fun field => is_Some (r !! field)) derivedFields
  /\ (forall p v,
         r !! p = Some v ->
         ~ In p derivedFields ->
         exists i datum,
           nth_error (split contentRow TAB) i = Some datum
           /\ truthy (memberValue (readTable HEADERS_TO_WORKSPACE_KEY
                                     (propertyName (index headers i)))) = true
           /\ toPropertyKey (readTable HEADERS_TO_WORKSPACE_KEY
                               (propertyName (index headers i))) = p
           /\ buildIngestedDatum (VString datum)
                (readTable HEADERS_TO_WORKSPACE_KEY (propertyName (index headers i))) = Ok v).
Proof.
  intros H. apply buildWorkspaceRow_inv in H as (pid & segment & accession & _ & _ & _ & ->).
  split; [apply derived_fields_present|].
  intros p v Hp Hnot.
  rewrite workspaceRecord_lookup_other in Hp by assumption.
  unfold ingestedRow in Hp. rewrite rowFrom_lookup, lookup_empty in Hp.
  destruct (lastWrite _ headers (split contentRow TAB) 0 p) as [w|] eqn:E; [|discriminate].
  injection Hp as ->.
  apply lastWrite_inv in E as (k & datum & Hnth & Hsel & Hkey & ->).
  exists k, datum. cbn [Nat.add] in *. fold (keyAt headers k).
  repeat split; try assumption. apply buildIngestedDatum_string.
Qed.

(** X10. In every record the transformer returns, the study id is what the
    accession lookup holds for the project id of the record ([undefined]
    when it holds nothing), and the study accession is what the resolver
    returned for that very study id. *)
Theorem accession_is_resolved_from_study_id
    contentRow headers samples studies sizes r :
  buildWorkspaceRow getStudyGapAccession contentRow headers samples studies sizes = Ok r ->
  exists pid accession,
    r !! "projectId" = Some (VString pid)
    /\ r !! "dbGapId" = Some (mapGet studies (VString pid))
    /\ r !! "dbGapIdAccession" = Some accession
    /\ getStudyGapAccession (mapGet studies (VString pid)) = Ok accession.
Proof.
  intros H. apply buildWorkspaceRow_inv in H as (pid & segment & accession & Hpid & _ & Hacc & ->).
  exists pid, accession.
  destruct (workspaceRecord_study (ingestedRow contentRow headers) pid segment accession
              samples studies sizes) as [Hstudy Haccession].
  repeat split; try assumption.
  rewrite workspaceRecord_projectId. now apply get_own.
Qed.

(** X11. When the resolver rejects the study id of a row whose project id
    has a second segment, the transformer rejects with the resolver's
    rejection: no record with a missing accession is made up. *)
Theorem resolver_rejection_is_passed_on
    contentRow headers samples studies sizes row pid segment e :
  buildIngestedRow contentRow headers = Ok row ->
  get row "projectId" = VString pid ->
  index (split pid "_") 1 = Some segment ->
  getStudyGapAccession (mapGet studies (VString pid)) = Throw e ->
  buildWorkspaceRow getStudyGapAccession contentRow headers samples studies sizes = Throw e.
Proof.
  rewrite buildIngestedRow_ok. intros [= <-] Hpid Hseg Hrej.
  now rewrite buildWorkspaceRow_eq, Hpid, Hseg, Hrej.
Qed.

(** X12. The transformer reads as many fields of a content row as there are
    headers: two rows with the same fields up to the length of the header
    row give the same result, so trailing fields without a header are
    ignored. *)
Theorem fields_beyond_the_headers_are_ignored
    contentRow contentRow' headers samples studies sizes :
  firstn (List.length headers) (split contentRow TAB)
  = firstn (List.length headers) (split contentRow' TAB) ->
  buildWorkspaceRow getStudyGapAccession contentRow headers samples studies sizes
  = buildWorkspaceRow getStudyGapAccession contentRow' headers samples studies sizes.
Proof.
  intros H. rewrite !buildWorkspaceRow_eq.
  now rewrite (ingestedRow_firstn contentRow), (ingestedRow_firstn contentRow'), H.
Qed.

(** X13. A project id without an underscore makes the transformer raise a
    TypeError, whatever the lookups and the resolver: the consortium rule is
    applied to [undefined]. *)
Theorem project_id_without_underscore_is_rejected
    contentRow headers samples studies sizes row pid :
  buildIngestedRow contentRow headers = Ok row ->
  get row "projectId" = VString pid ->
  anyChar (Ascii.eqb "_") pid = false ->
  buildWorkspaceRow getStudyGapAccession contentRow headers samples studies sizes
  = Throw TypeError.
Proof.
  rewrite buildIngestedRow_ok. intros [= <-] Hpid Hno.
  apply buildWorkspaceRow_throws with (pid := pid); [assumption|].
  change "_" with (String "_"%char EmptyString). now rewrite split_no_separator.
Qed.

(** X14. A row without a project id, one whose headers have neither a name
    nor a Workspace column within the fields of the row, makes the
    transformer raise a TypeError. *)
Theorem row_without_project_id_is_rejected contentRow headers samples studies sizes :
  (forall i datum,
      nth_error (split contentRow TAB) i = Some datum ->
      index headers i <> Some "name" /\ index headers i <> Some "Workspace") ->
  buildWorkspaceRow getStudyGapAccession contentRow headers samples studies sizes
  = Throw TypeError.
Proof.
  intros Hnone. rewrite buildWorkspaceRow_eq.
  assert (ingestedRow contentRow headers !! "projectId" = None) as Hrow.
  { unfold ingestedRow. rewrite rowFrom_lookup, lookup_empty.
    destruct (lastWrite _ headers (split contentRow TAB) 0 "projectId") as [w|] eqn:E;
      [|reflexivity].
    apply lastWrite_inv in E as (k & datum & Hnth & Hsel & Hkey & _).
    cbn [Nat.add] in *. destruct (Hnone k datum Hnth) as [Hname Hworkspace].
    assert (keyAt headers k = Own "projectId") as Hk.
    { apply written_under_canonical; [|assumption..].
      unfold canonicalFields. simpl. tauto. }
    exfalso. unfold keyAt, readTable in Hk.
    destruct (assoc (propertyName (index headers k)) HEADERS_TO_WORKSPACE_KEY) as [u|] eqn:Ea.
    - injection Hk as ->. apply assoc_In in Ea.
      assert (propertyName (index headers k) = "name"
              \/ propertyName (index headers k) = "Workspace") as Hh.
      { simpl in Ea.
        repeat (destruct Ea as [Ea|Ea];
                [first [ discriminate Ea
                       | apply (f_equal fst) in Ea; cbn [fst] in Ea; rewrite <- Ea; now auto ]|]).
        destruct Ea. }
      destruct (index headers k) as [h|]; simpl in Hh.
      + destruct Hh as [->| ->]; tauto.
      + destruct Hh; discriminate.
    - destruct (includesString _ _); discriminate. }
  unfold get. rewrite Hrow. reflexivity.
Qed.

End RecordProperties.

Lemma record_fields_come_from_mapped_columns_witness :
  exists r,
    buildWorkspaceRow exampleResolver exampleRow exampleHeaders [] [] [] = Ok r
    /\ Forall (fun field => is_Some (r !! field)) derivedFields.
Proof.
  eexists. split; [apply exampleRow_record|].
  apply (record_fields_come_from_mapped_columns exampleResolver
           exampleRow exampleHeaders [] [] [] _ (exampleRow_record [])).
Defined.

Lemma exampleRow_record_with_study :
  buildWorkspaceRow exampleResolver exampleRow exampleHeaders [] exampleStudies []
  = Ok (workspaceRecord (ingestedRow exampleRow exampleHeaders)
          "AN_CCDG_something" "CCDG" (VString "phs000123.v1.p1") [] exampleStudies []).
Proof. apply buildWorkspaceRow_intro; vm_compute; reflexivity. Qed.

Lemma accession_is_resolved_from_study_id_witness :
  exists r,
    buildWorkspaceRow exampleResolver exampleRow exampleHeaders [] exampleStudies [] = Ok r
    /\ r !! "dbGapId" = Some (VString "phs000123")
    /\ r !! "dbGapIdAccession" = Some (VString "phs000123.v1.p1").
Proof.
  eexists. split; [apply exampleRow_record_with_study|].
  destruct (accession_is_resolved_from_study_id exampleResolver
              exampleRow exampleHeaders [] exampleStudies [] _ exampleRow_record_with_study)
    as (pid & accession & Hpid & Hstudy & Haccession & Hresolved).
  assert (pid = "AN_CCDG_something") as ->.
  { rewrite workspaceRecord_projectId in Hpid. vm_compute in Hpid. congruence. }
  rewrite Hstudy, Haccession. split; [reflexivity|].
  f_equal. vm_compute in Hresolved. congruence.
Defined.

Lemma resolver_rejection_is_passed_on_witness :
  buildWorkspaceRow rejectingResolver exampleRow exampleHeaders [] [] [] = Throw Rejection.
Proof.
  apply (resolver_rejection_is_passed_on rejectingResolver exampleRow exampleHeaders [] [] []
           (ingestedRow exampleRow exampleHeaders) "AN_CCDG_something" "CCDG" Rejection).
  - apply buildIngestedRow_ok.
  - vm_compute. reflexivity.
  - vm_compute. reflexivity.
  - reflexivity.
Defined.

Lemma fields_beyond_the_headers_are_ignored_witness :
  firstn (List.length exampleHeaders) (split (exampleRow ++ TAB ++ "left over")%string TAB)
  = firstn (List.length exampleHeaders) (split exampleRow TAB)
  /\ buildWorkspaceRow exampleResolver (exampleRow ++ TAB ++ "left over")%string
       exampleHeaders [] [] []
     = buildWorkspaceRow exampleResolver exampleRow exampleHeaders [] [] [].
Proof.
  assert (firstn (List.length exampleHeaders)
            (split (exampleRow ++ TAB ++ "left over")%string TAB)
          = firstn (List.length exampleHeaders) (split exampleRow TAB)) as H
      by (vm_compute; reflexivity).
  split; [exact H|].
  apply (fields_beyond_the_headers_are_ignored exampleResolver _ _ _ [] [] [] H).
Defined.

Lemma project_id_without_underscore_is_rejected_witness :
  buildWorkspaceRow exampleResolver "" ["name"] [] [] [] = Throw TypeError.
Proof.
  apply (project_id_without_underscore_is_rejected exampleResolver "" ["name"] [] [] []
           (ingestedRow "" ["name"]) "").
  - apply buildIngestedRow_ok.
  - vm_compute. reflexivity.
  - reflexivity.
Defined.

Lemma row_without_project_id_is_rejected_witness :
  buildWorkspaceRow exampleResolver ("12" ++ TAB ++ "2,048")%string
    ["library:numSubjects"; "File Size"] [] [] [] = Throw TypeError.
Proof.
  apply row_without_project_id_is_rejected.
  intros i datum Hnth.
  destruct i as [|[|i]].
  - split; discriminate.
  - split; discriminate.
  - vm_compute in Hnth. destruct i; discriminate Hnth.
Defined.

(** ** Field Coercion, further *)

(** X15. Field Coercion of a datum that is not there: under the consortium
    field and under the fields of the array and number allow-lists it raises
    a TypeError, and under every other key [undefined] passes through. *)
Theorem coercion_of_missing_datum key :
  buildIngestedDatum VUndefined key =
  if memberEq key (Own "consortium")
     || includes ALLOW_LIST_WORKSPACE_FIELD_ARRAY (memberValue key)
     || includes ALLOW_LIST_WORKSPACE_FIELD_NUMBER (memberValue key)
  then Throw TypeError
  else Ok VUndefined.
Proof.
  unfold buildIngestedDatum.
  destruct (memberEq key (Own "consortium")) eqn:E.
  - destruct key as [|k|q]; try discriminate E. simpl in E.
    apply String.eqb_eq in E. subst k. reflexivity.
  - rewrite (formatIngestedDatum_other _ _ E). cbn [rbind orb].
    destruct (includes ALLOW_LIST_WORKSPACE_FIELD_ARRAY (memberValue key)); [reflexivity|].
    destruct (includes ALLOW_LIST_WORKSPACE_FIELD_NUMBER (memberValue key)); reflexivity.
Qed.

(** X16. Under a field of the array allow-list a text without a comma
    coerces to the list of that one text; a singular value, and also the
    empty text, is still a list of one element. *)
Theorem array_field_of_a_single_value field text :
  In field ALLOW_LIST_WORKSPACE_FIELD_ARRAY ->
  anyChar (Ascii.eqb ",") text = false ->
  buildIngestedDatum (VString text) (Own field) = Ok (VArray [text]).
Proof.
  intros Hfield Hno.
  assert (buildIngestedDatum (VString text) (Own field) = Ok (VArray (split text ","))) as ->.
  { simpl in Hfield. destruct Hfield as [<-|[<-|[<-|[]]]]; reflexivity. }
  change "," with (String ","%char EmptyString). now rewrite split_no_separator.
Qed.

Lemma array_field_of_a_single_value_witness :
  buildIngestedDatum (VString "Whole Genome") (Own "dataTypes")
  = Ok (VArray ["Whole Genome"]).
Proof.
  apply array_field_of_a_single_value.
  - simpl. tauto.
  - reflexivity.
Defined.

Lemma coercion_of_grouped_digits_witness :
  buildIngestedDatum (VString "1,234,567") (Own "samples") = Ok (VNumber (ofZ 1234567)).
Proof.
  apply (coercion_of_grouped_digits "samples" "1,234,567").
  - simpl. tauto.
  - reflexivity.
  - reflexivity.
Defined.

Lemma access_always_private_witness :
  exists r,
    buildWorkspaceRow exampleResolver exampleRow exampleHeaders [] [] [] = Ok r
    /\ r !! "access" = Some (VString "Private").
Proof.
  eexists. split; [apply exampleRow_record|].
  apply (access_always_private exampleResolver exampleRow exampleHeaders [] [] [] _
           (exampleRow_record [])).
Defined.

(** ** Headers that name an inherited member *)

Lemma inheritedToString_injective p q :
  In p objectPrototypeMembers -> In q objectPrototypeMembers ->
  inheritedToString p = inheritedToString q -> p = q.
Proof.
  intros Hp Hq Heq.
  assert (inheritedToString_distinct = true) as H by (vm_compute; reflexivity).
  unfold inheritedToString_distinct in H.
  rewrite forallb_forall in H. specialize (H p Hp).
  rewrite forallb_forall in H. specialize (H q Hq).
  rewrite Heq, String.eqb_refl in H. simpl in H. now apply String.eqb_eq.
Qed.

Lemma readTable_Inherited table p q :
  readTable table p = Inherited q -> q = p /\ In p objectPrototypeMembers.
Proof.
  unfold readTable. destruct (assoc p table); [discriminate|].
  destruct (includesString objectPrototypeMembers p) eqn:E; [|discriminate].
  intros [= <-]. split; [reflexivity | now apply includesString_In].
Qed.

Lemma keyAt_inherited headers i h :
  index headers i = Some h -> In h objectPrototypeMembers -> keyAt headers i = Inherited h.
Proof.
  intros Hi Hh. unfold keyAt. rewrite Hi. cbn [propertyName].
  unfold objectPrototypeMembers in Hh. simpl in Hh.
  repeat (destruct Hh as [<-|Hh]; [reflexivity|]). destruct Hh.
Qed.

(** X17. A column whose header is the name of a member every object
    inherits (constructor, toString, valueOf, ...) is not discarded, although
    the header is none of the table: the record has an own field, under a
    name that is no canonical field, holding the text of the column as it
    is. *)
Theorem inherited_header_is_not_discarded
    getStudyGapAccession contentRow headers samples studies sizes r i h datum :
  buildWorkspaceRow getStudyGapAccession contentRow headers samples studies sizes = Ok r ->
  index headers i = Some h ->
  In h objectPrototypeMembers ->
  nth_error (split contentRow TAB) i = Some datum ->
  (forall j, i < j -> j < List.length (split contentRow TAB) -> index headers j <> Some h) ->
  exists p,
    ~ In p canonicalFields
    /\ ~ In h (map fst HEADERS_TO_WORKSPACE_KEY)
    /\ r !! p = Some (VString datum).
Proof.
  intros H Hi Hh Hnth Hlast.
  apply buildWorkspaceRow_inv in H as (pid & segment & accession & _ & _ & _ & ->).
  pose proof (keyAt_inherited headers i h Hi Hh) as Hkey.
  assert (~ In (inheritedToString h) canonicalFields) as Hcan.
  { intros Hin. now apply (inheritedToString_not_canonical h _ Hin). }
  exists (inheritedToString h). split; [exact Hcan|]. split.
  { unfold objectPrototypeMembers in Hh. simpl in Hh |- *.
    repeat (destruct Hh as [<-|Hh]; [intuition discriminate|]). destruct Hh. }
  rewrite workspaceRecord_lookup_other.
  - unfold ingestedRow. rewrite rowFrom_lookup.
    rewrite (lastWrite_at _ headers _ 0 (inheritedToString h) i datum); cbn [Nat.add].
    + rewrite Hkey. reflexivity.
    + assumption.
    + now rewrite Hkey.
    + now rewrite Hkey.
    + intros j Hj Hlen Hsel Heq.
      destruct (keyAt headers j) as [|s|q] eqn:Ej; cbn [toPropertyKey] in Heq.
      * discriminate Hsel.
      * subst s. apply Hcan. unfold keyAt in Ej. now apply readTable_Own in Ej.
      * unfold keyAt in Ej. apply readTable_Inherited in Ej as [-> Hq].
        apply inheritedToString_injective in Heq; [|assumption..].
        apply (Hlast j Hj Hlen).
        destruct (index headers j) as [hj|]; cbn [propertyName] in *; [now subst|].
        subst h. clear -Hh. unfold objectPrototypeMembers in Hh. simpl in Hh.
        repeat (destruct Hh as [Hh|Hh]; [discriminate Hh|]). destruct Hh.
  - intros Hder. apply Hcan. unfold derivedFields, canonicalFields in *. simpl in *.
    intuition.
Qed.

Lemma inherited_header_is_not_discarded_witness :
  exists r,
    buildWorkspaceRow exampleResolver inheritedRow inheritedHeaders [] [] [] = Ok r
    /\ exists p, ~ In p canonicalFields /\ r !! p = Some (VString "anything").
Proof.
  assert (buildWorkspaceRow exampleResolver inheritedRow inheritedHeaders [] [] []
          = Ok (workspaceRecord (ingestedRow inheritedRow inheritedHeaders)
                  "AN_CCDG_something" "CCDG" VUndefined [] [] [])) as E
      by (apply buildWorkspaceRow_intro; vm_compute; reflexivity).
  eexists. split; [exact E|].
  destruct (inherited_header_is_not_discarded exampleResolver inheritedRow inheritedHeaders
              [] [] [] _ 1 "constructor" "anything" E)
    as (p & Hp & _ & Hr).
  - reflexivity.
  - simpl. tauto.
  - vm_compute. reflexivity.
  - intros j Hj Hlen.
    assert (List.length (split inheritedRow TAB) = 2) as Htwo by (vm_compute; reflexivity).
    lia.
  - exists p. now split.
Defined.

(** ** Lookups in the pipeline *)

Lemma buildKeyValuePair_setAll contentRows headers keyPair valuePair :
  toPropertyKey (readTable HEADERS_TO_WORKSPACE_KEY (INGESTION_HEADERS_TO_WORKSPACE_KEY keyPair))
  <> toPropertyKey (readTable HEADERS_TO_WORKSPACE_KEY
                      (INGESTION_HEADERS_TO_WORKSPACE_KEY valuePair)) ->
  buildKeyValuePair contentRows headers keyPair valuePair
  = Ok (setAll (lookupEntries contentRows headers keyPair valuePair)).
Proof.
  intros Hne. unfold lookupEntries, setAll.
  rewrite buildKeyValuePair_eq. f_equal.
  generalize (@nil (value * value)).
  induction (skipn 1 contentRows) as [|contentRow rows IH]; intros m; simpl; [reflexivity|].
  rewrite (keyValueRow_get headers keyPair valuePair contentRow keyPair valuePair);
    [|now left|assumption].
  rewrite (keyValueRow_get headers keyPair valuePair contentRow valuePair keyPair);
    [|now right|now apply not_eq_sym].
  apply IH.
Qed.

(** X18. In the pipeline the samples of a record is the count of the last
    line of the count file whose Workspace is the project id of the record,
    read as a number, or 0 when there is no such line or that count is falsy
    (0, or no number at all); the size is read from the file-size file in
    the same way. *)
Theorem samples_and_size_come_from_the_last_line
    getStudyGapAccession fs contentRow headers studies r :
  buildWorkspaceRow getStudyGapAccession contentRow headers
    (lookupOf fs fileTerraDataIngestionCounts WORKSPACE SAMPLES) studies
    (lookupOf fs fileTerraDataIngestionFileSize WORKSPACE SIZE) = Ok r ->
  exists pid,
    r !! "projectId" = Some (VString pid)
    /\ r !! "samples"
       = Some (logicalOr
                 (lastValue
                    (lookupEntries (fileLines fs fileTerraDataIngestionCounts)
                       (buildIngestedHeaders (fileLines fs fileTerraDataIngestionCounts))
                       WORKSPACE SAMPLES)
                    (VString pid))
                 (VNumber zero))
    /\ r !! "size"
       = Some (logicalOr
                 (lastValue
                    (lookupEntries (fileLines fs fileTerraDataIngestionFileSize)
                       (buildIngestedHeaders (fileLines fs fileTerraDataIngestionFileSize))
                       WORKSPACE SIZE)
                    (VString pid))
                 (VNumber zero)).
Proof.
  intros H. apply buildWorkspaceRow_inv in H as (pid & segment & accession & Hpid & _ & _ & ->).
  exists pid. split; [rewrite workspaceRecord_projectId; now apply get_own|].
  assert (forall fileName valuePair,
             valuePair = SAMPLES \/ valuePair = SIZE ->
             forall k,
               mapGet (lookupOf fs fileName WORKSPACE valuePair) k
               = lastValue (lookupEntries (fileLines fs fileName)
                              (buildIngestedHeaders (fileLines fs fileName))
                              WORKSPACE valuePair) k) as Hget.
  { intros fileName valuePair Hv k. unfold lookupOf.
    rewrite buildKeyValuePair_setAll by (destruct Hv as [-> | ->]; discriminate).
    apply (mapGet_fold _ []). }
  split.
  - rewrite workspaceRecord_samples, Hget by now left. reflexivity.
  - rewrite workspaceRecord_size, Hget by now right. reflexivity.
Qed.

Lemma samples_and_size_come_from_the_last_line_witness :
  exists r,
    buildWorkspaceRow exampleResolver exampleRow exampleHeaders
      (lookupOf exampleFiles fileTerraDataIngestionCounts WORKSPACE SAMPLES) []
      (lookupOf exampleFiles fileTerraDataIngestionFileSize WORKSPACE SIZE) = Ok r
    /\ r !! "samples" = Some (VNumber (ofZ 7))
    /\ r !! "size" = Some (VNumber zero).
Proof.
  assert (buildWorkspaceRow exampleResolver exampleRow exampleHeaders
            (lookupOf exampleFiles fileTerraDataIngestionCounts WORKSPACE SAMPLES) []
            (lookupOf exampleFiles fileTerraDataIngestionFileSize WORKSPACE SIZE)
          = Ok (workspaceRecord (ingestedRow exampleRow exampleHeaders)
                  "AN_CCDG_something" "CCDG" VUndefined
                  (lookupOf exampleFiles fileTerraDataIngestionCounts WORKSPACE SAMPLES) []
                  (lookupOf exampleFiles fileTerraDataIngestionFileSize WORKSPACE SIZE))) as E
      by (apply buildWorkspaceRow_intro; vm_compute; reflexivity).
  eexists. split; [exact E|].
  destruct (samples_and_size_come_from_the_last_line exampleResolver exampleFiles
              exampleRow exampleHeaders [] _ E) as (pid & Hpid & Hsamples & Hsize).
  assert (pid = "AN_CCDG_something") as ->.
  { rewrite workspaceRecord_projectId in Hpid. vm_compute in Hpid. congruence. }
  rewrite Hsamples, Hsize. split; vm_compute; reflexivity.
Defined.

(** ** Text outside ASCII *)

(** The consortium rule on letters outside ASCII: they are upper-cased as
    well, a dotless i becomes the I of a table entry, and a sharp s becomes
    two letters. *)
Lemma consortium_rule_outside_ascii :
  buildIngestedDatum (VString "gtéx") (Own "consortium") = Ok (VString "GTÉX")
  /\ buildIngestedDatum (VString "nhgrı") (Own "consortium") = Ok (VString "NHGRI")
  /\ buildIngestedDatum (VString "straße") (Own "consortium") = Ok (VString "STRASSE").
Proof. repeat split; vm_compute; reflexivity. Qed.

(** A number with white space outside ASCII around it, here a no-break
    space, a byte order mark and a line separator, is read as the number. *)
Lemma number_within_unicode_white_space :
  buildIngestedDatum (VString (noBreakSpace ++ "12")) (Own "samples") = Ok (VNumber (ofZ 12))
  /\ buildIngestedDatum (VString (byteOrderMark ++ "1,234" ++ lineSeparator)) (Own "size")
     = Ok (VNumber (ofZ 1234)).
Proof. repeat split; vm_compute; reflexivity. Qed.

(** ** Which rejection the pipeline reports *)

(** A row that raises its TypeError before the await is reported before the
    rejection of the resolver for an earlier row; with rejections of the
    resolver alone, the pipeline rejects with the resolver's rejection. *)
Lemma type_error_settles_before_rejection :
  promiseAll [Throw Rejection; Ok 1; Throw TypeError] = Throw TypeError
  /\ fst (getIngestedWorkspaces rejectingResolver keepOrder publicDirectory [])
     = Throw TypeError
  /\ fst (getIngestedWorkspaces rejectingResolver keepOrder mainOnlyFiles [])
     = Throw Rejection.
Proof. repeat split; vm_compute; reflexivity. Qed.
